(** * Monthly cloud cost job: a shallow embedding of [main.py]

    The job reads a YAML configuration, computes the previous calendar
    month, asks AWS Cost Explorer and Azure Cost Management for the spend of
    every configured account and inserts one row per fetched figure into a
    PostgreSQL table.

    Python values are embedded as the inductive [pyval]; exceptions and
    [SystemExit] are explicit in the [result] type; every call that leaves
    the process (files, clock, SDK clients, database) is answered by a
    [World] that sees the whole history of earlier events, and is recorded
    in that history. *)

From Stdlib Require Import ZArith List String Ascii Bool Lia DecimalString.
From Stdlib Require Import Floats.PrimFloat.
Import ListNotations.

Local Open Scope string_scope.
Local Open Scope list_scope.
Local Open Scope Z_scope.

(* ===================================================================== *)
(** ** The [datetime] module

    The arithmetic below follows the proleptic Gregorian ordinal of
    CPython's [datetime] ([_ymd2ord], [_ord2ymd], [date.__add__],
    [strftime]).  Only the date fields are kept: every format string of
    the program uses date directives only, so the time of day never
    reaches an output. *)

Module datetime.

Record date := mkdate { year : Z; month : Z; day : Z }.

Definition MINYEAR : Z := 1.
Definition MAXYEAR : Z := 9999.
Definition _MAXORDINAL : Z := 3652059.

Definition _DAYS_IN_MONTH : list Z :=
  [-1; 31; 28; 31; 30; 31; 30; 31; 31; 30; 31; 30; 31].

Definition _DAYS_BEFORE_MONTH : list Z :=
  [-1; 0; 31; 59; 90; 120; 151; 181; 212; 243; 273; 304; 334].

Definition tbl (t : list Z) (i : Z) : Z := nth (Z.to_nat i) t 0.

Definition _is_leap (y : Z) : bool :=
  (y mod 4 =? 0) && (negb (y mod 100 =? 0) || (y mod 400 =? 0)).

Definition _days_before_year (y : Z) : Z :=
  let y := y - 1 in y * 365 + y / 4 - y / 100 + y / 400.

Definition _days_in_month (y m : Z) : Z :=
  if (m =? 2) && _is_leap y then 29 else tbl _DAYS_IN_MONTH m.

Definition _days_before_month (y m : Z) : Z :=
  tbl _DAYS_BEFORE_MONTH m + (if (2 <? m) && _is_leap y then 1 else 0).

Definition _ymd2ord (y m d : Z) : Z :=
  _days_before_year y + _days_before_month y m + d.

Definition _DI400Y : Z := 146097.
Definition _DI100Y : Z := 36524.
Definition _DI4Y : Z := 1461.

Definition _ord2ymd (n : Z) : date :=
  let n := n - 1 in
  let n400 := n / _DI400Y in
  let n := n mod _DI400Y in
  let year := n400 * 400 + 1 in
  let n100 := n / _DI100Y in
  let n := n mod _DI100Y in
  let n4 := n / _DI4Y in
  let n := n mod _DI4Y in
  let n1 := n / 365 in
  let n := n mod 365 in
  let year := year + (n100 * 100 + n4 * 4 + n1) in
  if (n1 =? 4) || (n100 =? 4) then mkdate (year - 1) 12 31
  else
    let leapyear := (n1 =? 3) && (negb (n4 =? 24) || (n100 =? 3)) in
    let month := Z.shiftr (n + 50) 5 in
    let preceding :=
      tbl _DAYS_BEFORE_MONTH month
      + (if (2 <? month) && leapyear then 1 else 0) in
    if n <? preceding then
      let month := month - 1 in
      let preceding :=
        preceding - (tbl _DAYS_IN_MONTH month
                     + (if (month =? 2) && leapyear then 1 else 0)) in
      mkdate year month (n - preceding + 1)
    else mkdate year month (n - preceding + 1).

Definition toordinal (d : date) : Z := _ymd2ord (year d) (month d) (day d).

Definition fromordinal (n : Z) : date := _ord2ymd n.

(** The constructor's field check: the dates a [datetime] object can hold. *)
Definition valid (d : date) : Prop :=
  MINYEAR <= year d <= MAXYEAR /\ 1 <= month d <= 12 /\
  1 <= day d <= _days_in_month (year d) (month d).

(** [d.replace(day=k)] *)
Definition replace_day (d : date) (k : Z) : date :=
  mkdate (year d) (month d) k.

(** [d - timedelta(days=k)]; [None] is the [OverflowError] raised when the
    result leaves the range of representable dates. *)
Definition sub_days (d : date) (k : Z) : option date :=
  let o := toordinal d - k in
  if (0 <? o) && (o <=? _MAXORDINAL) then Some (fromordinal o) else None.

Definition digit (n : Z) : ascii := ascii_of_nat (48 + Z.to_nat (n mod 10)).

Definition pad2 (n : Z) : string :=
  String (digit (n / 10)) (String (digit n) "").

Definition pad4 (n : Z) : string :=
  String (digit (n / 1000)) (String (digit (n / 100)) (pad2 n)).

(** The year in decimal, on as many digits as it has. *)
Definition decimal (n : Z) : string := NilZero.string_of_int (Z.to_int n).

(** Directives of [strftime], which CPython hands to the C library; as
    glibc renders them: [%Y] the year with century in decimal, without
    padding (so a year below 1000 has fewer than four digits), [%y] the
    year without century, [%m] and [%d] on two digits.  A directive
    outside this set is left in place. *)
Definition directive (d : date) (c : ascii) : string :=
  if Ascii.eqb c "Y" then decimal (year d)
  else if Ascii.eqb c "y" then pad2 (year d mod 100)
  else if Ascii.eqb c "m" then pad2 (month d)
  else if Ascii.eqb c "d" then pad2 (day d)
  else if Ascii.eqb c "%" then "%"
  else String "%" (String c "").

Fixpoint strftime (d : date) (fmt : string) : string :=
  match fmt with
  | "" => ""
  | String c rest =>
      if Ascii.eqb c "%" then
        match rest with
        | String k rest' => (directive d k ++ strftime d rest')%string
        | "" => "%"
        end
      else String c (strftime d rest)
  end.

End datetime.

Import datetime.

(* ===================================================================== *)
(** ** Python values, exceptions and results *)

#[local] Set Warnings "-register-all,-inexact-float".

(** The values a YAML document, a JSON response or an SDK object is made
    of.  Dictionaries keep their insertion order; their keys are strings.
    [PObj] is an instance of a library class with its attributes (SDK
    clients, sessions, credentials, query results, connections). *)
Inductive pyval : Type :=
| PNone
| PBool (b : bool)
| PInt (z : Z)
| PFloat (f : float)
| PStr (s : string)
| PList (l : list pyval)
| PDict (d : list (string * pyval))
| PObj (cls : string) (attrs : list (string * pyval)).

(** Subclasses of [Exception].  [YAMLError] and [FileNotFoundError] are the
    two classes [load_config] names; [OtherError] is any class the program
    does not name (botocore's [ClientError], psycopg2's [OperationalError],
    [PermissionError], ...). *)
Inductive exn_class : Type :=
| FileNotFoundError | YAMLError
| KeyError | IndexError | TypeError | ValueError | AttributeError
| OverflowError
| OtherError (name : string).

Record exn : Type := mkexn { exn_cls : exn_class; exn_msg : string }.

(** How a call ends: a value, an exception of class [Exception], or
    [SystemExit] (which [except Exception] does not catch). *)
Inductive result (A : Type) : Type :=
| Ret (a : A)
| Raise (e : exn)
| SysExit (code : Z).

Arguments Ret {A} a.
Arguments Raise {A} e.
Arguments SysExit {A} code.

Definition quote (s : string) : string := ("'" ++ s ++ "'")%string.

Fixpoint lookup (k : string) (d : list (string * pyval)) : option pyval :=
  match d with
  | [] => None
  | (k', v) :: d' => if String.eqb k k' then Some v else lookup k d'
  end.

Definition type_name (v : pyval) : string :=
  match v with
  | PNone => "NoneType" | PBool _ => "bool" | PInt _ => "int"
  | PFloat _ => "float" | PStr _ => "str" | PList _ => "list"
  | PDict _ => "dict" | PObj cls _ => cls
  end.

Definition not_subscriptable {A} (v : pyval) : result A :=
  Raise (mkexn TypeError
           (quote (type_name v) ++ " object is not subscriptable")%string).

(** [v[k]] for a string key [k]. *)
Definition getitem (v : pyval) (k : string) : result pyval :=
  match v with
  | PDict d =>
      match lookup k d with
      | Some x => Ret x
      | None => Raise (mkexn KeyError (quote k))
      end
  | PList _ =>
      Raise (mkexn TypeError "list indices must be integers or slices, not str")
  | PStr _ => Raise (mkexn TypeError "string indices must be integers, not 'str'")
  | _ => not_subscriptable v
  end.

Fixpoint chars (s : string) : list pyval :=
  match s with
  | "" => []
  | String c s' => PStr (String c "") :: chars s'
  end.

(** [v[0]]: the program indexes sequences at position 0 only. *)
Definition getitem0 (v : pyval) : result pyval :=
  match v with
  | PList l =>
      match l with
      | x :: _ => Ret x
      | [] => Raise (mkexn IndexError "list index out of range")
      end
  | PStr s =>
      match s with
      | String c _ => Ret (PStr (String c ""))
      | "" => Raise (mkexn IndexError "string index out of range")
      end
  | PDict _ => Raise (mkexn KeyError "0")
  | _ => not_subscriptable v
  end.

(** [v.name] *)
Definition getattr (v : pyval) (name : string) : result pyval :=
  let missing :=
    Raise (mkexn AttributeError
             (quote (type_name v) ++ " object has no attribute " ++ quote name)%string) in
  match v with
  | PObj _ attrs =>
      match lookup name attrs with Some x => Ret x | None => missing end
  | _ => missing
  end.

(** The elements [for x in v] visits. *)
Definition py_iter (v : pyval) : result (list pyval) :=
  match v with
  | PList l => Ret l
  | PDict d => Ret (map (fun kv => PStr (fst kv)) d)
  | PStr s => Ret (chars s)
  | _ => Raise (mkexn TypeError (quote (type_name v) ++ " object is not iterable")%string)
  end.

(** Truth value of [v] in a condition. *)
Definition truthy (v : pyval) : bool :=
  match v with
  | PNone => false
  | PBool b => b
  | PInt z => negb (z =? 0)
  | PFloat f => negb (PrimFloat.eqb f PrimFloat.zero)
  | PStr s => negb (String.eqb s "")
  | PList l => match l with [] => false | _ => true end
  | PDict d => match d with [] => false | _ => true end
  | PObj _ _ => true
  end.

(** [len(v)] *)
Definition py_len (v : pyval) : result Z :=
  match v with
  | PList l => Ret (Z.of_nat (List.length l))
  | PDict d => Ret (Z.of_nat (List.length d))
  | PStr s => Ret (Z.of_nat (String.length s))
  | _ => Raise (mkexn TypeError
                  ("object of type " ++ quote (type_name v) ++ " has no len()")%string)
  end.

(** [v == s] for a string literal [s]: values of another type are unequal
    to every string. *)
Definition eq_str (v : pyval) (s : string) : bool :=
  match v with
  | PStr t => String.eqb t s
  | _ => false
  end.

(** [v is not None] *)
Definition is_not_None (v : pyval) : bool :=
  match v with PNone => false | _ => true end.

Definition upper_ascii (c : ascii) : ascii :=
  let n := nat_of_ascii c in
  if (97 <=? n)%nat && (n <=? 122)%nat then ascii_of_nat (n - 32) else c.

(** [s.upper()] on a string of ASCII characters: the letters [a] to [z]
    are turned into [A] to [Z].  Other bytes are kept, also those of a
    character outside ASCII, which Python maps to its upper case. *)
Fixpoint upper (s : string) : string :=
  match s with
  | "" => ""
  | String c s' => String (upper_ascii c) (upper s')
  end.

(** [s.replace(a, b)] for single characters [a] and [b]. *)
Fixpoint str_replace (a b : ascii) (s : string) : string :=
  match s with
  | "" => ""
  | String c s' => String (if Ascii.eqb c a then b else c) (str_replace a b s')
  end.

Definition no_method {A} (v : pyval) (name : string) : result A :=
  Raise (mkexn AttributeError
           (quote (type_name v) ++ " object has no attribute " ++ quote name)%string).

Definition py_upper (v : pyval) : result string :=
  match v with PStr s => Ret (upper s) | _ => no_method v "upper" end.

Definition py_replace (v : pyval) (a b : ascii) : result string :=
  match v with PStr s => Ret (str_replace a b s) | _ => no_method v "replace" end.

Definition str_of_Z (z : Z) : string := NilZero.string_of_int (Z.to_int z).

(** [str(v)] of an optional string, as an f-string interpolates what
    [os.getenv] returned. *)
Definition str_of_env (o : option string) : string :=
  match o with Some s => s | None => "None" end.

(* ===================================================================== *)
(** ** The outside world and the history of a run *)

Inductive stream : Type := stdout | stderr.

(** The calls that leave the process, with their arguments. *)
Inductive call : Type :=
| open_ (path mode : string)
| yaml_safe_load (file : pyval)
| boto3_client (service : string)
| sts_assume_role (client : pyval) (RoleArn RoleSessionName : string)
| boto3_Session
    (aws_access_key_id aws_secret_access_key aws_session_token : pyval)
| session_client (session : pyval) (service region_name : string)
| get_cost_and_usage (client : pyval) (kwargs : list (string * pyval))
| ClientSecretCredential (tenant_id client_id client_secret : option string)
| CostManagementClient (credential subscription_id : pyval)
| query_usage (client : pyval) (scope : string) (query : pyval)
| psycopg2_connect (conn_str : string)
| conn_cursor (conn : pyval)
| cur_execute (cur : pyval) (sql : string) (params : list pyval)
| conn_commit (conn : pyval)
| cur_close (cur : pyval)
| conn_close (conn : pyval).

(** What the world answers to a call: a value, or an exception of class
    [Exception]. *)
Inductive answer : Type :=
| Ok (v : pyval)
| Fail (e : exn).

Inductive event : Type :=
| EvPrint (f : stream) (line : string)
| EvToday (d : date)
| EvCall (c : call) (a : answer).

(** A world answers every call and every reading of the clock from the
    history of the run so far, so that the same call may succeed once and
    fail later.  The process environment is not written by the program and
    is a plain function; so are the conversions of the interpreter that
    are kept abstract ([float] of a string or an integer, [str] of a
    float, a container or an object). *)
Record World : Type := mkWorld {
  respond : list event -> call -> answer;
  today : list event -> date;
  getenv : string -> option string;
  float_of_str : string -> option float;
  float_of_int : Z -> option float;
  repr : pyval -> string
}.

(** A computation reads the history and returns its result together with
    the events it adds. *)
Definition M (A : Type) : Type := list event -> result A * list event.

Definition ret {A} (a : A) : M A := fun _ => (Ret a, []).

Definition lift {A} (r : result A) : M A := fun _ => (r, []).

Definition bind {A B} (m : M A) (k : A -> M B) : M B :=
  fun h =>
    match m h with
    | (Ret a, ev) => let (r, ev') := k a (h ++ ev) in (r, ev ++ ev')
    | (Raise e, ev) => (Raise e, ev)
    | (SysExit c, ev) => (SysExit c, ev)
    end.

(** [try: x = body / except Exception as e: handler(e)] followed by the
    statements [k x] that run when the body raised nothing.  The handlers
    of the program all leave the function (by [return] or [exit]), so the
    handler's result is the function's. *)
Definition try_except {A B} (body : M A) (handler : exn -> M B) (k : A -> M B)
  : M B :=
  fun h =>
    match body h with
    | (Ret a, ev) => let (r, ev') := k a (h ++ ev) in (r, ev ++ ev')
    | (Raise e, ev) => let (r, ev') := handler e (h ++ ev) in (r, ev ++ ev')
    | (SysExit c, ev) => (SysExit c, ev)
    end.

Definition print (f : stream) (line : string) : M unit :=
  fun _ => (Ret tt, [EvPrint f line]).

(** [exit(code)] raises [SystemExit]. *)
Definition exit {A} (code : Z) : M A := fun _ => (SysExit code, []).

Declare Scope py_scope.
Delimit Scope py_scope with py.
Notation "x <- m ;; k" := (bind m (fun x => k))
  (at level 61, m at next level, right associativity) : py_scope.
Notation "m ;; k" := (bind m (fun _ => k))
  (at level 61, right associativity) : py_scope.

Fixpoint for_each {A} (l : list A) (body : A -> M unit) : M unit :=
  match l with
  | [] => ret tt
  | x :: l' => bind (body x) (fun _ => for_each l' body)
  end.

(** The exit status of the process from how [main] ended: an uncaught
    exception ends the interpreter with status 1. *)
Definition exit_status {A} (r : result A) : Z :=
  match r with
  | Ret _ => 0
  | Raise _ => 1
  | SysExit c => c
  end.

(* ===================================================================== *)
(** ** The program *)

Section Program.

Variable w : World.

Local Open Scope py_scope.

(** A call of a library function or method that leaves the process. *)
Definition extern (c : call) : M pyval :=
  fun h =>
    match respond w h c with
    | Ok v => (Ret v, [EvCall c (Ok v)])
    | Fail e => (Raise e, [EvCall c (Fail e)])
    end.

(** [datetime.today()] *)
Definition datetime_today : M date :=
  fun h => let d := today w h in (Ret d, [EvToday d]).

(** [str(v)] as an f-string interpolates [v]. *)
Definition py_str (v : pyval) : string :=
  match v with
  | PStr s => s
  | PNone => "None"
  | PBool true => "True"
  | PBool false => "False"
  | PInt z => str_of_Z z
  | _ => repr w v
  end.

(** [float(v)] *)
Definition py_float (v : pyval) : result pyval :=
  match v with
  | PFloat f => Ret (PFloat f)
  | PStr s =>
      match float_of_str w s with
      | Some f => Ret (PFloat f)
      | None =>
          Raise (mkexn ValueError
                   ("could not convert string to float: " ++ quote s)%string)
      end
  | PInt z =>
      match float_of_int w z with
      | Some f => Ret (PFloat f)
      | None => Raise (mkexn OverflowError "int too large to convert to float")
      end
  | PBool b =>
      match float_of_int w (if b then 1 else 0) with
      | Some f => Ret (PFloat f)
      | None => Raise (mkexn OverflowError "int too large to convert to float")
      end
  | _ =>
      Raise (mkexn TypeError
               ("float() argument must be a string or a real number, not "
                ++ quote (type_name v))%string)
  end.

Definition config_path : string := "/config/config.yaml".

(** Lines 11-24. *)
Definition load_config : M pyval :=
  try_except
    (file <- extern (open_ config_path "r") ;;
     extern (yaml_safe_load file))
    (fun e =>
       match exn_cls e with
       | FileNotFoundError =>
           print stdout ("Error: Config file not found at " ++ config_path)%string ;;
           exit 1
       | YAMLError =>
           print stdout ("Error parsing YAML file: " ++ exn_msg e)%string ;;
           exit 1
       | _ =>
           print stdout ("An error occurred: " ++ exn_msg e)%string ;;
           exit 1
       end)
    ret.

(** Lines 28-40, as a function of the date read on line 27. *)
Definition previous_month_range (today : date)
  : result ((string * string) * (string * string)) :=
  let first_of_this_month := replace_day today 1 in
  match sub_days first_of_this_month 1 with
  | None => Raise (mkexn OverflowError "date value out of range")
  | Some last_of_previous_month =>
      let first_of_previous_month := replace_day last_of_previous_month 1 in
      let aws_start_date := strftime first_of_previous_month "%Y-%m-%d" in
      let aws_end_date := strftime last_of_previous_month "%Y-%m-%d" in
      let azure_start_date :=
        strftime first_of_previous_month "%Y-%m-%dT00:00:00Z" in
      let azure_end_date :=
        strftime last_of_previous_month "%Y-%m-%dT23:59:59Z" in
      Ret ((aws_start_date, aws_end_date), (azure_start_date, azure_end_date))
  end.

(** Lines 26-40. *)
Definition get_previous_month_range
  : M ((string * string) * (string * string)) :=
  today <- datetime_today ;;
  lift (previous_month_range today).

(** Lines 42-53. *)
Definition assume_role (account_id role_name : pyval) : M pyval :=
  sts_client <- extern (boto3_client "sts") ;;
  assumed_role <-
    extern (sts_assume_role sts_client
              ("arn:aws:iam::" ++ py_str account_id ++ ":role/"
               ++ py_str role_name)%string
              "AssumeRoleSession") ;;
  credentials <- lift (getitem assumed_role "Credentials") ;;
  access_key <- lift (getitem credentials "AccessKeyId") ;;
  secret_key <- lift (getitem credentials "SecretAccessKey") ;;
  token <- lift (getitem credentials "SessionToken") ;;
  extern (boto3_Session access_key secret_key token).

(** The keyword arguments both calls of [get_cost_and_usage] share
    (lines 74-76 and 86-88). *)
Definition cost_kwargs (start_date end_date : string)
  : list (string * pyval) :=
  [ ("TimePeriod", PDict [("Start", PStr start_date); ("End", PStr end_date)]);
    ("Granularity", PStr "MONTHLY");
    ("Metrics", PList [PStr "UnblendedCost"]) ].

(** The dictionary built on lines 64-70. *)
Definition tag_filter (tagKey tagValue : pyval) : pyval :=
  PDict [("Tags", PDict [("Key", tagKey);
                         ("Values", PList [tagValue]);
                         ("MatchOptions", PList [PStr "EQUALS"])])].

(** [float(response['ResultsByTime'][0]['Total']['UnblendedCost']['Amount'])]
    (lines 82 and 93). *)
Definition unblended_amount (response : pyval) : result pyval :=
  match getitem response "ResultsByTime" with
  | Ret results =>
      match getitem0 results with
      | Ret first =>
          match getitem first "Total" with
          | Ret total =>
              match getitem total "UnblendedCost" with
              | Ret cost =>
                  match getitem cost "Amount" with
                  | Ret amount => py_float amount
                  | Raise e => Raise e
                  | SysExit c => SysExit c
                  end
              | Raise e => Raise e
              | SysExit c => SysExit c
              end
          | Raise e => Raise e
          | SysExit c => SysExit c
          end
      | Raise e => Raise e
      | SysExit c => SysExit c
      end
  | Raise e => Raise e
  | SysExit c => SysExit c
  end.

(** Lines 55-93. *)
Definition fetch_aws_costs (aws_account : pyval) (start_date end_date : string)
  : M pyval :=
  account_id <- lift (getitem aws_account "accountId") ;;
  role_name <- lift (getitem aws_account "roleName") ;;
  session <- assume_role account_id role_name ;;
  client <- extern (session_client session "ce" "us-east-1") ;;
  tags <- lift (getitem aws_account "tags") ;;
  if eq_str tags "true" then
    tagKey <- lift (getitem aws_account "tagKey") ;;
    tagValue <- lift (getitem aws_account "tagValue") ;;
    let filter := tag_filter tagKey tagValue in
    try_except
      (extern (get_cost_and_usage client
                 (cost_kwargs start_date end_date ++ [("Filter", filter)])))
      (fun e =>
         print stderr ("Error fetching AWS costs: " ++ exn_msg e)%string ;;
         ret PNone)
      (fun response => lift (unblended_amount response))
  else
    try_except
      (extern (get_cost_and_usage client (cost_kwargs start_date end_date)))
      (fun e =>
         print stderr ("Error fetching AWS costs: " ++ exn_msg e)%string ;;
         ret PNone)
      (fun response => lift (unblended_amount response)).

(** The [QueryDefinition] built on lines 107-112. *)
Definition query_definition (start_date end_date : string) : pyval :=
  PObj "QueryDefinition"
    [ ("type", PStr "ActualCost");
      ("timeframe", PStr "Custom");
      ("time_period", PDict [("from", PStr start_date); ("to", PStr end_date)]);
      ("dataset",
        PDict [("granularity", PStr "Monthly");
               ("aggregation",
                 PDict [("totalCost",
                          PDict [("name", PStr "PreTaxCost");
                                 ("function", PStr "Sum")])])]) ].

(** Lines 96-123. *)
Definition fetch_azure_costs (azure_account : pyval)
  (start_date end_date : string) : M pyval :=
  sub <- lift (getitem azure_account "Subscription") ;;
  subscription_key <- lift (py_upper sub) ;;
  sub <- lift (getitem azure_account "Subscription") ;;
  minuses_subscription_key <- lift (py_replace sub "_" "-") ;;
  let client_id := getenv w ("AZURE_" ++ subscription_key ++ "_CLIENT")%string in
  let client_secret := getenv w ("AZURE_" ++ subscription_key ++ "_SECRET")%string in
  let tenant_id := getenv w ("AZURE_" ++ subscription_key ++ "_TENANT")%string in
  credential <- extern (ClientSecretCredential tenant_id client_id client_secret) ;;
  sub <- lift (getitem azure_account "Subscription") ;;
  client <- extern (CostManagementClient credential sub) ;;
  let scope := ("/subscriptions/" ++ minuses_subscription_key)%string in
  let query := query_definition start_date end_date in
  try_except
    (result <- extern (query_usage client scope query) ;;
     rows <- lift (getattr result "rows") ;;
     nonempty <-
       (if truthy rows then
          rows <- lift (getattr result "rows") ;;
          n <- lift (py_len rows) ;;
          ret (0 <? n)
        else ret false) ;;
     if nonempty : bool then
       rows <- lift (getattr result "rows") ;;
       row <- lift (getitem0 rows) ;;
       cost_value <- lift (getitem0 row) ;;
       ret cost_value
     else
       print stdout "No data available." ;;
       ret PNone)
    (fun e =>
       print stderr ("Error fetching Azure costs: " ++ exn_msg e)%string ;;
       ret PNone)
    ret.

Definition insert_sql (table_name : string) : string :=
  ("INSERT INTO " ++ table_name
   ++ " (accountName, Subscription, monthlyCost, SampleDate) VALUES (%s, %s, %s, %s)")%string.

(** Lines 125-142. *)
Definition insert_into_db (data : pyval) (table_name : string) : M unit :=
  let user := getenv w "POSTGRES_USER" in
  let password := getenv w "POSTGRES_PASSWORD" in
  let host := getenv w "POSTGRES_HOST" in
  let dbname := getenv w "POSTGRES_DBNAME" in
  now <- datetime_today ;;
  let sample_date := strftime now "%d/%m/%y" in
  let conn_str :=
    ("dbname=" ++ str_of_env dbname ++ " user=" ++ str_of_env user
     ++ " password=" ++ str_of_env password ++ " host=" ++ str_of_env host)%string in
  try_except
    (conn <- extern (psycopg2_connect conn_str) ;;
     cur <- extern (conn_cursor conn) ;;
     accountName <- lift (getitem data "accountName") ;;
     Subscription <- lift (getitem data "Subscription") ;;
     monthlyCost <- lift (getitem data "monthlyCost") ;;
     extern (cur_execute cur (insert_sql table_name)
               [accountName; Subscription; monthlyCost; PStr sample_date]) ;;
     extern (conn_commit conn) ;;
     extern (cur_close cur) ;;
     extern (conn_close conn) ;;
     ret tt)
    (fun e =>
       print stderr ("Error inserting data into database: " ++ exn_msg e)%string)
    ret.

(** The body of the loop on lines 148-152. *)
Definition aws_body (aws_start_date aws_end_date : string) (aws_account : pyval)
  : M unit :=
  aws_cost <- fetch_aws_costs aws_account aws_start_date aws_end_date ;;
  if is_not_None aws_cost then
    accountName <- lift (getitem aws_account "accountName") ;;
    let aws_data :=
      PDict [("accountName", accountName); ("Subscription", PStr "N/A");
             ("monthlyCost", aws_cost)] in
    insert_into_db aws_data "aws_monthly_cost"
  else ret tt.

(** The body of the loop on lines 154-158. *)
Definition azure_body (azure_start_date azure_end_date : string)
  (azure_account : pyval) : M unit :=
  azure_cost <- fetch_azure_costs azure_account azure_start_date azure_end_date ;;
  if is_not_None azure_cost then
    accountName <- lift (getitem azure_account "accountName") ;;
    Subscription <- lift (getitem azure_account "Subscription") ;;
    let azure_data :=
      PDict [("accountName", accountName); ("Subscription", Subscription);
             ("monthlyCost", azure_cost)] in
    insert_into_db azure_data "azure_monthly_cost"
  else ret tt.

(** Lines 144-158. *)
Definition main : M unit :=
  config <- load_config ;;
  ranges <- get_previous_month_range ;;
  let '((aws_start_date, aws_end_date), (azure_start_date, azure_end_date)) :=
    ranges in
  aws <- lift (getitem config "aws") ;;
  aws_accounts <- lift (py_iter aws) ;;
  for_each aws_accounts (aws_body aws_start_date aws_end_date) ;;
  azure <- lift (getitem config "azure") ;;
  azure_accounts <- lift (py_iter azure) ;;
  for_each azure_accounts (azure_body azure_start_date azure_end_date).

(** One run of the process from an empty history: its exit status and
    everything it did. *)
Definition run : Z * list event :=
  let (r, ev) := main [] in (exit_status r, ev).

End Program.

(* ===================================================================== *)
(** ** The calendar, as the specification words it

    These definitions do not come from the program: they say what "the
    first and last calendar day of the preceding month" and the two date
    formats mean, and the program is compared with them. *)

Definition spec_leap_year (y : Z) : bool :=
  ((y mod 4 =? 0) && negb (y mod 100 =? 0)) || (y mod 400 =? 0).

Definition spec_month_length (y m : Z) : Z :=
  if m =? 2 then (if spec_leap_year y then 29 else 28)
  else if (m =? 4) || (m =? 6) || (m =? 9) || (m =? 11) then 30
  else 31.

Definition spec_preceding_month (y m : Z) : Z * Z :=
  if m =? 1 then (y - 1, 12) else (y, m - 1).

(** [YYYY-MM-DD] *)
Definition spec_iso_date (y m d : Z) : string :=
  (pad4 y ++ "-" ++ pad2 m ++ "-" ++ pad2 d)%string.

(** Reading a string as [YYYY-MM-DD]: four digits, a dash, two digits, a
    dash, two digits and nothing else give the year, the month and the
    day; any other string gives nothing. *)
Definition spec_digit (c : ascii) : option Z :=
  let n := Z.of_nat (nat_of_ascii c) in
  if (48 <=? n) && (n <=? 57) then Some (n - 48) else None.

Definition spec_number (cs : list ascii) : option Z :=
  fold_left (fun acc c =>
               match acc, spec_digit c with
               | Some n, Some k => Some (10 * n + k)
               | _, _ => None
               end) cs (Some 0).

Definition spec_read_iso_date (s : string) : option (Z * Z * Z) :=
  match list_ascii_of_string s with
  | [y1; y2; y3; y4; s1; m1; m2; s2; d1; d2] =>
      if Ascii.eqb s1 "-" && Ascii.eqb s2 "-" then
        match spec_number [y1; y2; y3; y4], spec_number [m1; m2],
              spec_number [d1; d2] with
        | Some y, Some m, Some d => Some (y, m, d)
        | _, _, _ => None
        end
      else None
  | _ => None
  end.

(** [DD/MM/YY] *)
Definition spec_short_date (y m d : Z) : string :=
  (pad2 d ++ "/" ++ pad2 m ++ "/" ++ pad2 (y mod 100))%string.

Definition date_eqb (a b : date) : bool :=
  (year a =? year b) && (month a =? month b) && (day a =? day b).

(** The fourth value of a statement is the date [d] as [DD/MM/YY]. *)
Definition short_date_of (d : date) (sql : string) (params : list pyval) : Prop :=
  nth_error params 3 = Some (PStr (spec_short_date (year d) (month d) (day d))).

(** The check that is run over one cycle of 400 years: the day before the
    first of month [m] of year [y] is the last day of the preceding month. *)
Definition check_month (y m : Z) : bool :=
  let (py, pm) := spec_preceding_month y m in
  date_eqb (_ord2ymd (_ymd2ord y m 1 - 1))
           (mkdate py pm (spec_month_length py pm)).

Definition years_of_cycle : list Z := map Z.of_nat (seq 1 400).

Definition months_of_year : list Z := map Z.of_nat (seq 1 12).


(* ===================================================================== *)
(** ** Reading a history *)

(** Every event a computation adds satisfies [P], whatever the history it
    starts from. *)
Definition emits {A} (P : event -> Prop) (m : M A) : Prop :=
  forall h, Forall P (snd (m h)).

Definition is_db_call (e : event) : bool :=
  match e with
  | EvCall (psycopg2_connect _) _ | EvCall (conn_cursor _) _
  | EvCall (cur_execute _ _ _) _ | EvCall (conn_commit _) _
  | EvCall (cur_close _) _ | EvCall (conn_close _) _ => true
  | _ => false
  end.

Definition no_db_call (e : event) : Prop := is_db_call e = false.

Definition is_stderr (e : event) : bool :=
  match e with
  | EvPrint stderr _ => true
  | _ => false
  end.

Definition is_assume_role (e : event) : bool :=
  match e with
  | EvCall (sts_assume_role _ _ _) _ => true
  | _ => false
  end.

(** A row of one of the two tables: the statement and its four values. *)
Definition row : Type := string * list pyval.

(** The rows a history leaves in the database: those of the statements
    that were executed without error on a connection and then committed
    without error.  Opening a connection starts with nothing pending. *)
Fixpoint rows_written (pending : list row) (ev : list event) : list row :=
  match ev with
  | [] => []
  | EvCall (psycopg2_connect _) _ :: ev' => rows_written [] ev'
  | EvCall (cur_execute _ sql params) (Ok _) :: ev' =>
      rows_written (pending ++ [(sql, params)]) ev'
  | EvCall (conn_commit _) (Ok _) :: ev' => pending ++ rows_written [] ev'
  | _ :: ev' => rows_written pending ev'
  end.

(** The test of line 63 on a descriptor: does it ask for the tag filter? *)
Definition tag_filter_flag (aws_account : pyval) : bool :=
  match getitem aws_account "tags" with
  | Ret tags => eq_str tags "true"
  | _ => false
  end.

Definition is_connect (e : event) : bool :=
  match e with
  | EvCall (psycopg2_connect _) _ => true
  | _ => false
  end.

(** The writer was entered: it has asked for a connection. *)
Definition writer_invoked (ev : list event) : bool := existsb is_connect ev.

(** An [INSERT] was executed without error, and a commit went through. *)
Definition insert_succeeded (ev : list event) : Prop :=
  (exists cur sql params v, In (EvCall (cur_execute cur sql params) (Ok v)) ev)
  /\ (exists conn v, In (EvCall (conn_commit conn) (Ok v)) ev).

(** Every statement the event executes, if it executes one, satisfies [Q]. *)
Definition executes_with (Q : string -> list pyval -> Prop) (e : event) : Prop :=
  match e with
  | EvCall (cur_execute _ sql params) _ => Q sql params
  | _ => True
  end.

Definition is_ok_execute (e : event) : bool :=
  match e with
  | EvCall (cur_execute _ _ _) (Ok _) => true
  | _ => false
  end.

Definition is_ok_commit (e : event) : bool :=
  match e with
  | EvCall (conn_commit _) (Ok _) => true
  | _ => false
  end.

(** What a loop body leaves in the database, given whether the fetch
    returned a cost ([fetched]): the writer is entered only then, at most
    one row is written, and one is written exactly when the fetch returned
    a cost and the insert went through. *)
Definition writes_iff_fetched (fetched : Prop) (ev : list event) : Prop :=
  (writer_invoked ev = true -> fetched)
  /\ (rows_written [] ev <> [] <-> fetched /\ insert_succeeded ev)
  /\ (List.length (rows_written [] ev) <= 1)%nat.

(** The fetch returned a cost that is not null. *)
Definition returned_cost (r : result pyval) : Prop :=
  exists cost, r = Ret cost /\ cost <> PNone.

(* ===================================================================== *)
(** ** Example worlds

    A configuration with two AWS accounts (the second one filtered by a
    tag) and one Azure subscription, and worlds in which every service
    answers, or in which one of them fails. *)

Definition aws_prod : pyval :=
  PDict [("accountId", PStr "111111111111"); ("roleName", PStr "CostReader");
         ("accountName", PStr "prod"); ("tags", PStr "false")].

Definition aws_dev : pyval :=
  PDict [("accountId", PStr "222222222222"); ("roleName", PStr "CostReader");
         ("accountName", PStr "dev"); ("tags", PStr "true");
         ("tagKey", PStr "team"); ("tagValue", PStr "data")].


Definition azure_main : pyval :=
  PDict [("Subscription", PStr "sub_main"); ("accountName", PStr "azure-main")].

Definition example_config : pyval :=
  PDict [("aws", PList [aws_prod; aws_dev]); ("azure", PList [azure_main])].

Definition cost_response (amount : string) : pyval :=
  PDict [("ResultsByTime",
           PList [PDict [("Total",
                           PDict [("UnblendedCost",
                                    PDict [("Amount", PStr amount);
                                           ("Unit", PStr "USD")])])]])].


Definition query_result (rows : pyval) : pyval :=
  PObj "QueryResult" [("rows", rows)].

(** Every service answers. *)
Definition all_fine (c : call) : answer :=
  match c with
  | open_ _ _ => Ok (PObj "TextIOWrapper" [])
  | yaml_safe_load _ => Ok example_config
  | boto3_client _ => Ok (PObj "STS" [])
  | sts_assume_role _ _ _ =>
      Ok (PDict [("Credentials",
                    PDict [("AccessKeyId", PStr "ASIAEXAMPLE");
                           ("SecretAccessKey", PStr "secret");
                           ("SessionToken", PStr "token")])])
  | boto3_Session _ _ _ => Ok (PObj "Session" [])
  | session_client _ _ _ => Ok (PObj "CostExplorer" [])
  | get_cost_and_usage _ _ => Ok (cost_response "123.45")
  | ClientSecretCredential _ _ _ => Ok (PObj "ClientSecretCredential" [])
  | CostManagementClient _ _ => Ok (PObj "CostManagementClient" [])
  | query_usage _ _ _ =>
      Ok (query_result (PList [PList [PFloat 67.89%float; PStr "USD"]]))
  | psycopg2_connect _ => Ok (PObj "connection" [])
  | conn_cursor _ => Ok (PObj "cursor" [])
  | cur_execute _ _ _ => Ok PNone
  | conn_commit _ => Ok PNone
  | cur_close _ => Ok PNone
  | conn_close _ => Ok PNone
  end.

Definition access_denied : exn :=
  mkexn (OtherError "ClientError")
    "An error occurred (AccessDenied) when calling the AssumeRole operation".

(** The role of account 111111111111 cannot be assumed. *)
Definition role_denied (c : call) : answer :=
  match c with
  | sts_assume_role _ arn _ =>
      if String.eqb arn "arn:aws:iam::111111111111:role/CostReader"
      then Fail access_denied else all_fine c
  | _ => all_fine c
  end.


(** Cost Management answers with no row. *)
Definition azure_no_rows (c : call) : answer :=
  match c with
  | query_usage _ _ _ => Ok (query_result (PList []))
  | _ => all_fine c
  end.

(** The database refuses the connection. *)
Definition db_down (c : call) : answer :=
  match c with
  | psycopg2_connect _ =>
      Fail (mkexn (OtherError "OperationalError") "connection refused")
  | _ => all_fine c
  end.

(** The credential constructor rejects a tenant, client or secret that
    is missing, as it does for a variable that is not set. *)
Definition credential_checked (c : call) : answer :=
  match c with
  | ClientSecretCredential None _ _ =>
      Fail (mkexn ValueError "tenant_id should be a Microsoft Entra tenant's id")
  | ClientSecretCredential _ None _ =>
      Fail (mkexn ValueError "client_id should be the id of a Microsoft Entra application")
  | ClientSecretCredential _ _ None =>
      Fail (mkexn ValueError "secret should be a Microsoft Entra application's client secret")
  | _ => all_fine c
  end.

Definition example_float_of_str (s : string) : option float :=
  if String.eqb s "123.45" then Some 123.45%float else None.

(** A world whose answers do not change during the run, read on [d]. *)
Definition scripted (script : call -> answer) (d : date) : World :=
  {| respond := fun _ c => script c;
     today := fun _ => d;
     getenv := fun name => Some ("value-of-" ++ name)%string;
     float_of_str := example_float_of_str;
     float_of_int := fun _ => None;
     repr := fun _ => "<object>" |}.

Definition march_15 : date := mkdate 2024 3 15.

(** The same, in a process whose environment sets no variable. *)
Definition scripted_no_env (script : call -> answer) (d : date) : World :=
  {| respond := fun _ c => script c;
     today := fun _ => d;
     getenv := fun _ => None;
     float_of_str := example_float_of_str;
     float_of_int := fun _ => None;
     repr := fun _ => "<object>" |}.

(* ===================================================================== *)
(** ** Further readings of a history, and further worlds *)

(** The line [load_config] prints for an exception (lines 16-23). *)
Definition config_error_message (x : exn) : string :=
  match exn_cls x with
  | FileNotFoundError => ("Error: Config file not found at " ++ config_path)%string
  | YAMLError => ("Error parsing YAML file: " ++ exn_msg x)%string
  | _ => ("An error occurred: " ++ exn_msg x)%string
  end.

Definition is_cost_query (e : event) : bool :=
  match e with
  | EvCall (get_cost_and_usage _ _) _ => true
  | _ => false
  end.

(** The configuration file is absent. *)
Definition config_missing (c : call) : answer :=
  match c with
  | open_ _ _ =>
      Fail (mkexn FileNotFoundError
              "[Errno 2] No such file or directory: '/config/config.yaml'")
  | _ => all_fine c
  end.

(** The same services, for another configuration document. *)
Definition with_config (cfg : pyval) (script : call -> answer) (c : call)
  : answer :=
  match c with
  | yaml_safe_load _ => Ok cfg
  | _ => script c
  end.

Definition throttled : exn :=
  mkexn (OtherError "ClientError")
    "An error occurred (ThrottlingException) when calling the GetCostAndUsage operation".

(** Cost Explorer refuses the query. *)
Definition cost_query_fails (c : call) : answer :=
  match c with
  | get_cost_and_usage _ _ => Fail throttled
  | _ => all_fine c
  end.

Definition unauthorized : exn :=
  mkexn (OtherError "ClientAuthenticationError") "Authentication failed".

(** Cost Management refuses the query. *)
Definition usage_query_fails (c : call) : answer :=
  match c with
  | query_usage _ _ _ => Fail unauthorized
  | _ => all_fine c
  end.

(** Cost Management answers with one row that has no column. *)
Definition azure_empty_row (c : call) : answer :=
  match c with
  | query_usage _ _ _ => Ok (query_result (PList [PList []]))
  | _ => all_fine c
  end.

(** The statement is refused by the database. *)
Definition execute_fails (c : call) : answer :=
  match c with
  | cur_execute _ _ _ =>
      Fail (mkexn (OtherError "UndefinedTable")
              "relation does not exist")
  | _ => all_fine c
  end.

(** A subscription whose identifier the YAML parser read as a number. *)
Definition azure_numeric : pyval :=
  PDict [("Subscription", PInt 12345); ("accountName", PStr "numeric")].

(** A descriptor that has no [tags] field. *)
Definition aws_untagged : pyval :=
  PDict [("accountId", PStr "444444444444"); ("roleName", PStr "CostReader");
         ("accountName", PStr "untagged")].

Definition is_execute (e : event) : bool :=
  match e with
  | EvCall (cur_execute _ _ _) _ => true
  | _ => false
  end.

Definition is_close (e : event) : bool :=
  match e with
  | EvCall (cur_close _) _ | EvCall (conn_close _) _ => true
  | _ => false
  end.

(** A result without its cost. *)
Definition data_without_cost : pyval :=
  PDict [("accountName", PStr "prod"); ("Subscription", PStr "N/A")].

Definition example_data : pyval :=
  PDict [("accountName", PStr "prod"); ("Subscription", PStr "N/A");
         ("monthlyCost", PFloat 123.45%float)].

(** The statements executed and not yet committed at the end of a
    history that began with [pending]. *)
Fixpoint pending_after (pending : list row) (ev : list event) : list row :=
  match ev with
  | [] => pending
  | EvCall (psycopg2_connect _) _ :: ev' => pending_after [] ev'
  | EvCall (cur_execute _ sql params) (Ok _) :: ev' =>
      pending_after (pending ++ [(sql, params)]) ev'
  | EvCall (conn_commit _) (Ok _) :: ev' => pending_after [] ev'
  | _ :: ev' => pending_after pending ev'
  end.

(** What the events leave in the database does not depend on what was
    pending before them. *)
Definition self_contained (ev : list event) : Prop :=
  forall pending, rows_written pending ev = rows_written [] ev.

(** [for x in cfg[key]] of lines 148 and 154: the items the loop visits. *)
Definition config_section (cfg : pyval) (key : string) : result (list pyval) :=
  match getitem cfg key with
  | Ret v => py_iter v
  | Raise x => Raise x
  | SysExit c => SysExit c
  end.

(** A computation exits, if it does, with status 1. *)
Definition exits_with_1 {A} (m : M A) : Prop :=
  forall h c, fst (m h) = SysExit c -> c = 1.

(** A document whose [azure] section is left empty. *)
Definition config_empty_azure : pyval :=
  PDict [("aws", PList [aws_prod]); ("azure", PNone)].

(** A document that is not a mapping. *)
Definition config_null : pyval := PNone.

(** The statements of [main] that follow the computation of the period
    (lines 148-158), for a loaded configuration. *)
Definition process_config (w : World) (config : pyval)
  (ranges : (string * string) * (string * string)) : M unit :=
  let '((aws_start_date, aws_end_date), (azure_start_date, azure_end_date)) :=
    ranges in
  bind (lift (getitem config "aws")) (fun aws =>
  bind (lift (py_iter aws)) (fun aws_accounts =>
  bind (for_each aws_accounts (aws_body w aws_start_date aws_end_date)) (fun _ =>
  bind (lift (getitem config "azure")) (fun azure =>
  bind (lift (py_iter azure)) (fun azure_accounts =>
  for_each azure_accounts (azure_body w azure_start_date azure_end_date)))))).

(** Every query of the event is for the period given: the cost query
    from [s] to [e], the usage query from [s'] to [e']. *)
Definition queries_period (s e s' e' : string) (ev : event) : Prop :=
  match ev with
  | EvCall (get_cost_and_usage _ kw) _ =>
      lookup "TimePeriod" kw = Some (PDict [("Start", PStr s); ("End", PStr e)])
  | EvCall (query_usage _ _ q) _ => q = query_definition s' e'
  | _ => True
  end.

(** The two dates of lines 28-30, before they are formatted: the first
    and the last day of the period, or nothing when the subtraction
    leaves the range of dates. *)
Definition previous_month_dates (today : date) : option (date * date) :=
  let first_of_this_month := replace_day today 1 in
  match sub_days first_of_this_month 1 with
  | None => None
  | Some last_of_previous_month =>
      Some (replace_day last_of_previous_month 1, last_of_previous_month)
  end.

(** The month that follows month [m] of year [y]. *)
Definition spec_following_month (y m : Z) : Z * Z :=
  if m =? 12 then (y + 1, 1) else (y, m + 1).

(** Checked over one cycle of 400 years: the first of month [m] of year
    [y] is the day after the last day of the preceding month. *)
Definition check_adjacent (y m : Z) : bool :=
  let (py, pm) := spec_preceding_month y m in
  _ymd2ord y m 1 =? _ymd2ord py pm (spec_month_length py pm) + 1.

(* ===================================================================== *)
(** ** What the database is asked, and what it accepts *)

(** The connection string of line 132. *)
Definition connection_string (w : World) : string :=
  ("dbname=" ++ str_of_env (getenv w "POSTGRES_DBNAME")
   ++ " user=" ++ str_of_env (getenv w "POSTGRES_USER")
   ++ " password=" ++ str_of_env (getenv w "POSTGRES_PASSWORD")
   ++ " host=" ++ str_of_env (getenv w "POSTGRES_HOST"))%string.

(** The dictionaries built on lines 151 and 157. *)
Definition aws_data (accountName aws_cost : pyval) : pyval :=
  PDict [("accountName", accountName); ("Subscription", PStr "N/A");
         ("monthlyCost", aws_cost)].

Definition azure_data (accountName Subscription azure_cost : pyval) : pyval :=
  PDict [("accountName", accountName); ("Subscription", Subscription);
         ("monthlyCost", azure_cost)].

(** The database accepts the row of [data], asked for after the history
    [h]: the world answers without error the connection, the cursor, the
    [INSERT] of the three fields of [data] with the date read at [h], and
    the commit, each asked after the answers to the calls before it. *)
Definition insert_accepted (w : World) (data : pyval) (table_name : string)
  (h : list event) : Prop :=
  exists a s c conn cur v v',
    getitem data "accountName" = Ret a /\
    getitem data "Subscription" = Ret s /\
    getitem data "monthlyCost" = Ret c /\
    let now := EvToday (today w h) in
    let connect := psycopg2_connect (connection_string w) in
    let statement :=
      cur_execute cur (insert_sql table_name)
        [a; s; c; PStr (strftime (today w h) "%d/%m/%y")] in
    respond w (h ++ [now]) connect = Ok conn /\
    respond w (h ++ [now; EvCall connect (Ok conn)]) (conn_cursor conn) = Ok cur /\
    respond w (h ++ [now; EvCall connect (Ok conn);
                     EvCall (conn_cursor conn) (Ok cur)]) statement = Ok v /\
    respond w (h ++ [now; EvCall connect (Ok conn);
                     EvCall (conn_cursor conn) (Ok cur);
                     EvCall statement (Ok v)]) (conn_commit conn) = Ok v'.

(** Every statement of a history carries, as its fourth value, the date
    of the latest reading of the clock before it, as [DD/MM/YY];
    [latest] is the latest reading made before the history starts. *)
Fixpoint dated_by_clock (latest : option date) (ev : list event) : Prop :=
  match ev with
  | [] => True
  | EvToday d :: ev' => dated_by_clock (Some d) ev'
  | EvCall (cur_execute _ sql params) _ :: ev' =>
      (exists d, latest = Some d /\ short_date_of d sql params)
      /\ dated_by_clock latest ev'
  | _ :: ev' => dated_by_clock latest ev'
  end.

(** The statements of a history are dated by readings of the history
    itself. *)
Definition self_dated (ev : list event) : Prop :=
  forall latest, dated_by_clock latest ev.

Definition dates_its_statements {A} (m : M A) : Prop :=
  forall h, self_dated (snd (m h)).

Definition is_reading (e : event) : bool :=
  match e with
  | EvToday _ => true
  | _ => false
  end.

(** A run that starts on 2024-03-31 shortly before midnight: the first
    reading of the clock gives the 31st of March, every later one the
    1st of April. *)
Definition over_midnight : World :=
  {| respond := fun _ c => all_fine c;
     today := fun h => if existsb is_reading h then mkdate 2024 4 1
                       else mkdate 2024 3 31;
     getenv := fun name => Some ("value-of-" ++ name)%string;
     float_of_str := example_float_of_str;
     float_of_int := fun _ => None;
     repr := fun _ => "<object>" |}.

(** The string is made of ASCII characters, on which [upper] is
    [str.upper]. *)
Definition ascii_only (s : string) : bool :=
  forallb (fun c => (nat_of_ascii c <? 128)%nat) (list_ascii_of_string s).

(* ===================================================================== *)
(** * Properties *)

(** ** Calendar arithmetic *)

Lemma is_leap_periodic (y q : Z) : _is_leap (y + 400 * q) = _is_leap y.
Proof.
  unfold _is_leap.
  replace ((y + 400 * q) mod 4) with (y mod 4)
    by (replace (y + 400 * q) with (y + (100 * q) * 4) by ring;
        now rewrite Z_mod_plus_full).
  replace ((y + 400 * q) mod 100) with (y mod 100)
    by (replace (y + 400 * q) with (y + (4 * q) * 100) by ring;
        now rewrite Z_mod_plus_full).
  replace ((y + 400 * q) mod 400) with (y mod 400)
    by (replace (y + 400 * q) with (y + q * 400) by ring;
        now rewrite Z_mod_plus_full).
  reflexivity.
Qed.

Lemma spec_leap_year_periodic (y q : Z) :
  spec_leap_year (y + 400 * q) = spec_leap_year y.
Proof.
  unfold spec_leap_year.
  replace ((y + 400 * q) mod 4) with (y mod 4)
    by (replace (y + 400 * q) with (y + (100 * q) * 4) by ring;
        now rewrite Z_mod_plus_full).
  replace ((y + 400 * q) mod 100) with (y mod 100)
    by (replace (y + 400 * q) with (y + (4 * q) * 100) by ring;
        now rewrite Z_mod_plus_full).
  replace ((y + 400 * q) mod 400) with (y mod 400)
    by (replace (y + 400 * q) with (y + q * 400) by ring;
        now rewrite Z_mod_plus_full).
  reflexivity.
Qed.

Lemma days_before_year_periodic (y q : Z) :
  _days_before_year (y + 400 * q) = _days_before_year y + _DI400Y * q.
Proof.
  unfold _days_before_year, _DI400Y. cbv zeta.
  replace ((y + 400 * q - 1) / 4) with ((y - 1) / 4 + 100 * q)
    by (replace (y + 400 * q - 1) with ((y - 1) + (100 * q) * 4) by ring;
        now rewrite Z_div_plus_full).
  replace ((y + 400 * q - 1) / 100) with ((y - 1) / 100 + 4 * q)
    by (replace (y + 400 * q - 1) with ((y - 1) + (4 * q) * 100) by ring;
        now rewrite Z_div_plus_full).
  replace ((y + 400 * q - 1) / 400) with ((y - 1) / 400 + q)
    by (replace (y + 400 * q - 1) with ((y - 1) + q * 400) by ring;
        now rewrite Z_div_plus_full).
  ring.
Qed.

Lemma ymd2ord_periodic (y m d q : Z) :
  _ymd2ord (y + 400 * q) m d = _ymd2ord y m d + _DI400Y * q.
Proof.
  unfold _ymd2ord, _days_before_month.
  rewrite days_before_year_periodic, is_leap_periodic. ring.
Qed.

Lemma ord2ymd_periodic (n q : Z) :
  _ord2ymd (n + _DI400Y * q)
  = mkdate (year (_ord2ymd n) + 400 * q) (month (_ord2ymd n)) (day (_ord2ymd n)).
Proof.
  unfold _ord2ymd. cbv zeta.
  replace ((n + _DI400Y * q - 1) / _DI400Y) with ((n - 1) / _DI400Y + q)
    by (replace (n + _DI400Y * q - 1) with ((n - 1) + q * _DI400Y) by ring;
        now rewrite Z_div_plus_full).
  replace ((n + _DI400Y * q - 1) mod _DI400Y) with ((n - 1) mod _DI400Y)
    by (replace (n + _DI400Y * q - 1) with ((n - 1) + q * _DI400Y) by ring;
        now rewrite Z_mod_plus_full).
  repeat match goal with
         | |- context [if ?c then _ else _] => destruct c
         end; cbn [year month day]; f_equal; ring.
Qed.

Lemma check_cycle_true :
  forallb (fun y => forallb (check_month y) months_of_year) years_of_cycle
  = true.
Proof. vm_compute. reflexivity. Qed.

Lemma in_years_of_cycle (y : Z) : 1 <= y <= 400 -> In y years_of_cycle.
Proof.
  intros Hy. unfold years_of_cycle.
  rewrite <- (Z2Nat.id y) by lia.
  apply in_map, in_seq. lia.
Qed.

Lemma in_months_of_year (m : Z) : 1 <= m <= 12 -> In m months_of_year.
Proof.
  intros Hm. unfold months_of_year.
  rewrite <- (Z2Nat.id m) by lia.
  apply in_map, in_seq. lia.
Qed.

Lemma date_eqb_eq (a b : date) : date_eqb a b = true -> a = b.
Proof.
  destruct a, b. unfold date_eqb. cbn [year month day].
  rewrite !andb_true_iff, !Z.eqb_eq. intros [[-> ->] ->]. reflexivity.
Qed.

Lemma check_month_cycle (y m : Z) :
  1 <= y <= 400 -> 1 <= m <= 12 -> check_month y m = true.
Proof.
  intros Hy Hm.
  pose proof (proj1 (forallb_forall _ _) check_cycle_true y
                (in_years_of_cycle y Hy)) as H.
  exact (proj1 (forallb_forall _ _) H m (in_months_of_year m Hm)).
Qed.

Lemma spec_month_length_periodic (y m q : Z) :
  spec_month_length (y + 400 * q) m = spec_month_length y m.
Proof.
  unfold spec_month_length. now rewrite spec_leap_year_periodic.
Qed.

(** The day before the first of a month is the last day of the month
    before it, in every year. *)
Lemma day_before_first (y m : Z) :
  1 <= m <= 12 ->
  _ord2ymd (_ymd2ord y m 1 - 1)
  = mkdate (fst (spec_preceding_month y m)) (snd (spec_preceding_month y m))
      (spec_month_length (fst (spec_preceding_month y m))
                         (snd (spec_preceding_month y m))).
Proof.
  intros Hm.
  set (q := (y - 1) / 400). set (y0 := (y - 1) mod 400 + 1).
  assert (Hy : y = y0 + 400 * q).
  { unfold y0, q. pose proof (Z.div_mod (y - 1) 400). lia. }
  assert (Hy0 : 1 <= y0 <= 400).
  { unfold y0. pose proof (Z.mod_pos_bound (y - 1) 400). lia. }
  rewrite Hy. rewrite ymd2ord_periodic.
  replace (_ymd2ord y0 m 1 + _DI400Y * q - 1)
    with (_ymd2ord y0 m 1 - 1 + _DI400Y * q) by ring.
  rewrite ord2ymd_periodic.
  pose proof (check_month_cycle y0 m Hy0 Hm) as C.
  unfold check_month in C.
  unfold spec_preceding_month in *.
  destruct (m =? 1); apply date_eqb_eq in C; rewrite C;
    cbn [year month day fst snd].
  - replace (y0 + 400 * q - 1) with (y0 - 1 + 400 * q) by ring.
    now rewrite spec_month_length_periodic.
  - now rewrite spec_month_length_periodic.
Qed.

Lemma days_before_year_bounds (y : Z) :
  1 <= y <= 9999 -> 365 * (y - 1) <= _days_before_year y <= 3651695.
Proof.
  intros Hy. unfold _days_before_year. cbv zeta.
  Z.div_mod_to_equations. split; lia.
Qed.

Lemma month_cases (m : Z) :
  1 <= m <= 12 ->
  m = 1 \/ m = 2 \/ m = 3 \/ m = 4 \/ m = 5 \/ m = 6 \/
  m = 7 \/ m = 8 \/ m = 9 \/ m = 10 \/ m = 11 \/ m = 12.
Proof. lia. Qed.

Lemma days_before_month_bounds (y m : Z) :
  1 <= m <= 12 ->
  0 <= _days_before_month y m <= 335 /\ (1 < m -> 31 <= _days_before_month y m).
Proof.
  intros Hm. unfold _days_before_month.
  destruct (_is_leap y);
    destruct (month_cases m Hm) as [->|[->|[->|[->|[->|[->|[->|[->|[->|[->|[->| ->]]]]]]]]]]];
    vm_compute; repeat split; easy.
Qed.

(** [first_of_this_month - timedelta(days=1)] stays in range unless the
    month is January of [MINYEAR]. *)
Lemma sub_days_first (d : date) :
  1 <= year d <= 9999 -> 1 <= month d <= 12 ->
  1 < year d \/ 1 < month d ->
  sub_days (replace_day d 1) 1
  = Some (mkdate (fst (spec_preceding_month (year d) (month d)))
            (snd (spec_preceding_month (year d) (month d)))
            (spec_month_length (fst (spec_preceding_month (year d) (month d)))
               (snd (spec_preceding_month (year d) (month d))))).
Proof.
  intros Hy Hm Hne. unfold sub_days, toordinal, replace_day, fromordinal.
  cbn [year month day].
  rewrite day_before_first by assumption.
  pose proof (days_before_year_bounds (year d) Hy) as By.
  pose proof (days_before_month_bounds (year d) (month d) Hm) as [Bm Bm'].
  assert (R : (0 <? _ymd2ord (year d) (month d) 1 - 1)
              && (_ymd2ord (year d) (month d) 1 - 1 <=? _MAXORDINAL) = true).
  { unfold _ymd2ord, _MAXORDINAL. apply andb_true_iff. split.
    - apply Z.ltb_lt. destruct Hne; [lia | specialize (Bm' H); lia].
    - apply Z.leb_le. lia. }
  rewrite R. reflexivity.
Qed.

Lemma string_append_assoc (a b c : string) :
  ((a ++ b) ++ c = a ++ (b ++ c))%string.
Proof. induction a as [| x a IH]; cbn; [reflexivity | now rewrite IH]. Qed.

(** A year of four digits is rendered on four digits. *)
Lemma decimal_four_digits_check :
  forallb (fun y => String.eqb (decimal y) (pad4 y))
          (map (fun n => 1000 + Z.of_nat n) (seq 0 (Z.to_nat 9000))) = true.
Proof. vm_compute. reflexivity. Qed.

Lemma decimal_four_digits (y : Z) :
  1000 <= y <= 9999 -> decimal y = pad4 y.
Proof.
  intros Hy. apply String.eqb_eq.
  apply (proj1 (forallb_forall _ _) decimal_four_digits_check).
  apply in_map_iff. exists (Z.to_nat (y - 1000)). split; [lia |].
  apply in_seq. lia.
Qed.

Lemma spec_digit_digit (n : Z) : spec_digit (digit n) = Some (n mod 10).
Proof.
  unfold digit. pose proof (Z.mod_pos_bound n 10 eq_refl) as B.
  assert (C : n mod 10 = 0 \/ n mod 10 = 1 \/ n mod 10 = 2 \/ n mod 10 = 3
              \/ n mod 10 = 4 \/ n mod 10 = 5 \/ n mod 10 = 6
              \/ n mod 10 = 7 \/ n mod 10 = 8 \/ n mod 10 = 9) by lia.
  repeat (destruct C as [C | C]; [rewrite C; reflexivity |]).
  rewrite C. reflexivity.
Qed.

(** The reader gives back the fields of a date written as [YYYY-MM-DD]. *)
Lemma spec_read_iso_date_iso (y m d : Z) :
  0 <= y <= 9999 -> 0 <= m <= 99 -> 0 <= d <= 99 ->
  spec_read_iso_date (spec_iso_date y m d) = Some (y, m, d).
Proof.
  intros Hy Hm Hd.
  unfold spec_read_iso_date, spec_iso_date, pad4, pad2.
  cbn [append list_ascii_of_string]. cbn [Ascii.eqb Bool.eqb andb].
  unfold spec_number. cbn [fold_left].
  rewrite !spec_digit_digit.
  repeat f_equal; revert Hy Hm Hd; clear; intros;
    Z.div_mod_to_equations; lia.
Qed.

Lemma strftime_iso_fields (d : date) :
  strftime d "%Y-%m-%d"
  = (decimal (year d) ++ "-" ++ pad2 (month d) ++ "-" ++ pad2 (day d))%string.
Proof. reflexivity. Qed.

Lemma strftime_iso (d : date) :
  1000 <= year d <= 9999 ->
  strftime d "%Y-%m-%d" = spec_iso_date (year d) (month d) (day d).
Proof.
  intros Hy. rewrite strftime_iso_fields, (decimal_four_digits _ Hy).
  reflexivity.
Qed.

Lemma strftime_azure_start (d : date) :
  strftime d "%Y-%m-%dT00:00:00Z"
  = (strftime d "%Y-%m-%d" ++ "T00:00:00Z")%string.
Proof. rewrite strftime_iso_fields, string_append_assoc. reflexivity. Qed.

Lemma strftime_azure_end (d : date) :
  strftime d "%Y-%m-%dT23:59:59Z"
  = (strftime d "%Y-%m-%d" ++ "T23:59:59Z")%string.
Proof. rewrite strftime_iso_fields, string_append_assoc. reflexivity. Qed.

Lemma strftime_short (d : date) :
  strftime d "%d/%m/%y" = spec_short_date (year d) (month d) (day d).
Proof. reflexivity. Qed.

(** ** The previous month *)

(** The preceding month, as far as a date is concerned: its year. *)
Lemma preceding_month_year (y m : Z) :
  1 <= m <= 12 ->
  fst (spec_preceding_month y m) = y - 1 /\ m = 1
  \/ fst (spec_preceding_month y m) = y /\ 1 < m.
Proof.
  intros Hm. unfold spec_preceding_month.
  destruct (m =? 1) eqn:E; cbn [fst].
  - left. apply Z.eqb_eq in E. now split.
  - right. apply Z.eqb_neq in E. split; [reflexivity | lia].
Qed.

Lemma spec_month_length_bounds (y m : Z) : 28 <= spec_month_length y m <= 31.
Proof.
  unfold spec_month_length.
  destruct (m =? 2); [destruct (spec_leap_year y); lia |].
  destruct ((m =? 4) || (m =? 6) || (m =? 9) || (m =? 11)); lia.
Qed.

(** C3, as amended: read on a date whose preceding month lies in
    a year of four digits (every date from February 1000 on),
    [get_previous_month_range] returns the first and the last calendar
    day of the month preceding today's, as [YYYY-MM-DD] for AWS (read
    back as a year, a month and a day, the two strings give the first
    and the last day of that month) and as the same strings followed by
    [T00:00:00Z] and [T23:59:59Z] for Azure; read on 2024-03-15 it
    returns 2024-02-01 and 2024-02-29 in these formats. *)
Theorem get_previous_month_range_spec :
  (forall (w : World) (h : list event),
      valid (today w h) ->
      let y := fst (spec_preceding_month (year (today w h)) (month (today w h))) in
      let m := snd (spec_preceding_month (year (today w h)) (month (today w h))) in
      let last := spec_month_length y m in
      1000 <= y ->
      fst (get_previous_month_range w h)
      = Ret ((spec_iso_date y m 1, spec_iso_date y m last),
             ((spec_iso_date y m 1 ++ "T00:00:00Z")%string,
              (spec_iso_date y m last ++ "T23:59:59Z")%string))
      /\ spec_read_iso_date (spec_iso_date y m 1) = Some (y, m, 1)
      /\ spec_read_iso_date (spec_iso_date y m last) = Some (y, m, last))
  /\
  (forall (w : World) (h : list event),
      today w h = mkdate 2024 3 15 ->
      fst (get_previous_month_range w h)
      = Ret (("2024-02-01", "2024-02-29"),
             ("2024-02-01T00:00:00Z", "2024-02-29T23:59:59Z"))).
Proof.
  assert (G : forall (w : World) (h : list event),
      valid (today w h) ->
      let y := fst (spec_preceding_month (year (today w h)) (month (today w h))) in
      let m := snd (spec_preceding_month (year (today w h)) (month (today w h))) in
      let last := spec_month_length y m in
      1000 <= y ->
      fst (get_previous_month_range w h)
      = Ret ((spec_iso_date y m 1, spec_iso_date y m last),
             ((spec_iso_date y m 1 ++ "T00:00:00Z")%string,
              (spec_iso_date y m last ++ "T23:59:59Z")%string))
      /\ spec_read_iso_date (spec_iso_date y m 1) = Some (y, m, 1)
      /\ spec_read_iso_date (spec_iso_date y m last) = Some (y, m, last)).
  { intros w h (Hy & Hm & _) y m last Hk.
    unfold MINYEAR, MAXYEAR in *.
    assert (By : 1000 <= y <= 9999).
    { subst y. destruct (preceding_month_year (year (today w h)) _ Hm)
        as [[E _] | [E _]]; rewrite E in *; lia. }
    assert (Bm : 1 <= m <= 12).
    { subst m. unfold spec_preceding_month.
      destruct (month (today w h) =? 1) eqn:E; cbn [snd]; [lia |].
      apply Z.eqb_neq in E. lia. }
    pose proof (spec_month_length_bounds y m) as Bl. fold last in Bl.
    split; [| split; apply spec_read_iso_date_iso; lia].
    unfold get_previous_month_range, bind, datetime_today, lift.
    cbn [fst snd]. unfold previous_month_range.
    rewrite sub_days_first;
      [| assumption | assumption
       | destruct (preceding_month_year (year (today w h)) _ Hm)
           as [[E _] | [_ E]]; [left; fold y in Hk; subst y; lia | now right]].
    rewrite strftime_azure_start, strftime_azure_end.
    rewrite !strftime_iso by (cbn [year replace_day]; exact By).
    reflexivity. }
  split; [exact G|].
  intros w h E.
  refine (proj1 (_ : _ /\ True)).
  pose proof (G w h) as G'. rewrite E in G'.
  split; [| exact I]. apply G'.
  - unfold valid, MINYEAR, MAXYEAR. vm_compute. repeat split; discriminate.
  - vm_compute. discriminate.
Qed.

Lemma get_previous_month_range_spec_witness :
  fst (get_previous_month_range (scripted all_fine march_15) [])
  = Ret (("2024-02-01", "2024-02-29"),
         ("2024-02-01T00:00:00Z", "2024-02-29T23:59:59Z"))
  /\ spec_read_iso_date "2024-02-01" = Some (2024, 2, 1)
  /\ spec_read_iso_date "2024-02-29" = Some (2024, 2, 29).
Proof.
  apply (proj1 get_previous_month_range_spec (scripted all_fine march_15) []).
  - vm_compute. repeat split; discriminate.
  - vm_compute. discriminate.
Defined.

(** Two dates the claim's "every value of today" includes: in a January
    of year 1 the subtraction leaves the range of dates and no period is
    returned; in January 1000 the preceding month is December 999, whose
    year is written on three digits. *)
Lemma previous_month_before_year_1000 :
  fst (get_previous_month_range (scripted all_fine (mkdate 1 1 15)) [])
  = Raise (mkexn OverflowError "date value out of range")
  /\ fst (get_previous_month_range (scripted all_fine (mkdate 1000 1 15)) [])
     = Ret (("999-12-01", "999-12-31"),
            ("999-12-01T00:00:00Z", "999-12-31T23:59:59Z"))
  /\ spec_read_iso_date "999-12-01" = None.
Proof. vm_compute. repeat split. Qed.

(** ** What a computation adds to the history *)

Section Emits.

Variable P : event -> Prop.

Lemma emits_ret {A} (a : A) : emits P (ret a).
Proof. intros h. constructor. Qed.

Lemma emits_lift {A} (r : result A) : emits P (lift r).
Proof. intros h. constructor. Qed.

Lemma emits_exit {A} (c : Z) : emits P (@exit A c).
Proof. intros h. constructor. Qed.

Lemma emits_print (f : stream) (line : string) :
  P (EvPrint f line) -> emits P (print f line).
Proof. intros H h. repeat constructor. exact H. Qed.

Lemma emits_extern (w : World) (c : call) :
  (forall a, P (EvCall c a)) -> emits P (extern w c).
Proof.
  intros H h. unfold extern. destruct (respond w h c); repeat constructor; apply H.
Qed.

Lemma emits_today (w : World) :
  (forall d, P (EvToday d)) -> emits P (datetime_today w).
Proof. intros H h. repeat constructor. apply H. Qed.

Lemma emits_bind {A B} (m : M A) (k : A -> M B) :
  emits P m -> (forall a, emits P (k a)) -> emits P (bind m k).
Proof.
  intros Hm Hk h. unfold bind. specialize (Hm h).
  destruct (m h) as [[a | e | c] ev]; cbn [snd] in *; try assumption.
  specialize (Hk a (h ++ ev)). destruct (k a (h ++ ev)) as [r ev'].
  cbn [snd] in *. apply Forall_app. split; assumption.
Qed.

Lemma emits_try_except {A B} (body : M A) (handler : exn -> M B)
  (k : A -> M B) :
  emits P body -> (forall e, emits P (handler e)) -> (forall a, emits P (k a)) ->
  emits P (try_except body handler k).
Proof.
  intros Hb Hh Hk h. unfold try_except. specialize (Hb h).
  destruct (body h) as [[a | e | c] ev]; cbn [snd] in *; try assumption.
  - specialize (Hk a (h ++ ev)). destruct (k a (h ++ ev)) as [r ev'].
    cbn [snd] in *. apply Forall_app. split; assumption.
  - specialize (Hh e (h ++ ev)). destruct (handler e (h ++ ev)) as [r ev'].
    cbn [snd] in *. apply Forall_app. split; assumption.
Qed.

Lemma emits_for_each {A} (l : list A) (body : A -> M unit) :
  (forall x, In x l -> emits P (body x)) -> emits P (for_each l body).
Proof.
  induction l as [| x l IH]; intros H; cbn [for_each].
  - apply emits_ret.
  - apply emits_bind.
    + apply H. left. reflexivity.
    + intros _. apply IH. intros y Hy. apply H. right. exact Hy.
Qed.

End Emits.

Create HintDb emits.

Ltac emits_step :=
  match goal with
  | |- emits _ (bind _ _) => apply emits_bind; [| intro]
  | |- emits _ (try_except _ _ _) => apply emits_try_except; [| intro | intro]
  | |- emits _ (ret _) => apply emits_ret
  | |- emits _ (lift _) => apply emits_lift
  | |- emits _ (exit _) => apply emits_exit
  | |- emits _ (print _ _) => apply emits_print; try reflexivity
  | |- emits _ (extern _ _) => apply emits_extern; intro; try reflexivity
  | |- emits _ (datetime_today _) => apply emits_today; intro; try reflexivity
  | |- emits _ (for_each _ _) => apply emits_for_each; intros ? _
  | |- emits _ (if ?b then _ else _) => destruct b
  | |- emits _ (match ?x with _ => _ end) => destruct x
  | |- emits _ _ => solve [auto with emits]
  end.

Ltac emits_auto := repeat emits_step.

Lemma assume_role_no_db (w : World) (account_id role_name : pyval) :
  emits no_db_call (assume_role w account_id role_name).
Proof. unfold assume_role. emits_auto. Qed.

#[local] Hint Resolve assume_role_no_db : emits.

Lemma fetch_aws_costs_no_db (w : World) (a : pyval) (s e : string) :
  emits no_db_call (fetch_aws_costs w a s e).
Proof.
  unfold fetch_aws_costs. emits_auto.
Qed.

Lemma fetch_azure_costs_no_db (w : World) (a : pyval) (s e : string) :
  emits no_db_call (fetch_azure_costs w a s e).
Proof. unfold fetch_azure_costs. emits_auto. Qed.

(** ** Inverting a run

    A run [m h = (r, ev)] of a composed computation is taken apart into
    the runs of its parts; the answers of the world stay as equations. *)

Lemma bind_inv {A B} (m : M A) (k : A -> M B) (h : list event)
  (r : result B) (ev : list event) :
  bind m k h = (r, ev) ->
  (exists a ev1 ev2,
      m h = (Ret a, ev1) /\ k a (h ++ ev1) = (r, ev2) /\ ev = ev1 ++ ev2)
  \/ (exists e, m h = (Raise e, ev) /\ r = Raise e)
  \/ (exists c, m h = (SysExit c, ev) /\ r = SysExit c).
Proof.
  unfold bind. destruct (m h) as [[a | e | c] ev1].
  - destruct (k a (h ++ ev1)) as [r2 ev2] eqn:K. intros [= <- <-].
    left. exists a, ev1, ev2. auto.
  - intros [= <- <-]. right. left. exists e. auto.
  - intros [= <- <-]. right. right. exists c. auto.
Qed.

Lemma try_except_inv {A B} (body : M A) (handler : exn -> M B) (k : A -> M B)
  (h : list event) (r : result B) (ev : list event) :
  try_except body handler k h = (r, ev) ->
  (exists a ev1 ev2,
      body h = (Ret a, ev1) /\ k a (h ++ ev1) = (r, ev2) /\ ev = ev1 ++ ev2)
  \/ (exists e ev1 ev2,
         body h = (Raise e, ev1) /\ handler e (h ++ ev1) = (r, ev2)
         /\ ev = ev1 ++ ev2)
  \/ (exists c, body h = (SysExit c, ev) /\ r = SysExit c).
Proof.
  unfold try_except. destruct (body h) as [[a | e | c] ev1].
  - destruct (k a (h ++ ev1)) as [r2 ev2] eqn:K. intros [= <- <-].
    left. exists a, ev1, ev2. auto.
  - destruct (handler e (h ++ ev1)) as [r2 ev2] eqn:K. intros [= <- <-].
    right. left. exists e, ev1, ev2. auto.
  - intros [= <- <-]. right. right. exists c. auto.
Qed.

Lemma extern_inv (w : World) (c : call) (h : list event) (r : result pyval)
  (ev : list event) :
  extern w c h = (r, ev) ->
  (exists v, respond w h c = Ok v /\ r = Ret v /\ ev = [EvCall c (Ok v)])
  \/ (exists e, respond w h c = Fail e /\ r = Raise e /\ ev = [EvCall c (Fail e)]).
Proof.
  unfold extern. destruct (respond w h c) as [v | e]; intros [= <- <-];
    [left | right]; eauto.
Qed.

Lemma today_inv (w : World) (h : list event) (r : result date)
  (ev : list event) :
  datetime_today w h = (r, ev) ->
  r = Ret (today w h) /\ ev = [EvToday (today w h)].
Proof. unfold datetime_today. intros [= <- <-]. auto. Qed.

Lemma lift_inv {A} (x : result A) (h : list event) (r : result A)
  (ev : list event) :
  lift x h = (r, ev) -> x = r /\ ev = [].
Proof. unfold lift. intros [= <- <-]. auto. Qed.

Lemma ret_inv {A} (a : A) (h : list event) (r : result A) (ev : list event) :
  ret a h = (r, ev) -> r = Ret a /\ ev = [].
Proof. unfold ret. intros [= <- <-]. auto. Qed.

Lemma print_inv (f : stream) (line : string) (h : list event)
  (r : result unit) (ev : list event) :
  print f line h = (r, ev) -> r = Ret tt /\ ev = [EvPrint f line].
Proof. unfold print. intros [= <- <-]. auto. Qed.

Lemma exit_inv {A} (c : Z) (h : list event) (r : result A) (ev : list event) :
  @exit A c h = (r, ev) -> r = SysExit c /\ ev = [].
Proof. unfold exit. intros [= <- <-]. auto. Qed.

(** Uses an equation between results: substitutes a variable, opens an
    equation between two [Ret], closes the case when the two sides
    differ. *)
Ltac use_eq E :=
  first
    [ discriminate E
    | match type of E with
      | ?x = _ => is_var x; subst x
      | _ = ?x => is_var x; subst x
      | Ret _ = Ret _ => injection E as E; try use_eq E
      | Raise _ = Raise _ => injection E as E; try use_eq E
      | SysExit _ = SysExit _ => injection E as E; try use_eq E
      end
    | idtac ].

Ltac minv_step :=
  match goal with
  | H : bind _ _ _ = (_, _) |- _ =>
      apply bind_inv in H;
      let R := fresh "R" in
      let E := fresh "E" in
      destruct H as [(? & ? & ? & R & H & E) | [(? & H & E) | (? & H & E)]];
      use_eq E; cbv beta in *
  | H : try_except _ _ _ _ = (_, _) |- _ =>
      apply try_except_inv in H;
      let R := fresh "R" in
      let E := fresh "E" in
      destruct H as [(? & ? & ? & R & H & E)
                    | [(? & ? & ? & R & H & E) | (? & H & E)]];
      use_eq E; cbv beta in *
  | H : extern _ _ _ = (_, _) |- _ =>
      apply extern_inv in H;
      let E := fresh "E" in
      let E' := fresh "E" in
      destruct H as [(? & H & E & E') | (? & H & E & E')];
      use_eq E'; use_eq E
  | H : datetime_today _ _ = (_, _) |- _ =>
      apply today_inv in H;
      let E := fresh "E" in
      let E' := fresh "E" in destruct H as [E E']; use_eq E'; use_eq E
  | H : lift _ _ = (_, _) |- _ =>
      apply lift_inv in H;
      let E := fresh "E" in destruct H as [H E]; use_eq E
  | H : ret _ _ = (_, _) |- _ =>
      apply ret_inv in H;
      let E := fresh "E" in
      let E' := fresh "E" in destruct H as [E E']; use_eq E'; use_eq E
  | H : print _ _ _ = (_, _) |- _ =>
      apply print_inv in H;
      let E := fresh "E" in
      let E' := fresh "E" in destruct H as [E E']; use_eq E'; use_eq E
  | H : exit _ _ = (_, _) |- _ =>
      apply exit_inv in H;
      let E := fresh "E" in
      let E' := fresh "E" in destruct H as [E E']; use_eq E'; use_eq E
  | H : (if ?b then _ else _) _ = (_, _) |- _ =>
      let E := fresh "E" in destruct b eqn:E
  | H : (match ?x with _ => _ end) _ = (_, _) |- _ =>
      let E := fresh "E" in destruct x eqn:E
  end.

Ltac minv := repeat minv_step.

(** Membership in a list of events that is given by its elements: one
    case per element, and the cases of another event are closed. *)
Ltac in_events H :=
  cbn [app In] in H;
  repeat (destruct H as [H | H]);
  try contradiction;
  try (inversion H; subst; clear H).

(** ** The writer *)

(** What [insert_into_db] executes: one [INSERT] into the table it was
    given, whose values are the three fields of [data] and the date read
    from the clock on entry, as day/month/two-digit year. *)
Lemma insert_into_db_execute (w : World) (data : pyval) (table_name : string)
  (h : list event) (r : result unit) (ev : list event)
  (cur : pyval) (sql : string) (params : list pyval) (out : answer) :
  insert_into_db w data table_name h = (r, ev) ->
  In (EvCall (cur_execute cur sql params) out) ev ->
  sql = insert_sql table_name /\
  exists a s c,
    getitem data "accountName" = Ret a /\
    getitem data "Subscription" = Ret s /\
    getitem data "monthlyCost" = Ret c /\
    params = [a; s; c; PStr (strftime (today w h) "%d/%m/%y")].
Proof.
  unfold insert_into_db. intros H I.
  minv; in_events I; (split; [reflexivity | eauto 10]).
Qed.

(** ** The AWS fetcher *)


(** The cost query [fetch_aws_costs] sends, from the descriptor. *)
Lemma fetch_aws_costs_query (w : World) (a : pyval) (s e : string)
  (h : list event) (r : result pyval) (ev : list event)
  (client : pyval) (kw : list (string * pyval)) (out : answer) :
  fetch_aws_costs w a s e h = (r, ev) ->
  In (EvCall (get_cost_and_usage client kw) out) ev ->
  exists tags,
    getitem a "tags" = Ret tags /\
    ((eq_str tags "true" = false /\ kw = cost_kwargs s e)
     \/ (eq_str tags "true" = true /\
         exists k v,
           getitem a "tagKey" = Ret k /\ getitem a "tagValue" = Ret v /\
           kw = cost_kwargs s e ++ [("Filter", tag_filter k v)])).
Proof.
  unfold fetch_aws_costs, assume_role. intros H I.
  minv; in_events I; eexists; (split; [eassumption|]);
    solve [left; auto | right; eauto 10].
Qed.


Lemma lookup_app_other (k k' : string) (v : pyval) (d : list (string * pyval)) :
  k <> k' -> lookup k (d ++ [(k', v)]) = lookup k d.
Proof.
  intros Hk. induction d as [| [k0 v0] d IH]; cbn.
  - destruct (String.eqb_spec k k'); [contradiction | reflexivity].
  - destruct (String.eqb k k0); [reflexivity | exact IH].
Qed.

(** Closes a membership goal in a list of events given by its elements. *)
Ltac find_event := vm_compute; repeat (first [left; reflexivity | right]).



Lemma aws_body_raise (w : World) (a : pyval) (s e : string) (h : list event)
  (x : exn) (ev : list event) :
  fetch_aws_costs w a s e h = (Raise x, ev) ->
  aws_body w s e a h = (Raise x, ev).
Proof. intros H. unfold aws_body, bind. rewrite H. reflexivity. Qed.

Lemma for_each_raise {A} (body : A -> M unit) (a : A) (rest : list A)
  (h : list event) (x : exn) (ev : list event) :
  body a h = (Raise x, ev) -> for_each (a :: rest) body h = (Raise x, ev).
Proof. intros H. cbn [for_each]. unfold bind. rewrite H. reflexivity. Qed.

Lemma for_each_continue {A} (body : A -> M unit) (a : A) (rest : list A)
  (h : list event) (ev : list event) :
  body a h = (Ret tt, ev) ->
  for_each (a :: rest) body h
  = (fst (for_each rest body (h ++ ev)), ev ++ snd (for_each rest body (h ++ ev))).
Proof.
  intros H. cbn [for_each]. unfold bind. rewrite H.
  destruct (for_each rest body (h ++ ev)). reflexivity.
Qed.



(** ** The Azure fetcher *)

Lemma rows_written_no_db (p : list row) (ev1 ev2 : list event) :
  Forall no_db_call ev1 -> rows_written p (ev1 ++ ev2) = rows_written p ev2.
Proof.
  induction 1 as [| x ev1 Hx _ IH]; [reflexivity |].
  cbn [app]. unfold no_db_call in Hx.
  destruct x as [| | [] []]; cbn in Hx; try discriminate; exact IH.
Qed.

Lemma writer_invoked_no_db (ev1 ev2 : list event) :
  Forall no_db_call ev1 -> writer_invoked (ev1 ++ ev2) = writer_invoked ev2.
Proof.
  unfold writer_invoked.
  induction 1 as [| x ev1 Hx _ IH]; [reflexivity |].
  cbn [app existsb]. rewrite IH. unfold no_db_call in Hx.
  destruct x as [| | [] ?]; cbn in Hx; try discriminate; reflexivity.
Qed.

(** After a cost query that returned no row, the fetch returns [None] and
    prints nothing on the error stream. *)
Lemma fetch_azure_costs_no_rows (w : World) (a : pyval) (s e : string)
  (h : list event) (r : result pyval) (ev : list event)
  (client : pyval) (scope : string) (q result : pyval) :
  fetch_azure_costs w a s e h = (r, ev) ->
  In (EvCall (query_usage client scope q) (Ok result)) ev ->
  getattr result "rows" = Ret (PList []) ->
  r = Ret PNone
  /\ In (EvPrint stdout "No data available.") ev
  /\ Forall (fun x => is_stderr x = false) ev.
Proof.
  unfold fetch_azure_costs. intros H I G.
  minv; in_events I;
    repeat match goal with
      | R : getattr result "rows" = _ |- _ =>
          rewrite G in R; first [discriminate R | injection R as <-]
      end;
    try discriminate;
    (split; [reflexivity | split; [find_event | repeat constructor]]).
Qed.

Lemma azure_body_null (w : World) (a : pyval) (s e : string) (h : list event)
  (ev : list event) :
  fetch_azure_costs w a s e h = (Ret PNone, ev) ->
  azure_body w s e a h = (Ret tt, ev).
Proof.
  intros H. unfold azure_body, bind. rewrite H. cbn. now rewrite app_nil_r.
Qed.

Lemma aws_body_null (w : World) (a : pyval) (s e : string) (h : list event)
  (ev : list event) :
  fetch_aws_costs w a s e h = (Ret PNone, ev) ->
  aws_body w s e a h = (Ret tt, ev).
Proof.
  intros H. unfold aws_body, bind. rewrite H. cbn. now rewrite app_nil_r.
Qed.

Lemma no_db_no_rows (ev : list event) :
  Forall no_db_call ev -> writer_invoked ev = false /\ rows_written [] ev = [].
Proof.
  intros F. split.
  - rewrite <- (app_nil_r ev). now rewrite writer_invoked_no_db.
  - rewrite <- (app_nil_r ev). now rewrite rows_written_no_db.
Qed.

Lemma emits_run {A} (P : event -> Prop) (m : M A) (h : list event)
  (r : result A) (ev : list event) :
  emits P m -> m h = (r, ev) -> Forall P ev.
Proof. intros E H. specialize (E h). now rewrite H in E. Qed.

(** C6: when the Azure cost query succeeds with an empty result set,
    [fetch_azure_costs] returns a null without reporting an error, the
    loop body ends normally without entering the writer, no row is
    written, and the loop goes on with the remaining descriptors. *)
Theorem azure_empty_result_is_skipped (w : World) (a : pyval) (s e : string)
  (h : list event) (r : result pyval) (ev : list event)
  (client : pyval) (scope : string) (q result : pyval) :
  fetch_azure_costs w a s e h = (r, ev) ->
  In (EvCall (query_usage client scope q) (Ok result)) ev ->
  getattr result "rows" = Ret (PList []) ->
  r = Ret PNone
  /\ Forall (fun x => is_stderr x = false) ev
  /\ azure_body w s e a h = (Ret tt, ev)
  /\ writer_invoked ev = false
  /\ rows_written [] ev = []
  /\ forall rest,
      for_each (a :: rest) (azure_body w s e) h
      = (fst (for_each rest (azure_body w s e) (h ++ ev)),
         ev ++ snd (for_each rest (azure_body w s e) (h ++ ev))).
Proof.
  intros H I G.
  destruct (fetch_azure_costs_no_rows w a s e h r ev client scope q result H I G)
    as (-> & _ & Q).
  pose proof (emits_run _ _ _ _ _ (fetch_azure_costs_no_db w a s e) H) as D.
  destruct (no_db_no_rows ev D) as [W R].
  pose proof (azure_body_null w a s e h ev H) as B.
  repeat split; try assumption.
  intros rest. now apply for_each_continue.
Qed.

Lemma azure_empty_result_is_skipped_witness :
  let w := scripted azure_no_rows march_15 in
  let s := "2024-02-01T00:00:00Z" in
  let e := "2024-02-29T23:59:59Z" in
  In (EvCall (query_usage (PObj "CostManagementClient" [])
                "/subscriptions/sub-main" (query_definition s e))
        (Ok (query_result (PList []))))
     (snd (fetch_azure_costs w azure_main s e []))
  /\ getattr (query_result (PList [])) "rows" = Ret (PList [])
  /\ azure_body w s e azure_main []
     = (Ret tt, snd (fetch_azure_costs w azure_main s e [])).
Proof.
  intros w s e.
  assert (I : In (EvCall (query_usage (PObj "CostManagementClient" [])
                            "/subscriptions/sub-main" (query_definition s e))
                    (Ok (query_result (PList []))))
                 (snd (fetch_azure_costs w azure_main s e [])))
    by find_event.
  split; [exact I | split; [reflexivity |]].
  exact (proj1 (proj2 (proj2
    (azure_empty_result_is_skipped w azure_main s e [] _ _ _ _ _ _
       (surjective_pairing _) I eq_refl)))).
Defined.

(** ** The sample date *)

Lemma emits_impl {A} (P Q : event -> Prop) (m : M A) :
  (forall e, P e -> Q e) -> emits P m -> emits Q m.
Proof. intros I E h. eapply Forall_impl; [exact I | apply E]. Qed.

Lemma no_db_executes_with (Q : string -> list pyval -> Prop) (e : event) :
  no_db_call e -> executes_with Q e.
Proof.
  unfold no_db_call. destruct e as [| | [] ?]; cbn; try discriminate; trivial.
Qed.

Lemma executes_with_In (Q : string -> list pyval -> Prop) (ev : list event) :
  Forall (executes_with Q) ev <->
  (forall cur sql params out,
      In (EvCall (cur_execute cur sql params) out) ev -> Q sql params).
Proof.
  rewrite Forall_forall. split.
  - intros H cur sql params out I. exact (H _ I).
  - intros H x I. destruct x as [| | [] ?]; cbn; trivial. eapply H, I.
Qed.

Lemma insert_into_db_sample_date (w : World) (d : date) (data : pyval)
  (table_name : string) :
  (forall h, today w h = d) ->
  emits (executes_with (short_date_of d)) (insert_into_db w data table_name).
Proof.
  intros C h.
  destruct (insert_into_db w data table_name h) as [r ev] eqn:H. cbn [snd].
  apply executes_with_In. intros cur sql params out I.
  destruct (insert_into_db_execute w data table_name h r ev cur sql params out H I)
    as (_ & a & s & c & _ & _ & _ & ->).
  unfold short_date_of. cbn [nth_error]. now rewrite C, strftime_short.
Qed.

Lemma main_sample_date (w : World) (d : date) :
  (forall h, today w h = d) ->
  emits (executes_with (short_date_of d)) (main w).
Proof.
  intros C.
  assert (Fa : forall a s e,
             emits (executes_with (short_date_of d)) (fetch_aws_costs w a s e)).
  { intros. eapply emits_impl; [apply no_db_executes_with |].
    apply fetch_aws_costs_no_db. }
  assert (Fz : forall a s e,
             emits (executes_with (short_date_of d)) (fetch_azure_costs w a s e)).
  { intros. eapply emits_impl; [apply no_db_executes_with |].
    apply fetch_azure_costs_no_db. }
  pose proof (insert_into_db_sample_date w d) as Fi.
  unfold main, load_config, get_previous_month_range, aws_body, azure_body.
  emits_auto.
Qed.

(** ** The two loops *)

Lemma no_db_not_execute (ev : list event) (cur : pyval) (sql : string)
  (params : list pyval) (out : answer) :
  Forall no_db_call ev -> ~ In (EvCall (cur_execute cur sql params) out) ev.
Proof.
  intros F I. rewrite Forall_forall in F. specialize (F _ I). discriminate F.
Qed.

(** The statement executed for an AWS descriptor. *)
Lemma aws_body_execute (w : World) (s e : string) (a : pyval) (h : list event)
  (r : result unit) (ev : list event) (cur : pyval) (sql : string)
  (params : list pyval) (out : answer) :
  aws_body w s e a h = (r, ev) ->
  In (EvCall (cur_execute cur sql params) out) ev ->
  sql = insert_sql "aws_monthly_cost" /\
  exists name cost date,
    getitem a "accountName" = Ret name /\
    params = [name; PStr "N/A"; cost; PStr date].
Proof.
  unfold aws_body. intros H I.
  minv;
    repeat match goal with
      | R : fetch_aws_costs _ _ _ _ _ = _ |- _ =>
          apply (emits_run _ _ _ _ _ (fetch_aws_costs_no_db _ _ _ _)) in R
      end;
    repeat (apply in_app_or in I; destruct I as [I | I]);
    try (exfalso; eapply no_db_not_execute; eassumption);
    try contradiction.
  destruct (insert_into_db_execute _ _ _ _ _ _ _ _ _ _ H I)
    as (-> & n & sb & c & N & S & C & ->).
  cbn in N, S, C. injection N as <-. injection S as <-. injection C as <-.
  split; [reflexivity |]. eauto 10.
Qed.

(** The statement executed for an Azure descriptor. *)
Lemma azure_body_execute (w : World) (s e : string) (a : pyval) (h : list event)
  (r : result unit) (ev : list event) (cur : pyval) (sql : string)
  (params : list pyval) (out : answer) :
  azure_body w s e a h = (r, ev) ->
  In (EvCall (cur_execute cur sql params) out) ev ->
  sql = insert_sql "azure_monthly_cost" /\
  exists name id cost date,
    getitem a "accountName" = Ret name /\
    getitem a "Subscription" = Ret id /\
    params = [name; id; cost; PStr date].
Proof.
  unfold azure_body. intros H I.
  minv;
    repeat match goal with
      | R : fetch_azure_costs _ _ _ _ _ = _ |- _ =>
          apply (emits_run _ _ _ _ _ (fetch_azure_costs_no_db _ _ _ _)) in R
      end;
    repeat (apply in_app_or in I; destruct I as [I | I]);
    try (exfalso; eapply no_db_not_execute; eassumption);
    try contradiction.
  destruct (insert_into_db_execute _ _ _ _ _ _ _ _ _ _ H I)
    as (-> & n & sb & c & N & S & C & ->).
  cbn in N, S, C. injection N as <-. injection S as <-. injection C as <-.
  split; [reflexivity |]. eauto 10.
Qed.

(** An event of a loop is an event of the body run on one of its items. *)
Lemma for_each_event {A} (body : A -> M unit) (l : list A) (x : event) :
  forall h r ev,
    for_each l body h = (r, ev) -> In x ev ->
    exists a h' r' ev', In a l /\ body a h' = (r', ev') /\ In x ev'.
Proof.
  induction l as [| a l IH]; intros h r ev H I; cbn [for_each] in H.
  - apply ret_inv in H. destruct H as [_ ->]. contradiction.
  - apply bind_inv in H.
    destruct H as [(u & ev1 & ev2 & R & K & ->) | [(x0 & R & _) | (c & R & _)]].
    + apply in_app_or in I. destruct I as [I | I].
      * exists a, h, (Ret u), ev1. cbn. auto.
      * destruct (IH _ _ _ K I) as (a' & h' & r' & ev' & Ha & Hb & Hx).
        exists a', h', r', ev'. cbn. auto.
    + exists a, h, (Raise x0), ev. cbn. auto.
    + exists a, h, (SysExit c), ev. cbn. auto.
Qed.

(** ** Rows and fetches *)

Lemma insert_succeeded_no_db (ev1 ev2 : list event) :
  Forall no_db_call ev1 ->
  (insert_succeeded (ev1 ++ ev2) <-> insert_succeeded ev2).
Proof.
  intros F. unfold insert_succeeded. rewrite Forall_forall in F. split.
  - intros [(cur & sql & params & v & I1) (conn & v' & I2)]. split.
    + apply in_app_or in I1. destruct I1 as [I1 | I1]; [| eauto 10].
      specialize (F _ I1). discriminate F.
    + apply in_app_or in I2. destruct I2 as [I2 | I2]; [| eauto 10].
      specialize (F _ I2). discriminate F.
  - intros [(cur & sql & params & v & I1) (conn & v' & I2)]. split.
    + exists cur, sql, params, v. apply in_or_app. auto.
    + exists conn, v'. apply in_or_app. auto.
Qed.

Lemma writes_iff_fetched_no_db (fetched : Prop) (ev : list event) :
  Forall no_db_call ev -> writes_iff_fetched fetched ev.
Proof.
  intros F. destruct (no_db_no_rows ev F) as [W R].
  unfold writes_iff_fetched. rewrite W, R. split; [| split; [split |]].
  - discriminate.
  - intros N. now contradiction N.
  - intros [_ [(cur & sql & params & v & I) _]]. exfalso.
    eapply no_db_not_execute; eassumption.
  - cbn. lia.
Qed.

Lemma writes_iff_fetched_app (fetched : Prop) (ev1 ev2 : list event) :
  Forall no_db_call ev1 ->
  writes_iff_fetched fetched ev2 -> writes_iff_fetched fetched (ev1 ++ ev2).
Proof.
  intros F. unfold writes_iff_fetched.
  rewrite writer_invoked_no_db, rows_written_no_db by assumption.
  now rewrite (insert_succeeded_no_db ev1 ev2 F).
Qed.

Lemma insert_succeeded_bool (ev : list event) :
  insert_succeeded ev
  <-> existsb is_ok_execute ev && existsb is_ok_commit ev = true.
Proof.
  unfold insert_succeeded. rewrite andb_true_iff, !existsb_exists. split.
  - intros [(cur & sql & params & v & I1) (conn & v' & I2)]. split.
    + eexists. split; [exact I1 | reflexivity].
    + eexists. split; [exact I2 | reflexivity].
  - intros [(x & I1 & X) (y & I2 & Y)]. split.
    + destruct x as [| | [] []]; try discriminate X. eauto 10.
    + destruct y as [| | [] []]; try discriminate Y. eauto 10.
Qed.

(** What one call of the writer leaves in the database. *)
Lemma insert_into_db_rows (w : World) (data : pyval) (table_name : string)
  (h : list event) (r : result unit) (ev : list event) :
  insert_into_db w data table_name h = (r, ev) ->
  writer_invoked ev = true
  /\ (rows_written [] ev <> [] <-> insert_succeeded ev)
  /\ (List.length (rows_written [] ev) <= 1)%nat.
Proof.
  unfold insert_into_db. intros H.
  minv; rewrite insert_succeeded_bool;
    (split; [reflexivity | split; [| cbn; lia]]);
    cbn [app rows_written existsb is_ok_execute is_ok_commit andb orb];
    (split; [intros N | intros N]);
    solve [reflexivity | discriminate | now contradiction N].
Qed.

Lemma aws_body_writes (w : World) (s e : string) (a : pyval) (h : list event)
  (r : result pyval) (ev : list event) (rb : result unit) (evb : list event) :
  fetch_aws_costs w a s e h = (r, ev) ->
  aws_body w s e a h = (rb, evb) ->
  (r = Ret PNone -> rb = Ret tt /\ evb = ev)
  /\ writes_iff_fetched (returned_cost r) evb.
Proof.
  intros H B.
  pose proof (emits_run _ _ _ _ _ (fetch_aws_costs_no_db w a s e) H) as D.
  unfold aws_body in B. apply bind_inv in B.
  destruct B as [(c & ev1 & ev2 & R & K & ->) | [(x & R & ->) | (x & R & ->)]];
    rewrite H in R; injection R as -> <-.
  - destruct c; cbn [is_not_None] in K;
      try (apply ret_inv in K; destruct K as [-> ->]; rewrite app_nil_r;
           split; [auto | now apply writes_iff_fetched_no_db]);
      (split; [discriminate |]);
      apply writes_iff_fetched_app; try assumption;
      minv; cbn [app];
      try (apply writes_iff_fetched_no_db; constructor);
      destruct (insert_into_db_rows _ _ _ _ _ _ K) as (W & Rw & L);
      (split; [| split; [| exact L]]);
      try (intros _; eexists; split; [reflexivity | discriminate]);
      (rewrite Rw; split; [intros S | now intros [_ S]]);
      (split; [eexists; split; [reflexivity | discriminate] | exact S]).
  - split; [discriminate | now apply writes_iff_fetched_no_db].
  - split; [discriminate | now apply writes_iff_fetched_no_db].
Qed.

Lemma azure_body_writes (w : World) (s e : string) (a : pyval) (h : list event)
  (r : result pyval) (ev : list event) (rb : result unit) (evb : list event) :
  fetch_azure_costs w a s e h = (r, ev) ->
  azure_body w s e a h = (rb, evb) ->
  (r = Ret PNone -> rb = Ret tt /\ evb = ev)
  /\ writes_iff_fetched (returned_cost r) evb.
Proof.
  intros H B.
  pose proof (emits_run _ _ _ _ _ (fetch_azure_costs_no_db w a s e) H) as D.
  unfold azure_body in B. apply bind_inv in B.
  destruct B as [(c & ev1 & ev2 & R & K & ->) | [(x & R & ->) | (x & R & ->)]];
    rewrite H in R; injection R as -> <-.
  - destruct c; cbn [is_not_None] in K;
      try (apply ret_inv in K; destruct K as [-> ->]; rewrite app_nil_r;
           split; [auto | now apply writes_iff_fetched_no_db]);
      (split; [discriminate |]);
      apply writes_iff_fetched_app; try assumption;
      minv; cbn [app];
      try (apply writes_iff_fetched_no_db; constructor);
      destruct (insert_into_db_rows _ _ _ _ _ _ K) as (W & Rw & L);
      (split; [| split; [| exact L]]);
      try (intros _; eexists; split; [reflexivity | discriminate]);
      (rewrite Rw; split; [intros S | now intros [_ S]]);
      (split; [eexists; split; [reflexivity | discriminate] | exact S]).
  - split; [discriminate | now apply writes_iff_fetched_no_db].
  - split; [discriminate | now apply writes_iff_fetched_no_db].
Qed.

(** ** The failures that are caught *)

(** X10: a cost query that fails is logged on the error stream and the
    fetch returns a null. *)
Lemma cost_query_failure_is_caught (w : World) (a : pyval) (s e : string)
  (h : list event) (r : result pyval) (ev : list event)
  (client : pyval) (kw : list (string * pyval)) (x : exn) :
  fetch_aws_costs w a s e h = (r, ev) ->
  In (EvCall (get_cost_and_usage client kw) (Fail x)) ev ->
  r = Ret PNone
  /\ In (EvPrint stderr ("Error fetching AWS costs: " ++ exn_msg x)%string) ev.
Proof.
  unfold fetch_aws_costs, assume_role. intros H I.
  minv; in_events I; (split; [reflexivity |]);
    cbn [app In]; repeat (first [left; reflexivity | right]).
Qed.

(** X11: an Azure query that fails, at authentication or later, is
    logged on the error stream and the fetch returns a null. *)
Lemma usage_query_failure_is_caught (w : World) (a : pyval) (s e : string)
  (h : list event) (r : result pyval) (ev : list event)
  (client : pyval) (scope : string) (q : pyval) (x : exn) :
  fetch_azure_costs w a s e h = (r, ev) ->
  In (EvCall (query_usage client scope q) (Fail x)) ev ->
  r = Ret PNone
  /\ In (EvPrint stderr ("Error fetching Azure costs: " ++ exn_msg x)%string) ev.
Proof.
  unfold fetch_azure_costs. intros H I.
  minv; in_events I; (split; [reflexivity |]);
    cbn [app In]; repeat (first [left; reflexivity | right]).
Qed.

Lemma getitem_no_exit (v : pyval) (k : string) (c : Z) :
  getitem v k <> SysExit c.
Proof.
  destruct v; cbn; try discriminate. destruct (lookup k d); discriminate.
Qed.

(** X17: the writer returns normally whatever the database answers: no
    failure of the database leaves [insert_into_db]. *)
Lemma insert_into_db_returns (w : World) (data : pyval) (table_name : string)
  (h : list event) :
  fst (insert_into_db w data table_name h) = Ret tt.
Proof.
  destruct (insert_into_db w data table_name h) as [r ev] eqn:H. cbn [fst].
  unfold insert_into_db in H.
  minv; try reflexivity; exfalso; eapply getitem_no_exit; eassumption.
Qed.

(** X2: a configuration file that cannot be opened, or that cannot be
    parsed, ends the run with [exit(1)]. *)
Lemma load_failure_exits (w : World) (h : list event) (x : exn) :
  respond w h (open_ config_path "r") = Fail x
  \/ (exists file,
         respond w h (open_ config_path "r") = Ok file /\
         respond w (h ++ [EvCall (open_ config_path "r") (Ok file)])
           (yaml_safe_load file) = Fail x) ->
  fst (main w h) = SysExit 1 /\ exit_status (fst (main w h)) = 1.
Proof.
  intros [O | (file & O & Y)];
    unfold main, load_config, bind, try_except, extern, print, exit;
    rewrite O; try rewrite Y; destruct (exn_cls x); cbn; auto.
Qed.

(** ** A role that cannot be assumed *)

(** C1 at a failing input: two AWS accounts and one Azure subscription are
    configured and the role of the first account cannot be assumed.  The
    exception leaves [fetch_aws_costs] and [main]: nothing is printed on
    the error stream, the second account and the subscription are never
    reached, and no row is written, where three rows are written when the
    role can be assumed.  In the same way the credential error of a
    subscription whose variables are not set leaves [fetch_azure_costs]. *)
Theorem role_failure_aborts_run :
  let w := scripted role_denied march_15 in
  fst (fetch_aws_costs w aws_prod "2024-02-01" "2024-02-29" [])
  = Raise access_denied
  /\ fst (main w []) = Raise access_denied
  /\ filter is_stderr (snd (main w [])) = []
  /\ List.length (filter is_assume_role (snd (main w []))) = 1%nat
  /\ rows_written [] (snd (main w [])) = []
  /\ List.length (rows_written [] (snd (main (scripted all_fine march_15) [])))
     = 3%nat
  /\ fst (fetch_azure_costs (scripted_no_env credential_checked march_15)
            azure_main "2024-02-01T00:00:00Z" "2024-02-29T23:59:59Z" [])
     = Raise (mkexn ValueError "tenant_id should be a Microsoft Entra tenant's id").
Proof. vm_compute. repeat split; reflexivity. Qed.

(** C2 at the same failing input: the configuration file is loaded, and
    the process still ends with status 1, where it ends with status 0
    when the role can be assumed. *)
Theorem role_failure_exit_status :
  let w := scripted role_denied march_15 in
  fst (load_config w []) = Ret example_config
  /\ fst (run w) = 1
  /\ fst (run (scripted all_fine march_15)) = 0.
Proof. vm_compute. repeat split; reflexivity. Qed.

(** ** The cost query that is sent *)

Lemma filter_none {A} (f : A -> bool) (l : list A) :
  Forall (fun x => f x = false) l -> filter f l = [].
Proof.
  induction 1 as [| x l Hx _ IH]; [reflexivity |]. cbn. now rewrite Hx.
Qed.

Lemma assume_role_no_cost_query (w : World) (account_id role_name : pyval) :
  emits (fun x => is_cost_query x = false) (assume_role w account_id role_name).
Proof. unfold assume_role. emits_auto. Qed.

(** Two equations with the same left-hand side are merged, and the case
    is closed when they disagree. *)
Ltac merge_eqs :=
  repeat match goal with
    | H1 : ?t = _, H2 : ?t = _ |- _ =>
        rewrite H1 in H2; inversion H2; subst; clear H2
    end.

Ltac flatten_histories :=
  repeat rewrite app_nil_r in *;
  repeat rewrite <- app_assoc in *;
  cbn [app] in *.

(** When the descriptor has its fields, the role is assumed and the
    client is made, one cost query is sent: the unfiltered one when the
    [tags] field is not the string "true", the filtered one otherwise. *)
Lemma fetch_aws_costs_sends (w : World) (a : pyval) (s e : string)
  (h : list event) (account_id role_name session client tags : pyval)
  (ev1 : list event) (kw : list (string * pyval)) :
  getitem a "accountId" = Ret account_id ->
  getitem a "roleName" = Ret role_name ->
  assume_role w account_id role_name h = (Ret session, ev1) ->
  respond w (h ++ ev1) (session_client session "ce" "us-east-1") = Ok client ->
  getitem a "tags" = Ret tags ->
  (eq_str tags "true" = false /\ kw = cost_kwargs s e)
  \/ (eq_str tags "true" = true /\
      exists k v, getitem a "tagKey" = Ret k /\ getitem a "tagValue" = Ret v /\
                  kw = cost_kwargs s e ++ [("Filter", tag_filter k v)]) ->
  filter is_cost_query (snd (fetch_aws_costs w a s e h))
  = [EvCall (get_cost_and_usage client kw)
       (respond w
          (h ++ ev1 ++ [EvCall (session_client session "ce" "us-east-1") (Ok client)])
          (get_cost_and_usage client kw))].
Proof.
  intros Hid Hrole Hassume Hclient Htags Hkw.
  pose proof (emits_run _ _ _ _ _ (assume_role_no_cost_query w _ _) Hassume) as Q.
  apply filter_none in Q.
  destruct (fetch_aws_costs w a s e h) as [r ev] eqn:H. cbn [snd].
  unfold fetch_aws_costs in H.
  destruct Hkw as [[F ->] | [F (k & v & K & V & ->)]];
    minv; flatten_histories; merge_eqs; try congruence;
    rewrite filter_app, Q; cbn [app filter is_cost_query];
    repeat match goal with
      | R : respond _ _ (get_cost_and_usage _ _) = _ |- _ => rewrite R
      end; reflexivity.
Qed.

(** C4: the cost query [fetch_aws_costs] issues carries no tag filter when
    the descriptor's tag-filter flag is false; when the flag is true it
    carries one filter, the equality of the configured tag key with the
    configured tag value; the period, the MONTHLY granularity and the
    UnblendedCost metric are the same in both cases.  And the query is
    issued: once the role of the descriptor is assumed and the Cost
    Explorer client is made, the events of the fetch hold one cost
    query, the unfiltered one when the flag is false and the filtered
    one when it is true. *)
Theorem fetch_aws_costs_tag_filter :
  (forall (w : World) (a : pyval) (s e : string)
          (h : list event) (r : result pyval) (ev : list event)
          (client : pyval) (kw : list (string * pyval)) (out : answer),
      fetch_aws_costs w a s e h = (r, ev) ->
      In (EvCall (get_cost_and_usage client kw) out) ev ->
      (tag_filter_flag a = false ->
       lookup "Filter" kw = None /\
       kw = [("TimePeriod", PDict [("Start", PStr s); ("End", PStr e)]);
             ("Granularity", PStr "MONTHLY");
             ("Metrics", PList [PStr "UnblendedCost"])])
      /\
      (tag_filter_flag a = true ->
       exists k v,
         getitem a "tagKey" = Ret k /\ getitem a "tagValue" = Ret v /\
         kw = [("TimePeriod", PDict [("Start", PStr s); ("End", PStr e)]);
               ("Granularity", PStr "MONTHLY");
               ("Metrics", PList [PStr "UnblendedCost"]);
               ("Filter",
                 PDict [("Tags", PDict [("Key", k);
                                        ("Values", PList [v]);
                                        ("MatchOptions", PList [PStr "EQUALS"])])])])
      /\
      (forall key, key <> "Filter" -> lookup key kw = lookup key (cost_kwargs s e)))
  /\
  (forall (w : World) (a : pyval) (s e : string) (h : list event)
          (account_id role_name tags session client : pyval)
          (ev1 : list event),
      getitem a "accountId" = Ret account_id ->
      getitem a "roleName" = Ret role_name ->
      getitem a "tags" = Ret tags ->
      assume_role w account_id role_name h = (Ret session, ev1) ->
      respond w (h ++ ev1) (session_client session "ce" "us-east-1") = Ok client ->
      let asked :=
        h ++ ev1 ++ [EvCall (session_client session "ce" "us-east-1") (Ok client)] in
      (tag_filter_flag a = false ->
       let kw := [("TimePeriod", PDict [("Start", PStr s); ("End", PStr e)]);
                  ("Granularity", PStr "MONTHLY");
                  ("Metrics", PList [PStr "UnblendedCost"])] in
       filter is_cost_query (snd (fetch_aws_costs w a s e h))
       = [EvCall (get_cost_and_usage client kw)
            (respond w asked (get_cost_and_usage client kw))])
      /\
      (forall k v,
          tag_filter_flag a = true ->
          getitem a "tagKey" = Ret k -> getitem a "tagValue" = Ret v ->
          let kw := [("TimePeriod", PDict [("Start", PStr s); ("End", PStr e)]);
                     ("Granularity", PStr "MONTHLY");
                     ("Metrics", PList [PStr "UnblendedCost"]);
                     ("Filter",
                       PDict [("Tags", PDict [("Key", k);
                                              ("Values", PList [v]);
                                              ("MatchOptions", PList [PStr "EQUALS"])])])] in
          filter is_cost_query (snd (fetch_aws_costs w a s e h))
          = [EvCall (get_cost_and_usage client kw)
               (respond w asked (get_cost_and_usage client kw))])).
Proof.
  split.
  - intros w a s e h r ev client kw out H I.
    destruct (fetch_aws_costs_query w a s e h r ev client kw out H I)
      as (tags & T & [[F ->] | [F (k & v & K & V & ->)]]);
      unfold tag_filter_flag; rewrite T, F.
    + repeat split; try discriminate; auto.
    + repeat split; try discriminate.
      * intros _. exists k, v. auto.
      * intros key Hk. apply lookup_app_other. exact Hk.
  - intros w a s e h account_id role_name tags session client ev1
      Hid Hrole T Hassume Hclient asked.
    unfold tag_filter_flag. rewrite T. split.
    + intros F. cbv zeta.
      apply (fetch_aws_costs_sends w a s e h account_id role_name session
               client tags ev1 _ Hid Hrole Hassume Hclient T).
      left. split; [exact F | reflexivity].
    + intros k v F K V. cbv zeta.
      apply (fetch_aws_costs_sends w a s e h account_id role_name session
               client tags ev1 _ Hid Hrole Hassume Hclient T).
      right. split; [exact F |]. exists k, v. auto.
Qed.

Lemma fetch_aws_costs_tag_filter_witness :
  let w := scripted all_fine march_15 in
  let s := "2024-02-01" in
  let e := "2024-02-29" in
  let filtered :=
    [("TimePeriod", PDict [("Start", PStr s); ("End", PStr e)]);
     ("Granularity", PStr "MONTHLY");
     ("Metrics", PList [PStr "UnblendedCost"]);
     ("Filter",
       PDict [("Tags", PDict [("Key", PStr "team");
                              ("Values", PList [PStr "data"]);
                              ("MatchOptions", PList [PStr "EQUALS"])])])] in
  let unfiltered :=
    [("TimePeriod", PDict [("Start", PStr s); ("End", PStr e)]);
     ("Granularity", PStr "MONTHLY");
     ("Metrics", PList [PStr "UnblendedCost"])] in
  (tag_filter_flag aws_prod = false
   /\ filter is_cost_query (snd (fetch_aws_costs w aws_prod s e []))
      = [EvCall (get_cost_and_usage (PObj "CostExplorer" []) unfiltered)
           (Ok (cost_response "123.45"))])
  /\ (tag_filter_flag aws_dev = true
      /\ filter is_cost_query (snd (fetch_aws_costs w aws_dev s e []))
         = [EvCall (get_cost_and_usage (PObj "CostExplorer" []) filtered)
              (Ok (cost_response "123.45"))])
  /\ lookup "Filter" unfiltered = None.
Proof.
  intros w s e filtered unfiltered.
  assert (P : filter is_cost_query (snd (fetch_aws_costs w aws_prod s e []))
              = [EvCall (get_cost_and_usage (PObj "CostExplorer" []) unfiltered)
                   (Ok (cost_response "123.45"))]).
  { apply (proj1 (proj2 fetch_aws_costs_tag_filter w aws_prod s e []
                    (PStr "111111111111") (PStr "CostReader") (PStr "false")
                    (PObj "Session" []) (PObj "CostExplorer" [])
                    (snd (assume_role w (PStr "111111111111") (PStr "CostReader") []))
                    eq_refl eq_refl eq_refl eq_refl eq_refl)).
    reflexivity. }
  assert (D : filter is_cost_query (snd (fetch_aws_costs w aws_dev s e []))
              = [EvCall (get_cost_and_usage (PObj "CostExplorer" []) filtered)
                   (Ok (cost_response "123.45"))]).
  { apply (proj2 (proj2 fetch_aws_costs_tag_filter w aws_dev s e []
                    (PStr "222222222222") (PStr "CostReader") (PStr "true")
                    (PObj "Session" []) (PObj "CostExplorer" [])
                    (snd (assume_role w (PStr "222222222222") (PStr "CostReader") []))
                    eq_refl eq_refl eq_refl eq_refl eq_refl)
             (PStr "team") (PStr "data")); reflexivity. }
  split; [split; [reflexivity | exact P] |].
  split; [split; [reflexivity | exact D] |].
  assert (I : In (EvCall (get_cost_and_usage (PObj "CostExplorer" []) unfiltered)
                    (Ok (cost_response "123.45")))
                 (snd (fetch_aws_costs w aws_prod s e []))).
  { apply (proj1 (filter_In is_cost_query _ _)). rewrite P. left. reflexivity. }
  apply (proj1 (proj1 fetch_aws_costs_tag_filter w aws_prod s e [] _ _ _ _ _
                  (surjective_pairing _) I)).
  reflexivity.
Defined.

(** ** The row the writer leaves *)

(** One call of the writer leaves a row exactly when the database accepts
    it, and the row is then the one of [data], dated by the reading of
    the clock made on entry. *)
Lemma insert_into_db_accepted (w : World) (data : pyval) (table_name : string)
  (h : list event) (r : result unit) (ev : list event) :
  insert_into_db w data table_name h = (r, ev) ->
  (insert_accepted w data table_name h ->
   exists a s c,
     getitem data "accountName" = Ret a /\
     getitem data "Subscription" = Ret s /\
     getitem data "monthlyCost" = Ret c /\
     rows_written [] ev
     = [(insert_sql table_name,
         [a; s; c; PStr (strftime (today w h) "%d/%m/%y")])])
  /\ (rows_written [] ev <> [] -> insert_accepted w data table_name h).
Proof.
  unfold insert_into_db. intros H. split.
  - intros (a & s & c & conn & cur & v & v' & A & S & C & A1 & A2 & A3 & A4).
    unfold connection_string in *. cbv zeta in *.
    minv; flatten_histories;
      first [ solve [cbn [rows_written app]; eauto 10]
            | exfalso; congruence ].
  - intros N. unfold insert_accepted, connection_string. cbv zeta.
    minv; flatten_histories; cbn [rows_written app] in N;
      try (now contradiction N);
      do 7 eexists; repeat split; eassumption.
Qed.

Lemma is_not_None_true (v : pyval) : v <> PNone -> is_not_None v = true.
Proof. destruct v; [intros N; now contradiction N | reflexivity ..]. Qed.

(** The loop body after a fetch that returned a cost: the writer is
    called with the row of the descriptor. *)
Lemma aws_body_run (w : World) (s e : string) (a : pyval) (h : list event)
  (cost name : pyval) (ev : list event) :
  fetch_aws_costs w a s e h = (Ret cost, ev) ->
  cost <> PNone ->
  getitem a "accountName" = Ret name ->
  aws_body w s e a h
  = (fst (insert_into_db w (aws_data name cost) "aws_monthly_cost" (h ++ ev)),
     ev ++ snd (insert_into_db w (aws_data name cost) "aws_monthly_cost" (h ++ ev))).
Proof.
  intros H N G. unfold aws_body. unfold bind at 1. rewrite H.
  rewrite (is_not_None_true _ N). unfold bind at 1, lift. rewrite G.
  rewrite app_nil_r. fold (aws_data name cost).
  destruct (insert_into_db w (aws_data name cost) "aws_monthly_cost" (h ++ ev)).
  reflexivity.
Qed.

Lemma azure_body_run (w : World) (s e : string) (a : pyval) (h : list event)
  (cost name id : pyval) (ev : list event) :
  fetch_azure_costs w a s e h = (Ret cost, ev) ->
  cost <> PNone ->
  getitem a "accountName" = Ret name ->
  getitem a "Subscription" = Ret id ->
  azure_body w s e a h
  = (fst (insert_into_db w (azure_data name id cost) "azure_monthly_cost" (h ++ ev)),
     ev ++ snd (insert_into_db w (azure_data name id cost) "azure_monthly_cost"
                  (h ++ ev))).
Proof.
  intros H N G S. unfold azure_body. unfold bind at 1. rewrite H.
  rewrite (is_not_None_true _ N). unfold bind at 1, lift. rewrite G.
  unfold bind at 1. rewrite S.
  rewrite !app_nil_r. fold (azure_data name id cost).
  destruct (insert_into_db w (azure_data name id cost) "azure_monthly_cost" (h ++ ev)).
  reflexivity.
Qed.

(** What a loop body leaves in the database after a fetch that returned
    a cost: the writer is entered, and the row of the descriptor is
    written exactly when the database accepts it. *)
Lemma body_rows (w : World) (data : pyval) (table_name : string)
  (h ev : list event) :
  Forall no_db_call ev ->
  let evb := ev ++ snd (insert_into_db w data table_name (h ++ ev)) in
  writer_invoked evb = true
  /\ (insert_accepted w data table_name (h ++ ev) ->
      exists a s c,
        getitem data "accountName" = Ret a /\
        getitem data "Subscription" = Ret s /\
        getitem data "monthlyCost" = Ret c /\
        rows_written [] evb
        = [(insert_sql table_name,
            [a; s; c; PStr (spec_short_date (year (today w (h ++ ev)))
                              (month (today w (h ++ ev)))
                              (day (today w (h ++ ev))))])])
  /\ (rows_written [] evb <> [] -> insert_accepted w data table_name (h ++ ev)).
Proof.
  intros D evb. subst evb.
  rewrite writer_invoked_no_db, rows_written_no_db by assumption.
  destruct (insert_into_db w data table_name (h ++ ev)) as [ri evi] eqn:I.
  cbn [snd].
  destruct (insert_into_db_rows _ _ _ _ _ _ I) as (W & _ & _).
  destruct (insert_into_db_accepted _ _ _ _ _ _ I) as (P & Q).
  split; [exact W | split; [| exact Q]].
  intros Acc. destruct (P Acc) as (a & s & c & A & S & C & R).
  exists a, s, c. rewrite R, strftime_short. auto.
Qed.

Lemma aws_body_row (w : World) (s e : string) (a : pyval) (h : list event)
  (cost name : pyval) (ev : list event) :
  fetch_aws_costs w a s e h = (Ret cost, ev) ->
  cost <> PNone ->
  getitem a "accountName" = Ret name ->
  let evb := snd (aws_body w s e a h) in
  let d := today w (h ++ ev) in
  writer_invoked evb = true
  /\ (insert_accepted w (aws_data name cost) "aws_monthly_cost" (h ++ ev) ->
      rows_written [] evb
      = [(insert_sql "aws_monthly_cost",
          [name; PStr "N/A"; cost;
           PStr (spec_short_date (year d) (month d) (day d))])])
  /\ (rows_written [] evb <> [] ->
      insert_accepted w (aws_data name cost) "aws_monthly_cost" (h ++ ev)).
Proof.
  intros H N G evb d. subst evb d.
  pose proof (emits_run _ _ _ _ _ (fetch_aws_costs_no_db w a s e) H) as D.
  rewrite (aws_body_run w s e a h cost name ev H N G). cbn [snd].
  destruct (body_rows w (aws_data name cost) "aws_monthly_cost" h ev D)
    as (W & P & Q).
  split; [exact W | split; [| exact Q]].
  intros Acc. destruct (P Acc) as (a' & s' & c' & A & S & C & R).
  cbn in A, S, C. injection A as <-. injection S as <-. injection C as <-.
  exact R.
Qed.

Lemma azure_body_row (w : World) (s e : string) (a : pyval) (h : list event)
  (cost name id : pyval) (ev : list event) :
  fetch_azure_costs w a s e h = (Ret cost, ev) ->
  cost <> PNone ->
  getitem a "accountName" = Ret name ->
  getitem a "Subscription" = Ret id ->
  let evb := snd (azure_body w s e a h) in
  let d := today w (h ++ ev) in
  writer_invoked evb = true
  /\ (insert_accepted w (azure_data name id cost) "azure_monthly_cost" (h ++ ev) ->
      rows_written [] evb
      = [(insert_sql "azure_monthly_cost",
          [name; id; cost;
           PStr (spec_short_date (year d) (month d) (day d))])])
  /\ (rows_written [] evb <> [] ->
      insert_accepted w (azure_data name id cost) "azure_monthly_cost" (h ++ ev)).
Proof.
  intros H N G Sb evb d. subst evb d.
  pose proof (emits_run _ _ _ _ _ (fetch_azure_costs_no_db w a s e) H) as D.
  rewrite (azure_body_run w s e a h cost name id ev H N G Sb). cbn [snd].
  destruct (body_rows w (azure_data name id cost) "azure_monthly_cost" h ev D)
    as (W & P & Q).
  split; [exact W | split; [| exact Q]].
  intros Acc. destruct (P Acc) as (a' & s' & c' & A & S & C & R).
  cbn in A, S, C. injection A as <-. injection S as <-. injection C as <-.
  exact R.
Qed.

(** ** Rows and fetches, with the answers of the database *)




(** ** The subscription column *)

(** C8: every row the AWS loop hands to the database goes to
    [aws_monthly_cost] with "N/A" in its subscription column; every row
    the Azure loop hands to the database goes to [azure_monthly_cost] with
    the subscription identifier of one of the configured descriptors, the
    one the row is written for.  And the rows are written: after a fetch
    that returned a cost, when the database accepts the row, the row left
    in [aws_monthly_cost] has the display name of the account, "N/A" and
    the cost, and the row left in [azure_monthly_cost] has the display
    name, the subscription identifier of the descriptor and the cost. *)
Theorem subscription_column :
  (forall (w : World) (s e : string) (accounts : list pyval)
          (h : list event) (r : result unit) (ev : list event)
          (cur : pyval) (sql : string) (params : list pyval) (out : answer),
      for_each accounts (aws_body w s e) h = (r, ev) ->
      In (EvCall (cur_execute cur sql params) out) ev ->
      sql = "INSERT INTO aws_monthly_cost (accountName, Subscription, monthlyCost, SampleDate) VALUES (%s, %s, %s, %s)"
      /\ nth_error params 1 = Some (PStr "N/A"))
  /\
  (forall (w : World) (s e : string) (subscriptions : list pyval)
          (h : list event) (r : result unit) (ev : list event)
          (cur : pyval) (sql : string) (params : list pyval) (out : answer),
      for_each subscriptions (azure_body w s e) h = (r, ev) ->
      In (EvCall (cur_execute cur sql params) out) ev ->
      sql = "INSERT INTO azure_monthly_cost (accountName, Subscription, monthlyCost, SampleDate) VALUES (%s, %s, %s, %s)"
      /\ exists sub name id,
          In sub subscriptions /\
          getitem sub "accountName" = Ret name /\
          getitem sub "Subscription" = Ret id /\
          nth_error params 0 = Some name /\
          nth_error params 1 = Some id)
  /\
  (forall (w : World) (s e : string) (a : pyval) (h : list event)
          (cost name : pyval) (ev : list event),
      fetch_aws_costs w a s e h = (Ret cost, ev) ->
      cost <> PNone ->
      getitem a "accountName" = Ret name ->
      insert_accepted w (aws_data name cost) "aws_monthly_cost" (h ++ ev) ->
      exists date,
        rows_written [] (snd (aws_body w s e a h))
        = [("INSERT INTO aws_monthly_cost (accountName, Subscription, monthlyCost, SampleDate) VALUES (%s, %s, %s, %s)",
            [name; PStr "N/A"; cost; PStr date])])
  /\
  (forall (w : World) (s e : string) (a : pyval) (h : list event)
          (cost name id : pyval) (ev : list event),
      fetch_azure_costs w a s e h = (Ret cost, ev) ->
      cost <> PNone ->
      getitem a "accountName" = Ret name ->
      getitem a "Subscription" = Ret id ->
      insert_accepted w (azure_data name id cost) "azure_monthly_cost" (h ++ ev) ->
      exists date,
        rows_written [] (snd (azure_body w s e a h))
        = [("INSERT INTO azure_monthly_cost (accountName, Subscription, monthlyCost, SampleDate) VALUES (%s, %s, %s, %s)",
            [name; id; cost; PStr date])]).
Proof.
  split; [| split; [| split]].
  - intros w s e accounts h r ev cur sql params out H I.
    destruct (for_each_event _ _ _ _ _ _ H I) as (a & h' & r' & ev' & _ & B & I').
    destruct (aws_body_execute _ _ _ _ _ _ _ _ _ _ _ B I')
      as (-> & name & cost & date & _ & ->).
    split; reflexivity.
  - intros w s e subs h r ev cur sql params out H I.
    destruct (for_each_event _ _ _ _ _ _ H I) as (a & h' & r' & ev' & Ia & B & I').
    destruct (azure_body_execute _ _ _ _ _ _ _ _ _ _ _ B I')
      as (-> & name & id & cost & date & N & S & ->).
    split; [reflexivity |]. exists a, name, id. auto.
  - intros w s e a h cost name ev H N G Acc.
    destruct (aws_body_row w s e a h cost name ev H N G) as (_ & P & _).
    eexists. exact (P Acc).
  - intros w s e a h cost name id ev H N G S Acc.
    destruct (azure_body_row w s e a h cost name id ev H N G S) as (_ & P & _).
    eexists. exact (P Acc).
Qed.

Lemma subscription_column_witness :
  let w := scripted all_fine march_15 in
  let aws_params :=
    [PStr "dev"; PStr "N/A"; PFloat 123.45%float; PStr "15/03/24"] in
  let azure_params :=
    [PStr "azure-main"; PStr "sub_main"; PFloat 67.89%float; PStr "15/03/24"] in
  (In (EvCall (cur_execute (PObj "cursor" []) (insert_sql "aws_monthly_cost")
                 aws_params) (Ok PNone))
      (snd (for_each [aws_prod; aws_dev] (aws_body w "2024-02-01" "2024-02-29") []))
   /\ nth_error aws_params 1 = Some (PStr "N/A"))
  /\ (exists date,
         rows_written [] (snd (aws_body w "2024-02-01" "2024-02-29" aws_prod []))
         = [(insert_sql "aws_monthly_cost",
             [PStr "prod"; PStr "N/A"; PFloat 123.45%float; PStr date])])
  /\ (In (EvCall (cur_execute (PObj "cursor" []) (insert_sql "azure_monthly_cost")
                    azure_params) (Ok PNone))
         (snd (for_each [azure_main]
                 (azure_body w "2024-02-01T00:00:00Z" "2024-02-29T23:59:59Z") []))
      /\ exists sub name id,
          In sub [azure_main] /\
          getitem sub "accountName" = Ret name /\
          getitem sub "Subscription" = Ret id /\
          nth_error azure_params 0 = Some name /\
          nth_error azure_params 1 = Some id)
  /\ (exists date,
         rows_written []
           (snd (azure_body w "2024-02-01T00:00:00Z" "2024-02-29T23:59:59Z"
                   azure_main []))
         = [(insert_sql "azure_monthly_cost",
             [PStr "azure-main"; PStr "sub_main"; PFloat 67.89%float;
              PStr date])]).
Proof.
  intros w aws_params azure_params.
  assert (Ia : In (EvCall (cur_execute (PObj "cursor" [])
                             (insert_sql "aws_monthly_cost") aws_params) (Ok PNone))
                  (snd (for_each [aws_prod; aws_dev]
                          (aws_body w "2024-02-01" "2024-02-29") [])))
    by find_event.
  assert (Iz : In (EvCall (cur_execute (PObj "cursor" [])
                             (insert_sql "azure_monthly_cost") azure_params)
                     (Ok PNone))
                  (snd (for_each [azure_main]
                          (azure_body w "2024-02-01T00:00:00Z"
                             "2024-02-29T23:59:59Z") [])))
    by find_event.
  split; [split; [exact Ia |] | split; [| split; [split; [exact Iz |] |]]].
  - exact (proj2 (proj1 subscription_column w "2024-02-01" "2024-02-29"
                    [aws_prod; aws_dev] [] _ _ _ _ _ _
                    (surjective_pairing _) Ia)).
  - refine (proj1 (proj2 (proj2 subscription_column)) w "2024-02-01"
              "2024-02-29" aws_prod [] (PFloat 123.45%float) (PStr "prod") _
              eq_refl _ eq_refl _).
    + discriminate.
    + exists (PStr "prod"), (PStr "N/A"), (PFloat 123.45%float),
        (PObj "connection" []), (PObj "cursor" []), PNone, PNone.
      repeat split.
  - exact (proj2 (proj1 (proj2 subscription_column) w "2024-02-01T00:00:00Z"
                    "2024-02-29T23:59:59Z" [azure_main] [] _ _ _ _ _ _
                    (surjective_pairing _) Iz)).
  - refine (proj2 (proj2 (proj2 subscription_column)) w "2024-02-01T00:00:00Z"
              "2024-02-29T23:59:59Z" azure_main [] (PFloat 67.89%float)
              (PStr "azure-main") (PStr "sub_main") _ eq_refl _ eq_refl eq_refl _).
    + discriminate.
    + exists (PStr "azure-main"), (PStr "sub_main"), (PFloat 67.89%float),
        (PObj "connection" []), (PObj "cursor" []), PNone, PNone.
      repeat split.
Defined.

(** ** The sample date, whatever the clock reads *)

Lemma dated_by_clock_app (ev1 ev2 : list event) :
  self_dated ev2 ->
  forall latest, dated_by_clock latest ev1 -> dated_by_clock latest (ev1 ++ ev2).
Proof.
  intros S. induction ev1 as [| x ev1 IH]; intros latest D; cbn [app].
  - apply S.
  - destruct x as [| d | [] out]; cbn [dated_by_clock] in *;
      try (apply IH; exact D).
    destruct D as [D1 D2]. split; [exact D1 | apply IH; exact D2].
Qed.

Lemma self_dated_app (ev1 ev2 : list event) :
  self_dated ev1 -> self_dated ev2 -> self_dated (ev1 ++ ev2).
Proof. intros S1 S2 latest. apply dated_by_clock_app; [exact S2 | apply S1]. Qed.

Lemma self_dated_nil : self_dated [].
Proof. intros latest. exact I. Qed.

Lemma self_dated_no_db (ev : list event) :
  Forall no_db_call ev -> self_dated ev.
Proof.
  induction 1 as [| x ev Hx _ IH]; intros latest; [exact I |].
  unfold no_db_call in Hx.
  destruct x as [| d | [] out]; cbn in Hx; try discriminate Hx;
    cbn [dated_by_clock]; apply IH.
Qed.

Lemma dates_no_db {A} (m : M A) : emits no_db_call m -> dates_its_statements m.
Proof. intros E h. apply self_dated_no_db, E. Qed.

Lemma dates_bind {A B} (m : M A) (k : A -> M B) :
  dates_its_statements m -> (forall a, dates_its_statements (k a)) ->
  dates_its_statements (bind m k).
Proof.
  intros Hm Hk h. unfold bind. specialize (Hm h).
  destruct (m h) as [[a | e | c] ev]; cbn [snd] in *; try assumption.
  specialize (Hk a (h ++ ev)). destruct (k a (h ++ ev)) as [r ev'].
  cbn [snd] in *. now apply self_dated_app.
Qed.

Lemma dates_for_each {A} (l : list A) (body : A -> M unit) :
  (forall x, dates_its_statements (body x)) ->
  dates_its_statements (for_each l body).
Proof.
  intros H. induction l as [| x l IH]; cbn [for_each].
  - intros h. apply self_dated_nil.
  - apply dates_bind; [apply H | intros _; exact IH].
Qed.

(** The writer dates its statement by the reading it makes on entry. *)
Lemma dates_insert_into_db (w : World) (data : pyval) (table_name : string) :
  dates_its_statements (insert_into_db w data table_name).
Proof.
  intros h. destruct (insert_into_db w data table_name h) as [r ev] eqn:H.
  cbn [snd]. unfold insert_into_db in H.
  minv; intros latest; cbn [app dated_by_clock]; repeat split;
    eexists; split; reflexivity.
Qed.

Lemma dates_aws_body (w : World) (s e : string) (a : pyval) :
  dates_its_statements (aws_body w s e a).
Proof.
  unfold aws_body. apply dates_bind.
  - apply dates_no_db, fetch_aws_costs_no_db.
  - intros cost. destruct (is_not_None cost).
    + apply dates_bind; [apply dates_no_db, emits_lift |].
      intros name. apply dates_insert_into_db.
    + apply dates_no_db, emits_ret.
Qed.

Lemma dates_azure_body (w : World) (s e : string) (a : pyval) :
  dates_its_statements (azure_body w s e a).
Proof.
  unfold azure_body. apply dates_bind.
  - apply dates_no_db, fetch_azure_costs_no_db.
  - intros cost. destruct (is_not_None cost).
    + apply dates_bind; [apply dates_no_db, emits_lift |].
      intros name. apply dates_bind; [apply dates_no_db, emits_lift |].
      intros id. apply dates_insert_into_db.
    + apply dates_no_db, emits_ret.
Qed.

Lemma dates_main (w : World) : dates_its_statements (main w).
Proof.
  unfold main. apply dates_bind.
  { apply dates_no_db. unfold load_config. emits_auto. }
  intros config. apply dates_bind.
  { apply dates_no_db. unfold get_previous_month_range. emits_auto. }
  intros [[s e] [s' e']].
  apply dates_bind; [apply dates_no_db, emits_lift |]. intros aws.
  apply dates_bind; [apply dates_no_db, emits_lift |]. intros accounts.
  apply dates_bind; [apply dates_for_each; intros; apply dates_aws_body |].
  intros _.
  apply dates_bind; [apply dates_no_db, emits_lift |]. intros azure.
  apply dates_bind; [apply dates_no_db, emits_lift |]. intros subs.
  apply dates_for_each; intros; apply dates_azure_body.
Qed.

Lemma insert_into_db_reads_clock (w : World) (data : pyval)
  (table_name : string) (h : list event) :
  exists ev', snd (insert_into_db w data table_name h)
              = EvToday (today w h) :: ev'.
Proof.
  destruct (insert_into_db w data table_name h) as [r ev] eqn:H.
  cbn [snd]. unfold insert_into_db in H.
  minv; cbn [app]; eexists; reflexivity.
Qed.

(** C7: whatever the clock reads during the run, every statement handed
    to the database carries, as its fourth value, the date of the latest
    reading of the clock before it, as day/month/two-digit year; that
    reading is the one the writer makes itself on entry, so that the date
    is the one of the execution and not one of the billed period; when
    the database accepts the row, the row that is written carries that
    date.  In a run that reads the same date throughout, every statement
    carries that date; a run on 2024-03-15 writes "15/03/24" while the
    period it bills is February 2024. *)
Theorem sample_date_is_run_date :
  (forall (w : World) (h : list event) (r : result unit) (ev : list event),
      main w h = (r, ev) -> dated_by_clock None ev)
  /\
  (forall (w : World) (data : pyval) (table_name : string) (h : list event)
          (r : result unit) (ev : list event),
      insert_into_db w data table_name h = (r, ev) ->
      let d := today w h in
      (exists ev', ev = EvToday d :: ev')
      /\ (forall cur sql params out,
             In (EvCall (cur_execute cur sql params) out) ev ->
             nth_error params 3
             = Some (PStr (spec_short_date (year d) (month d) (day d))))
      /\ (insert_accepted w data table_name h ->
          exists a s c,
            rows_written [] ev
            = [(insert_sql table_name,
                [a; s; c; PStr (spec_short_date (year d) (month d) (day d))])]))
  /\
  (forall (w : World) (d : date) (h : list event) (r : result unit)
          (ev : list event) (cur : pyval) (sql : string)
          (params : list pyval) (out : answer),
      (forall h', today w h' = d) ->
      main w h = (r, ev) ->
      In (EvCall (cur_execute cur sql params) out) ev ->
      nth_error params 3
      = Some (PStr (spec_short_date (year d) (month d) (day d))))
  /\
  (forall (w : World) (h : list event) (r : result unit)
          (ev : list event) (cur : pyval) (sql : string)
          (params : list pyval) (out : answer),
      (forall h', today w h' = mkdate 2024 3 15) ->
      main w h = (r, ev) ->
      In (EvCall (cur_execute cur sql params) out) ev ->
      nth_error params 3 = Some (PStr "15/03/24")
      /\ fst (get_previous_month_range w h)
         = Ret (("2024-02-01", "2024-02-29"),
                ("2024-02-01T00:00:00Z", "2024-02-29T23:59:59Z"))).
Proof.
  assert (G : forall (w : World) (d : date) (h : list event) (r : result unit)
          (ev : list event) (cur : pyval) (sql : string)
          (params : list pyval) (out : answer),
      (forall h', today w h' = d) ->
      main w h = (r, ev) ->
      In (EvCall (cur_execute cur sql params) out) ev ->
      nth_error params 3
      = Some (PStr (spec_short_date (year d) (month d) (day d)))).
  { intros w d h r ev cur sql params out C H I.
    pose proof (emits_run _ _ _ _ _ (main_sample_date w d C) H) as F.
    rewrite executes_with_In in F. exact (F cur sql params out I). }
  split; [| split; [| split; [exact G |]]].
  - intros w h r ev H. pose proof (dates_main w h None) as D.
    now rewrite H in D.
  - intros w data table_name h r ev H d. subst d. split; [| split].
    + pose proof (insert_into_db_reads_clock w data table_name h) as R.
      now rewrite H in R.
    + intros cur sql params out I.
      destruct (insert_into_db_execute w data table_name h r ev cur sql params
                  out H I) as (_ & a & s & c & _ & _ & _ & ->).
      cbn [nth_error]. now rewrite strftime_short.
    + intros Acc.
      destruct (proj1 (insert_into_db_accepted w data table_name h r ev H) Acc)
        as (a & s & c & _ & _ & _ & R).
      exists a, s, c. now rewrite R, strftime_short.
  - intros w h r ev cur sql params out C H I. split.
    + exact (G w _ h r ev cur sql params out C H I).
    + unfold get_previous_month_range, bind, datetime_today, lift.
      rewrite C. reflexivity.
Qed.

Lemma sample_date_is_run_date_witness :
  let w := scripted all_fine march_15 in
  let params := [PStr "prod"; PStr "N/A"; PFloat 123.45%float; PStr "15/03/24"] in
  (In (EvCall (cur_execute (PObj "cursor" []) (insert_sql "aws_monthly_cost")
                 params) (Ok PNone))
      (snd (main w []))
   /\ nth_error params 3 = Some (PStr "15/03/24"))
  /\ (exists a s c,
         rows_written []
           (snd (insert_into_db over_midnight
                   (aws_data (PStr "prod") (PFloat 123.45%float))
                   "aws_monthly_cost" [EvToday (mkdate 2024 3 31)]))
         = [(insert_sql "aws_monthly_cost", [a; s; c; PStr "01/04/24"])])
  /\ fst (get_previous_month_range over_midnight [])
     = Ret (("2024-02-01", "2024-02-29"),
            ("2024-02-01T00:00:00Z", "2024-02-29T23:59:59Z"))
  /\ dated_by_clock None (snd (main over_midnight [])).
Proof.
  intros w params.
  assert (I : In (EvCall (cur_execute (PObj "cursor" [])
                            (insert_sql "aws_monthly_cost") params) (Ok PNone))
                 (snd (main w [])))
    by find_event.
  split; [split; [exact I |] | split; [| split]].
  - exact (proj1 (proj2 (proj2 sample_date_is_run_date)) w march_15 [] _ _ _ _ _ _
             (fun _ => eq_refl) (surjective_pairing _) I).
  - refine (proj2 (proj2 (proj1 (proj2 sample_date_is_run_date) over_midnight
              (aws_data (PStr "prod") (PFloat 123.45%float)) "aws_monthly_cost"
              [EvToday (mkdate 2024 3 31)] _ _ (surjective_pairing _))) _).
    exists (PStr "prod"), (PStr "N/A"), (PFloat 123.45%float),
      (PObj "connection" []), (PObj "cursor" []), PNone, PNone.
    repeat split.
  - reflexivity.
  - exact (proj1 sample_date_is_run_date over_midnight [] _ _
             (surjective_pairing _)).
Defined.

(** A run over midnight: the period is February, read from the clock on
    the 31st of March, and the three rows carry the 1st of April. *)
Example over_midnight_rows :
  map (fun r => nth_error (snd r) 3) (rows_written [] (snd (main over_midnight [])))
  = [Some (PStr "01/04/24"); Some (PStr "01/04/24"); Some (PStr "01/04/24")]
  /\ fst (get_previous_month_range over_midnight [])
     = Ret (("2024-02-01", "2024-02-29"),
            ("2024-02-01T00:00:00Z", "2024-02-29T23:59:59Z")).
Proof. vm_compute. split; reflexivity. Qed.

(* ===================================================================== *)
(** * Further properties of the code *)

(** ** Pure operations never exit *)

Lemma getattr_no_exit (v : pyval) (k : string) (c : Z) :
  getattr v k <> SysExit c.
Proof.
  destruct v; cbn; try discriminate. destruct (lookup k attrs); discriminate.
Qed.

Lemma getitem0_no_exit (v : pyval) (c : Z) : getitem0 v <> SysExit c.
Proof.
  destruct v as [| | | | s | l | |]; cbn; try discriminate.
  - destruct s; discriminate.
  - destruct l; discriminate.
Qed.

Lemma py_len_no_exit (v : pyval) (c : Z) : py_len v <> SysExit c.
Proof. destruct v; cbn; discriminate. Qed.

Lemma py_iter_no_exit (v : pyval) (c : Z) : py_iter v <> SysExit c.
Proof. destruct v; cbn; discriminate. Qed.

Lemma py_upper_no_exit (v : pyval) (c : Z) : py_upper v <> SysExit c.
Proof. destruct v; cbn; discriminate. Qed.

Lemma py_replace_no_exit (v : pyval) (a b : ascii) (c : Z) :
  py_replace v a b <> SysExit c.
Proof. destruct v; cbn; discriminate. Qed.

Lemma py_float_cases (w : World) (v : pyval) :
  (exists f, py_float w v = Ret (PFloat f)) \/ (exists x, py_float w v = Raise x).
Proof.
  destruct v; cbn; eauto;
    repeat match goal with
      | |- context [match ?o with Some _ => _ | None => _ end] => destruct o
      end; eauto.
Qed.

Lemma unblended_amount_cases (w : World) (response : pyval) :
  (exists f, unblended_amount w response = Ret (PFloat f))
  \/ (exists x, unblended_amount w response = Raise x).
Proof.
  unfold unblended_amount.
  repeat match goal with
    | |- context [match getitem ?v ?k with _ => _ end] =>
        let E := fresh "E" in
        destruct (getitem v k) eqn:E;
        [| eauto | exfalso; eapply getitem_no_exit; eassumption]
    | |- context [match getitem0 ?v with _ => _ end] =>
        let E := fresh "E" in
        destruct (getitem0 v) eqn:E;
        [| eauto | exfalso; eapply getitem0_no_exit; eassumption]
    end.
  apply py_float_cases.
Qed.

Lemma previous_month_range_no_exit (d : date) (c : Z) :
  previous_month_range d <> SysExit c.
Proof.
  unfold previous_month_range. destruct (sub_days _ _); discriminate.
Qed.

(** Closes the cases in which a pure operation would have exited. *)
Ltac no_exit :=
  exfalso;
  first
    [ eapply getitem_no_exit; eassumption
    | eapply getattr_no_exit; eassumption
    | eapply getitem0_no_exit; eassumption
    | eapply py_len_no_exit; eassumption
    | eapply py_iter_no_exit; eassumption
    | eapply py_upper_no_exit; eassumption
    | eapply py_replace_no_exit; eassumption
    | eapply previous_month_range_no_exit; eassumption ].

(** ** Loading the configuration *)

(** X1: [load_config] never raises.  It returns the parsed document after
    exactly two calls, or it prints one line on the standard output (not
    on the error stream), chosen by the class of the exception, and exits
    with status 1 right after the call that failed. *)
Theorem load_config_outcome (w : World) (h : list event) (r : result pyval)
  (ev : list event) :
  load_config w h = (r, ev) ->
  (exists file cfg,
      r = Ret cfg /\
      ev = [EvCall (open_ config_path "r") (Ok file);
            EvCall (yaml_safe_load file) (Ok cfg)])
  \/ (exists c x ev0,
         r = SysExit 1 /\
         ev = ev0 ++ [EvCall c (Fail x); EvPrint stdout (config_error_message x)] /\
         filter is_stderr ev = []).
Proof.
  unfold load_config. intros H.
  minv; cbn [app]; try (left; eauto; fail); right;
    match goal with
    | R : respond _ _ ?c = Fail ?x, E : exn_cls ?x = _ |- _ =>
        exists c, x; unfold config_error_message; rewrite E
    end;
    first [ exists []; cbn [app]; repeat split; reflexivity
          | eexists [_]; cbn [app]; repeat split; reflexivity ].
Qed.

Lemma load_config_outcome_witness :
  let w := scripted config_missing march_15 in
  exists c x ev0,
    fst (load_config w []) = SysExit 1 /\
    snd (load_config w [])
    = ev0 ++ [EvCall c (Fail x); EvPrint stdout (config_error_message x)] /\
    filter is_stderr (snd (load_config w [])) = [].
Proof.
  intros w.
  destruct (load_config_outcome w [] _ _ (surjective_pairing _))
    as [(file & cfg & E & _) | H].
  - vm_compute in E. discriminate E.
  - exact H.
Defined.

(** ** Assuming the role *)

(** X5: every role assumption asks for the role
    [arn:aws:iam::<account>:role/<role>] under the session name
    [AssumeRoleSession]; the session is built from the three credentials
    of the answer to that very request, and the session returned is the
    one that was built. *)
Theorem assume_role_calls (w : World) (account_id role_name : pyval)
  (h : list event) (r : result pyval) (ev : list event) :
  assume_role w account_id role_name h = (r, ev) ->
  (forall c arn name out,
      In (EvCall (sts_assume_role c arn name) out) ev ->
      arn = ("arn:aws:iam::" ++ py_str w account_id ++ ":role/"
             ++ py_str w role_name)%string
      /\ name = "AssumeRoleSession")
  /\ (forall k s t out,
         In (EvCall (boto3_Session k s t) out) ev ->
         exists c arn name resp creds,
           In (EvCall (sts_assume_role c arn name) (Ok resp)) ev /\
           getitem resp "Credentials" = Ret creds /\
           getitem creds "AccessKeyId" = Ret k /\
           getitem creds "SecretAccessKey" = Ret s /\
           getitem creds "SessionToken" = Ret t)
  /\ (forall session,
         r = Ret session ->
         exists k s t, In (EvCall (boto3_Session k s t) (Ok session)) ev).
Proof.
  unfold assume_role. intros H.
  split; [| split].
  - intros c arn name out I. minv; in_events I; auto.
  - intros k s t out I. minv; in_events I;
      do 5 eexists;
      (split; [cbn [app In]; repeat (first [left; reflexivity | right])
              | eauto]).
  - intros session E. minv; try discriminate E.
    injection E as <-. do 3 eexists. find_event.
Qed.

Lemma assume_role_calls_witness :
  let w := scripted all_fine march_15 in
  exists k s t,
    In (EvCall (boto3_Session k s t) (Ok (PObj "Session" [])))
       (snd (assume_role w (PStr "111111111111") (PStr "CostReader") [])).
Proof.
  intros w.
  apply (proj2 (proj2
    (assume_role_calls w (PStr "111111111111") (PStr "CostReader") [] _ _
       (surjective_pairing _)))).
  reflexivity.
Defined.

(** X6: [assume_role] handles nothing: a call that fails is the last
    thing it does, and its exception is the result. *)
Theorem assume_role_propagates (w : World) (account_id role_name : pyval)
  (h : list event) (r : result pyval) (ev : list event) (c : call) (x : exn) :
  assume_role w account_id role_name h = (r, ev) ->
  In (EvCall c (Fail x)) ev ->
  r = Raise x /\ exists ev0, ev = ev0 ++ [EvCall c (Fail x)].
Proof.
  unfold assume_role. intros H I.
  minv; in_events I; (split; [reflexivity |]); cbn [app];
    first [ exists []; reflexivity
          | eexists [_]; reflexivity
          | eexists [_; _]; reflexivity ].
Qed.

Lemma assume_role_propagates_witness :
  let w := scripted role_denied march_15 in
  fst (assume_role w (PStr "111111111111") (PStr "CostReader") [])
  = Raise access_denied.
Proof.
  intros w.
  refine (proj1 (assume_role_propagates w (PStr "111111111111")
                   (PStr "CostReader") [] _ _
                   (sts_assume_role (PObj "STS" [])
                      "arn:aws:iam::111111111111:role/CostReader"
                      "AssumeRoleSession")
                   access_denied (surjective_pairing _) _)).
  find_event.
Defined.

(** ** More on the AWS fetcher *)

(** X7: [fetch_aws_costs] returns a null exactly when the cost query
    itself failed; any other value it returns is a float; it never exits. *)
Theorem fetch_aws_costs_result (w : World) (a : pyval) (s e : string)
  (h : list event) (r : result pyval) (ev : list event) :
  fetch_aws_costs w a s e h = (r, ev) ->
  (r = Ret PNone <->
   exists client kw x, In (EvCall (get_cost_and_usage client kw) (Fail x)) ev)
  /\ (forall v, r = Ret v -> v = PNone \/ exists f, v = PFloat f)
  /\ (forall c, r <> SysExit c).
Proof.
  unfold fetch_aws_costs, assume_role. intros H.
  minv; try no_exit;
    try match goal with
      | U : unblended_amount ?w ?resp = ?r |- _ =>
          destruct (unblended_amount_cases w resp) as [[f F] | [y F]];
          rewrite F in U; subst r
      end;
    (split; [split; [intros Hnull; try discriminate Hnull
                    | intros (qclient & qkw & qx & Hq);
                      try (in_events Hq; fail)]
            | split; [intros val Hval; try discriminate Hval
                     | intros code; discriminate]]);
    try reflexivity;
    try (do 3 eexists; cbn [app In];
         repeat (first [left; reflexivity | right]); fail);
    try (injection Hval as <-; eauto; fail).
Qed.

Lemma fetch_aws_costs_result_witness :
  let w := scripted cost_query_fails march_15 in
  fst (fetch_aws_costs w aws_prod "2024-02-01" "2024-02-29" []) = Ret PNone.
Proof.
  intros w.
  apply (proj1 (fetch_aws_costs_result w aws_prod "2024-02-01" "2024-02-29" []
                  _ _ (surjective_pairing _))).
  exists (PObj "CostExplorer" []), (cost_kwargs "2024-02-01" "2024-02-29"),
    throttled.
  find_event.
Defined.

(** X8: one fetch makes at most one cost query, never a second attempt,
    and a query is made only after one role assumption of its own that
    succeeded. *)
Theorem fetch_aws_costs_one_query (w : World) (a : pyval) (s e : string)
  (h : list event) (r : result pyval) (ev : list event) :
  fetch_aws_costs w a s e h = (r, ev) ->
  (List.length (filter is_cost_query ev) <= 1)%nat
  /\ (filter is_cost_query ev <> [] ->
      exists c arn name resp,
        filter is_assume_role ev = [EvCall (sts_assume_role c arn name) (Ok resp)]).
Proof.
  unfold fetch_aws_costs, assume_role. intros H.
  minv; cbn [app filter is_cost_query is_assume_role List.length];
    (split; [lia | intros Hsome; try (now contradiction Hsome); eauto 10]).
Qed.

Lemma fetch_aws_costs_one_query_witness :
  let w := scripted all_fine march_15 in
  exists c arn name resp,
    filter is_assume_role
      (snd (fetch_aws_costs w aws_prod "2024-02-01" "2024-02-29" []))
    = [EvCall (sts_assume_role c arn name) (Ok resp)].
Proof.
  intros w.
  apply (proj2 (fetch_aws_costs_one_query w aws_prod "2024-02-01" "2024-02-29"
                  [] _ _ (surjective_pairing _))).
  vm_compute. discriminate.
Defined.

(** X9: a descriptor without a [tags] field, or one that asks for the
    filter without giving the tag key or the tag value, never reaches the
    cost query: the fetch raises. *)
Theorem fetch_aws_costs_missing_field (w : World) (a : pyval) (s e : string)
  (h : list event) (r : result pyval) (ev : list event) (x : exn) :
  fetch_aws_costs w a s e h = (r, ev) ->
  getitem a "tags" = Raise x
  \/ (tag_filter_flag a = true /\
      (getitem a "tagKey" = Raise x \/ getitem a "tagValue" = Raise x)) ->
  filter is_cost_query ev = [] /\ exists y, r = Raise y.
Proof.
  unfold fetch_aws_costs, assume_role, tag_filter_flag. intros H Hmiss.
  minv; try no_exit; cbn [app filter is_cost_query];
    try (split; [reflexivity | eauto]; fail);
    exfalso;
    repeat match goal with
      | G : getitem a ?k = _ |- _ => rewrite G in Hmiss; clear G
      end;
    repeat match goal with
      | G : eq_str _ _ = _ |- _ => rewrite G in Hmiss; clear G
      end;
    intuition discriminate.
Qed.

Lemma fetch_aws_costs_missing_field_witness :
  let w := scripted all_fine march_15 in
  filter is_cost_query
    (snd (fetch_aws_costs w aws_untagged "2024-02-01" "2024-02-29" [])) = []
  /\ exists y,
      fst (fetch_aws_costs w aws_untagged "2024-02-01" "2024-02-29" [])
      = Raise y.
Proof.
  intros w.
  apply (fetch_aws_costs_missing_field w aws_untagged "2024-02-01" "2024-02-29"
           [] _ _ (mkexn KeyError "'tags'") (surjective_pairing _)).
  left. reflexivity.
Defined.

(** ** More on the Azure fetcher *)

(** X12: once the usage query has been sent, [fetch_azure_costs] returns
    normally, whatever the answer: it can raise only before the query. *)
Theorem fetch_azure_costs_returns_after_query (w : World) (a : pyval)
  (s e : string) (h : list event) (r : result pyval) (ev : list event)
  (client : pyval) (scope : string) (q : pyval) (out : answer) :
  fetch_azure_costs w a s e h = (r, ev) ->
  In (EvCall (query_usage client scope q) out) ev ->
  exists v, r = Ret v.
Proof.
  unfold fetch_azure_costs. intros H I.
  minv; try no_exit; in_events I; eauto.
Qed.

Lemma fetch_azure_costs_returns_after_query_witness :
  let w := scripted usage_query_fails march_15 in
  let s := "2024-02-01T00:00:00Z" in
  let e := "2024-02-29T23:59:59Z" in
  exists v, fst (fetch_azure_costs w azure_main s e []) = Ret v.
Proof.
  intros w s e.
  refine (fetch_azure_costs_returns_after_query w azure_main s e [] _ _
            (PObj "CostManagementClient" []) "/subscriptions/sub-main"
            (query_definition s e) (Fail unauthorized)
            (surjective_pairing _) _).
  find_event.
Defined.

(** X13: a first row without a column is caught like a failure of the
    query: the fetch logs the [IndexError] on the error stream and
    returns a null, where the AWS fetcher raises on an empty list. *)
Theorem fetch_azure_costs_empty_row (w : World) (a : pyval) (s e : string)
  (h : list event) (r : result pyval) (ev : list event)
  (client : pyval) (scope : string) (q result : pyval) (rows : list pyval) :
  fetch_azure_costs w a s e h = (r, ev) ->
  In (EvCall (query_usage client scope q) (Ok result)) ev ->
  getattr result "rows" = Ret (PList (PList [] :: rows)) ->
  r = Ret PNone
  /\ In (EvPrint stderr "Error fetching Azure costs: list index out of range") ev.
Proof.
  unfold fetch_azure_costs. intros H I G.
  minv; in_events I;
    repeat match goal with
      | R : getattr result "rows" = _ |- _ =>
          rewrite G in R; first [discriminate R | injection R as <-]
      end;
    try discriminate;
    repeat match goal with
      | R : getitem0 _ = _ |- _ => cbn in R; first [discriminate R | injection R as <-]
      | R : py_len _ = _ |- _ => cbn in R; first [discriminate R | injection R as <-]
      end;
    try discriminate;
    (split; [reflexivity |]); cbn [app In exn_msg];
    repeat (first [left; reflexivity | right]).
Qed.

Lemma fetch_azure_costs_empty_row_witness :
  let w := scripted azure_empty_row march_15 in
  let s := "2024-02-01T00:00:00Z" in
  let e := "2024-02-29T23:59:59Z" in
  fst (fetch_azure_costs w azure_main s e []) = Ret PNone.
Proof.
  intros w s e.
  refine (proj1 (fetch_azure_costs_empty_row w azure_main s e [] _ _
            (PObj "CostManagementClient" []) "/subscriptions/sub-main"
            (query_definition s e) (query_result (PList [PList []])) []
            (surjective_pairing _) _ eq_refl)).
  find_event.
Defined.

(** X14: when the answer has rows, the fetch returns the first column of
    the first row, whatever the other columns and rows are, and prints
    nothing. *)
Theorem fetch_azure_costs_first_cell (w : World) (a : pyval) (s e : string)
  (h : list event) (r : result pyval) (ev : list event)
  (client : pyval) (scope : string) (q result cost : pyval)
  (columns rows : list pyval) :
  fetch_azure_costs w a s e h = (r, ev) ->
  In (EvCall (query_usage client scope q) (Ok result)) ev ->
  getattr result "rows" = Ret (PList (PList (cost :: columns) :: rows)) ->
  r = Ret cost
  /\ forall f line, ~ In (EvPrint f line) ev.
Proof.
  unfold fetch_azure_costs. intros H I G.
  minv; in_events I;
    repeat match goal with
      | R : getattr result "rows" = _ |- _ =>
          rewrite G in R; first [discriminate R | injection R as <-]
      end;
    try discriminate;
    repeat match goal with
      | R : getitem0 _ = _ |- _ => cbn in R; first [discriminate R | injection R as <-]
      | R : py_len _ = Ret _ |- _ => cbn in R; injection R as <-
      | R : py_len _ = _ |- _ => cbn in R; discriminate R
      end;
    try discriminate;
    (split; [reflexivity | intros f line Hp; in_events Hp]).
Qed.

Lemma fetch_azure_costs_first_cell_witness :
  let w := scripted all_fine march_15 in
  let s := "2024-02-01T00:00:00Z" in
  let e := "2024-02-29T23:59:59Z" in
  fst (fetch_azure_costs w azure_main s e []) = Ret (PFloat 67.89%float).
Proof.
  intros w s e.
  refine (proj1 (fetch_azure_costs_first_cell w azure_main s e [] _ _
            (PObj "CostManagementClient" []) "/subscriptions/sub-main"
            (query_definition s e)
            (query_result (PList [PList [PFloat 67.89%float; PStr "USD"]]))
            (PFloat 67.89%float) [PStr "USD"] []
            (surjective_pairing _) _ eq_refl)).
  find_event.
Defined.

(** X15: for a subscription named [sub], a string of ASCII characters,
    the credential is built from the variables [AZURE_<SUB>_TENANT],
    [AZURE_<SUB>_CLIENT] and [AZURE_<SUB>_SECRET] of the environment, with
    [sub] in upper case; the client is given [sub] as it is; the query is
    the month's [QueryDefinition], sent to the scope [/subscriptions/<sub>]
    with the underscores of [sub] turned into hyphens. *)
Theorem fetch_azure_costs_names (w : World) (a : pyval) (s e : string)
  (h : list event) (r : result pyval) (ev : list event) (sub : string) :
  fetch_azure_costs w a s e h = (r, ev) ->
  getitem a "Subscription" = Ret (PStr sub) ->
  ascii_only sub = true ->
  (forall t c k out,
      In (EvCall (ClientSecretCredential t c k) out) ev ->
      t = getenv w ("AZURE_" ++ upper sub ++ "_TENANT")%string /\
      c = getenv w ("AZURE_" ++ upper sub ++ "_CLIENT")%string /\
      k = getenv w ("AZURE_" ++ upper sub ++ "_SECRET")%string)
  /\ (forall cred id out,
         In (EvCall (CostManagementClient cred id) out) ev -> id = PStr sub)
  /\ (forall client scope q out,
         In (EvCall (query_usage client scope q) out) ev ->
         scope = ("/subscriptions/" ++ str_replace "_" "-" sub)%string
         /\ q = query_definition s e).
Proof.
  unfold fetch_azure_costs. intros H G _.
  split; [| split].
  - intros t c k out I.
    minv; in_events I;
      repeat match goal with
        | R : getitem a "Subscription" = _ |- _ =>
            rewrite G in R; injection R as <-
        end;
      repeat match goal with
        | R : py_upper _ = Ret _ |- _ => cbn in R; injection R as <-
        end; auto.
  - intros cred id out I.
    minv; in_events I;
      repeat match goal with
        | R : getitem a "Subscription" = _ |- _ =>
            rewrite G in R; injection R as <-
        end; reflexivity.
  - intros client scope q out I.
    minv; in_events I;
      repeat match goal with
        | R : getitem a "Subscription" = _ |- _ =>
            rewrite G in R; injection R as <-
        end;
      repeat match goal with
        | R : py_replace _ _ _ = Ret _ |- _ => cbn in R; injection R as <-
        end; auto.
Qed.

Lemma fetch_azure_costs_names_witness :
  let w := scripted all_fine march_15 in
  let s := "2024-02-01T00:00:00Z" in
  let e := "2024-02-29T23:59:59Z" in
  In (EvCall (query_usage (PObj "CostManagementClient" [])
                "/subscriptions/sub-main" (query_definition s e))
        (Ok (query_result (PList [PList [PFloat 67.89%float; PStr "USD"]]))))
     (snd (fetch_azure_costs w azure_main s e []))
  /\ "/subscriptions/sub-main"
     = ("/subscriptions/" ++ str_replace "_" "-" "sub_main")%string.
Proof.
  intros w s e.
  assert (I : In (EvCall (query_usage (PObj "CostManagementClient" [])
                            "/subscriptions/sub-main" (query_definition s e))
                    (Ok (query_result
                           (PList [PList [PFloat 67.89%float; PStr "USD"]]))))
                 (snd (fetch_azure_costs w azure_main s e [])))
    by find_event.
  split; [exact I |].
  exact (proj1 (proj2 (proj2
    (fetch_azure_costs_names w azure_main s e [] _ _ "sub_main"
       (surjective_pairing _) eq_refl eq_refl)) _ _ _ _ I)).
Defined.

(** X16: a descriptor whose [Subscription] is missing or is not a string
    (an identifier that YAML read as a number, say) makes the fetch raise
    before any call is made. *)
Theorem fetch_azure_costs_not_a_string (w : World) (a : pyval) (s e : string)
  (h : list event) (r : result pyval) (ev : list event) :
  fetch_azure_costs w a s e h = (r, ev) ->
  (forall sub, getitem a "Subscription" <> Ret (PStr sub)) ->
  ev = [] /\ exists x, r = Raise x.
Proof.
  unfold fetch_azure_costs. intros H G.
  apply bind_inv in H.
  destruct H as [(v & ev1 & ev2 & R & K & ->) | [(x & R & ->) | (c & R & ->)]];
    apply lift_inv in R; destruct R as [R ->].
  - apply bind_inv in K.
    destruct K as [(u & ev3 & ev4 & R' & K & ->) | [(x & R' & ->) | (c & R' & ->)]];
      apply lift_inv in R'; destruct R' as [R' ->].
    + destruct v; cbn in R'; try discriminate R'.
      now contradiction (G s0).
    + split; [reflexivity | eauto].
    + exfalso. eapply py_upper_no_exit; eassumption.
  - split; [reflexivity | eauto].
  - exfalso. eapply getitem_no_exit; eassumption.
Qed.

Lemma fetch_azure_costs_not_a_string_witness :
  let w := scripted all_fine march_15 in
  snd (fetch_azure_costs w azure_numeric
         "2024-02-01T00:00:00Z" "2024-02-29T23:59:59Z" []) = [].
Proof.
  intros w.
  apply (proj1 (fetch_azure_costs_not_a_string w azure_numeric
                  "2024-02-01T00:00:00Z" "2024-02-29T23:59:59Z" [] _ _
                  (surjective_pairing _)
                  (fun sub E => ltac:(discriminate E)))).
Defined.

(** ** More on the writer *)

(** X18: the first database call that fails is the last call the writer
    makes: the exception is logged on the error stream and nothing is
    attempted after it, no rollback and no close, so the cursor and the
    connection opened before the failure are left open. *)
Theorem insert_into_db_stops_at_failure (w : World) (data : pyval)
  (table_name : string) (h : list event) (r : result unit) (ev : list event)
  (c : call) (x : exn) :
  insert_into_db w data table_name h = (r, ev) ->
  In (EvCall c (Fail x)) ev ->
  (exists ev0,
      ev = ev0 ++ [EvCall c (Fail x);
                   EvPrint stderr
                     ("Error inserting data into database: " ++ exn_msg x)])
  /\ ((forall conn, c <> conn_close conn) ->
      forall conn out, ~ In (EvCall (conn_close conn) out) ev).
Proof.
  unfold insert_into_db. intros H I.
  minv; in_events I; cbn [app];
    (split;
     [ first [ eexists [_]; reflexivity
             | eexists [_; _]; reflexivity
             | eexists [_; _; _]; reflexivity
             | eexists [_; _; _; _]; reflexivity
             | eexists [_; _; _; _; _]; reflexivity
             | eexists [_; _; _; _; _; _]; reflexivity ]
     | intros Hc conn out Hclose; in_events Hclose;
       now contradiction (Hc conn) ]).
Qed.

Lemma insert_into_db_stops_at_failure_witness :
  let w := scripted execute_fails march_15 in
  let c := cur_execute (PObj "cursor" []) (insert_sql "aws_monthly_cost")
             [PStr "prod"; PStr "N/A"; PFloat 123.45%float; PStr "15/03/24"] in
  let x := mkexn (OtherError "UndefinedTable") "relation does not exist" in
  In (EvCall c (Fail x))
     (snd (insert_into_db w example_data "aws_monthly_cost" []))
  /\ exists ev0,
      snd (insert_into_db w example_data "aws_monthly_cost" [])
      = ev0 ++ [EvCall c (Fail x);
                EvPrint stderr
                  ("Error inserting data into database: " ++ exn_msg x)].
Proof.
  intros w c x.
  assert (I : In (EvCall c (Fail x))
                 (snd (insert_into_db w example_data "aws_monthly_cost" [])))
    by find_event.
  split; [exact I |].
  exact (proj1 (insert_into_db_stops_at_failure w example_data
                  "aws_monthly_cost" [] _ _ c x (surjective_pairing _) I)).
Defined.

(** X19: when the insert and the commit go through, the writer leaves
    exactly one row: the statement for its table with the account name,
    the subscription and the cost of [data], in this order, and the date
    read on entry. *)
Theorem insert_into_db_row (w : World) (data : pyval) (table_name : string)
  (h : list event) (r : result unit) (ev : list event) :
  insert_into_db w data table_name h = (r, ev) ->
  insert_succeeded ev ->
  exists a s c,
    getitem data "accountName" = Ret a /\
    getitem data "Subscription" = Ret s /\
    getitem data "monthlyCost" = Ret c /\
    rows_written [] ev
    = [(insert_sql table_name,
        [a; s; c; PStr (strftime (today w h) "%d/%m/%y")])].
Proof.
  unfold insert_into_db. intros H S.
  apply insert_succeeded_bool in S.
  minv;
    cbn [app existsb is_ok_execute is_ok_commit andb orb] in S;
    try discriminate S;
    do 3 eexists; repeat (split; [eassumption |]); reflexivity.
Qed.

Lemma insert_into_db_row_witness :
  let w := scripted all_fine march_15 in
  exists a s c,
    getitem example_data "accountName" = Ret a /\
    getitem example_data "Subscription" = Ret s /\
    getitem example_data "monthlyCost" = Ret c /\
    rows_written [] (snd (insert_into_db w example_data "aws_monthly_cost" []))
    = [(insert_sql "aws_monthly_cost",
        [a; s; c; PStr (strftime (today w []) "%d/%m/%y")])].
Proof.
  intros w.
  apply (insert_into_db_row w example_data "aws_monthly_cost" [] _ _
           (surjective_pairing _)).
  split; [do 4 eexists | do 2 eexists]; find_event.
Defined.

(** X20: a result that lacks one of its three fields is never sent to the
    database: the connection is opened first, the [KeyError] is then
    caught like a database error, and no statement is executed. *)
Theorem insert_into_db_missing_field (w : World) (data : pyval)
  (table_name : string) (h : list event) (r : result unit) (ev : list event)
  (k : string) (x : exn) :
  insert_into_db w data table_name h = (r, ev) ->
  In k ["accountName"; "Subscription"; "monthlyCost"] ->
  getitem data k = Raise x ->
  r = Ret tt
  /\ filter is_execute ev = []
  /\ exists line, In (EvPrint stderr line) ev.
Proof.
  unfold insert_into_db. intros H Hk G.
  minv; try no_exit; cbn [app filter is_execute];
    try (repeat split; try reflexivity; eexists; cbn [In];
         repeat (first [left; reflexivity | right]); fail);
    exfalso; cbn [In] in Hk;
    repeat (destruct Hk as [<- | Hk]); try contradiction; congruence.
Qed.

Lemma insert_into_db_missing_field_witness :
  let w := scripted all_fine march_15 in
  fst (insert_into_db w data_without_cost "aws_monthly_cost" []) = Ret tt
  /\ filter is_execute
       (snd (insert_into_db w data_without_cost "aws_monthly_cost" [])) = []
  /\ exists line,
      In (EvPrint stderr line)
         (snd (insert_into_db w data_without_cost "aws_monthly_cost" [])).
Proof.
  intros w.
  apply (insert_into_db_missing_field w data_without_cost "aws_monthly_cost"
           [] _ _ "monthlyCost" (mkexn KeyError "'monthlyCost'")
           (surjective_pairing _)).
  - right. right. left. reflexivity.
  - reflexivity.
Defined.

(** ** More on the loop bodies *)

Lemma insert_into_db_result (w : World) (data : pyval) (table_name : string)
  (h : list event) (r : result unit) (ev : list event) :
  insert_into_db w data table_name h = (r, ev) -> r = Ret tt.
Proof.
  unfold insert_into_db. intros H. minv; try reflexivity; no_exit.
Qed.

(** X21: the body of the AWS loop ends normally exactly when the fetch
    returned, and returned either a null or a cost for an account that
    has its [accountName]; an exception of the fetch is the result of the
    body; no failure of the database makes the body fail. *)
Theorem aws_body_result (w : World) (s e : string) (a : pyval)
  (h : list event) (r : result pyval) (ev : list event)
  (rb : result unit) (evb : list event) :
  fetch_aws_costs w a s e h = (r, ev) ->
  aws_body w s e a h = (rb, evb) ->
  (rb = Ret tt <->
   exists v, r = Ret v /\
             (v = PNone \/ exists name, getitem a "accountName" = Ret name))
  /\ (forall x, r = Raise x -> rb = Raise x /\ evb = ev).
Proof.
  intros F B. unfold aws_body in B. apply bind_inv in B.
  destruct B as [(c & ev1 & ev2 & R & K & ->) | [(x & R & ->) | (x & R & ->)]];
    rewrite F in R; injection R as -> <-.
  - split; [| intros x E; discriminate E].
    destruct (is_not_None c) eqn:N.
    + minv; try no_exit.
      * apply insert_into_db_result in K. subst rb.
        split; [intros _ | reflexivity]. eauto 10.
      * split; [intros E; discriminate E |].
        intros (v & [= <-] & [-> | (name & G)]); [discriminate N | congruence].
    + apply ret_inv in K. destruct K as [-> ->].
      destruct c; try discriminate N.
      split; [intros _ | reflexivity]. eauto.
  - split.
    + split; [intros E; discriminate E | intros (v & E & _); discriminate E].
    + intros y [= <-]. auto.
  - split.
    + split; [intros E; discriminate E | intros (v & E & _); discriminate E].
    + intros y E. discriminate E.
Qed.

Lemma aws_body_result_witness :
  let w := scripted db_down march_15 in
  fst (aws_body w "2024-02-01" "2024-02-29" aws_prod []) = Ret tt.
Proof.
  intros w.
  apply (proj1 (aws_body_result w "2024-02-01" "2024-02-29" aws_prod [] _ _ _ _
                  (surjective_pairing _) (surjective_pairing _))).
  eexists. split; [vm_compute; reflexivity |].
  right. eexists. reflexivity.
Defined.

(** ** More on the period *)

Lemma previous_month_range_dates (today : date) :
  previous_month_range today
  = match previous_month_dates today with
    | None => Raise (mkexn OverflowError "date value out of range")
    | Some (first, last) =>
        Ret ((strftime first "%Y-%m-%d", strftime last "%Y-%m-%d"),
             (strftime first "%Y-%m-%dT00:00:00Z",
              strftime last "%Y-%m-%dT23:59:59Z"))
    end.
Proof.
  unfold previous_month_range, previous_month_dates.
  destruct (sub_days (replace_day today 1) 1); reflexivity.
Qed.

(** X3: the period does not depend on the day of the month on which
    the job runs, and its Azure bounds are its AWS bounds followed by
    [T00:00:00Z] and [T23:59:59Z]. *)
Theorem previous_month_range_by_month (d1 d2 : date)
  (a b c d : string) :
  year d1 = year d2 -> month d1 = month d2 ->
  previous_month_range d1 = Ret ((a, b), (c, d)) ->
  previous_month_range d2 = Ret ((a, b), (c, d))
  /\ c = (a ++ "T00:00:00Z")%string
  /\ d = (b ++ "T23:59:59Z")%string.
Proof.
  intros Hy Hm H.
  assert (E : replace_day d1 1 = replace_day d2 1)
    by (unfold replace_day; now rewrite Hy, Hm).
  split.
  - unfold previous_month_range in *. rewrite <- E. exact H.
  - unfold previous_month_range in H.
    destruct (sub_days (replace_day d1 1) 1) as [l |]; [| discriminate H].
    rewrite strftime_azure_start, strftime_azure_end in H.
    injection H as <- <- <- <-. split; reflexivity.
Qed.

Lemma previous_month_range_by_month_witness :
  previous_month_range (mkdate 2024 3 31)
  = Ret (("2024-02-01", "2024-02-29"),
         ("2024-02-01T00:00:00Z", "2024-02-29T23:59:59Z")).
Proof.
  apply (proj1 (previous_month_range_by_month (mkdate 2024 3 1)
                  (mkdate 2024 3 31) _ _ _ _ eq_refl eq_refl eq_refl)).
Defined.

Lemma check_adjacent_cycle :
  forallb (fun y => forallb (check_adjacent y) months_of_year) years_of_cycle
  = true.
Proof. vm_compute. reflexivity. Qed.

Lemma first_follows_last (y m : Z) :
  1 <= m <= 12 ->
  _ymd2ord y m 1
  = _ymd2ord (fst (spec_preceding_month y m)) (snd (spec_preceding_month y m))
      (spec_month_length (fst (spec_preceding_month y m))
                         (snd (spec_preceding_month y m))) + 1.
Proof.
  intros Hm.
  set (q := (y - 1) / 400). set (y0 := (y - 1) mod 400 + 1).
  assert (Hy : y = y0 + 400 * q).
  { unfold y0, q. pose proof (Z.div_mod (y - 1) 400). lia. }
  assert (Hy0 : 1 <= y0 <= 400).
  { unfold y0. pose proof (Z.mod_pos_bound (y - 1) 400). lia. }
  pose proof (proj1 (forallb_forall _ _) check_adjacent_cycle y0
                (in_years_of_cycle y0 Hy0)) as C.
  pose proof (proj1 (forallb_forall _ _) C m (in_months_of_year m Hm)) as C'.
  unfold check_adjacent in C'. rewrite Hy.
  unfold spec_preceding_month in *.
  destruct (m =? 1); apply Z.eqb_eq in C'; cbn [fst snd].
  - replace (y0 + 400 * q - 1) with (y0 - 1 + 400 * q) by ring.
    rewrite !ymd2ord_periodic, spec_month_length_periodic. lia.
  - rewrite !ymd2ord_periodic, spec_month_length_periodic. lia.
Qed.

Lemma spec_preceding_following (y m : Z) :
  1 <= m <= 12 ->
  spec_preceding_month (fst (spec_following_month y m))
                       (snd (spec_following_month y m)) = (y, m).
Proof.
  intros Hm. unfold spec_following_month, spec_preceding_month.
  destruct (Z.eqb_spec m 12) as [-> | N]; cbn [fst snd].
  - cbn. f_equal. lia.
  - destruct (Z.eqb_spec (m + 1) 1); [lia |]. f_equal. lia.
Qed.

(** X4: the periods of two runs made in consecutive months are
    adjacent: the period billed by the later run starts on the day after
    the last day of the period billed by the earlier run, so that monthly
    runs bill every day once. *)
Theorem periods_are_adjacent (today next : date) :
  1 <= year today <= 9999 -> 1 <= month today <= 12 ->
  1 < year today \/ 1 < month today ->
  1 <= year next <= 9999 ->
  (year next, month next) = spec_following_month (year today) (month today) ->
  exists first last first' last',
    previous_month_dates today = Some (first, last)
    /\ previous_month_dates next = Some (first', last')
    /\ toordinal first <= toordinal last
    /\ toordinal first' = toordinal last + 1
    /\ first' = replace_day today 1.
Proof.
  intros Hy Hm Hne Hy' Hnext.
  assert (Hm' : 1 <= month next <= 12).
  { unfold spec_following_month in Hnext.
    destruct (month today =? 12) eqn:E; injection Hnext as _ ->; lia. }
  assert (Hne' : 1 < year next \/ 1 < month next).
  { unfold spec_following_month in Hnext.
    destruct (Z.eqb_spec (month today) 12); injection Hnext as -> ->; lia. }
  unfold previous_month_dates.
  rewrite (sub_days_first today Hy Hm Hne).
  rewrite (sub_days_first next Hy' Hm' Hne').
  assert (Ey : year next = fst (spec_following_month (year today) (month today)))
    by now rewrite <- Hnext.
  assert (Em : month next = snd (spec_following_month (year today) (month today)))
    by now rewrite <- Hnext.
  rewrite Ey, Em.
  rewrite (spec_preceding_following (year today) (month today) Hm).
  cbn [fst snd]. do 4 eexists.
  split; [reflexivity | split; [reflexivity |]].
  unfold toordinal, replace_day. cbn [year month day].
  split; [| split; [| reflexivity]].
  - unfold _ymd2ord, spec_month_length.
    repeat match goal with
      | |- context [if ?b then _ else _] => destruct b
      end; lia.
  - apply first_follows_last. exact Hm.
Qed.

Lemma periods_are_adjacent_witness :
  exists first last first' last',
    previous_month_dates (mkdate 2024 12 15) = Some (first, last)
    /\ previous_month_dates (mkdate 2025 1 20) = Some (first', last')
    /\ toordinal first <= toordinal last
    /\ toordinal first' = toordinal last + 1
    /\ first' = replace_day (mkdate 2024 12 15) 1.
Proof.
  apply (periods_are_adjacent (mkdate 2024 12 15) (mkdate 2025 1 20));
    cbn; try lia; reflexivity.
Defined.

(** ** More on the loops *)

Lemma for_each_app {A} (body : A -> M unit) (l1 l2 : list A) (h : list event)
  (ev1 : list event) :
  for_each l1 body h = (Ret tt, ev1) ->
  for_each (l1 ++ l2) body h
  = (fst (for_each l2 body (h ++ ev1)), ev1 ++ snd (for_each l2 body (h ++ ev1))).
Proof.
  revert h ev1. induction l1 as [| a l1 IH]; intros h ev1 H.
  - cbn in H. injection H as <-. cbn [app]. rewrite app_nil_r.
    now destruct (for_each l2 body h).
  - cbn [for_each app] in *. apply bind_inv in H.
    destruct H as [(u & e1 & e2 & R & K & ->) | [(x & R & E) | (c & R & E)]];
      try discriminate E.
    destruct u. specialize (IH _ _ K).
    unfold bind at 1. rewrite R. rewrite IH. cbn [fst snd].
    rewrite <- !app_assoc. reflexivity.
Qed.

(** X22: an account whose fetch raises ends the AWS loop: the exception
    is the result of the loop, and the accounts that follow are not
    processed, whatever they are. *)
Theorem aws_loop_stops_at_raise (w : World) (s e : string)
  (before after : list pyval) (a : pyval) (h : list event)
  (ev1 ev2 : list event) (x : exn) :
  for_each before (aws_body w s e) h = (Ret tt, ev1) ->
  fetch_aws_costs w a s e (h ++ ev1) = (Raise x, ev2) ->
  for_each (before ++ a :: after) (aws_body w s e) h = (Raise x, ev1 ++ ev2).
Proof.
  intros B F. rewrite (for_each_app _ _ _ _ _ B).
  rewrite (for_each_raise _ _ _ _ _ _ (aws_body_raise _ _ _ _ _ _ _ F)).
  reflexivity.
Qed.

Lemma aws_loop_stops_at_raise_witness :
  let w := scripted role_denied march_15 in
  for_each [aws_prod; aws_dev] (aws_body w "2024-02-01" "2024-02-29") []
  = (Raise access_denied,
     snd (fetch_aws_costs w aws_prod "2024-02-01" "2024-02-29" [])).
Proof.
  intros w.
  refine (aws_loop_stops_at_raise w "2024-02-01" "2024-02-29" [] [aws_dev]
            aws_prod [] [] _ access_denied eq_refl _).
  vm_compute. reflexivity.
Defined.

Lemma rows_written_app (ev1 ev2 : list event) :
  forall p,
    rows_written p (ev1 ++ ev2)
    = rows_written p ev1 ++ rows_written (pending_after p ev1) ev2.
Proof.
  induction ev1 as [| x ev1 IH]; intros p; [reflexivity |].
  destruct x as [| | c o]; cbn [app rows_written pending_after]; try apply IH.
  destruct c; try apply IH; destruct o; try apply IH.
  rewrite IH. now rewrite app_assoc.
Qed.

Lemma self_contained_app (ev1 ev2 : list event) :
  self_contained ev1 -> self_contained ev2 ->
  self_contained (ev1 ++ ev2)
  /\ rows_written [] (ev1 ++ ev2) = rows_written [] ev1 ++ rows_written [] ev2.
Proof.
  intros S1 S2. split.
  - intros p. rewrite !rows_written_app, (S1 p).
    now rewrite (S2 (pending_after p ev1)), (S2 (pending_after [] ev1)).
  - rewrite rows_written_app. now rewrite (S2 (pending_after [] ev1)).
Qed.

Lemma self_contained_no_db (ev : list event) :
  Forall no_db_call ev -> self_contained ev.
Proof.
  intros F p. rewrite <- (app_nil_r ev). now rewrite !rows_written_no_db.
Qed.

Lemma insert_into_db_self_contained (w : World) (data : pyval)
  (table_name : string) (h : list event) (r : result unit) (ev : list event) :
  insert_into_db w data table_name h = (r, ev) -> self_contained ev.
Proof.
  unfold insert_into_db. intros H p. minv; reflexivity.
Qed.

Lemma aws_body_self_contained (w : World) (s e : string) (a : pyval)
  (h : list event) (r : result unit) (ev : list event) :
  aws_body w s e a h = (r, ev) ->
  self_contained ev /\ (List.length (rows_written [] ev) <= 1)%nat.
Proof.
  intros B. split.
  - unfold aws_body in B.
    minv;
      repeat match goal with
        | R : fetch_aws_costs _ _ _ _ _ = _ |- _ =>
            apply (emits_run _ _ _ _ _ (fetch_aws_costs_no_db _ _ _ _)) in R;
            apply self_contained_no_db in R
        | R : insert_into_db _ _ _ _ = _ |- _ =>
            apply insert_into_db_self_contained in R
        end;
      repeat (apply self_contained_app; try assumption);
      try assumption; try (intros p; reflexivity).
  - destruct (fetch_aws_costs w a s e h) as [r0 ev0] eqn:F.
    exact (proj2 (proj2 (proj2 (aws_body_writes _ _ _ _ _ _ _ _ _ F B)))).
Qed.

Lemma azure_body_self_contained (w : World) (s e : string) (a : pyval)
  (h : list event) (r : result unit) (ev : list event) :
  azure_body w s e a h = (r, ev) ->
  self_contained ev /\ (List.length (rows_written [] ev) <= 1)%nat.
Proof.
  intros B. split.
  - unfold azure_body in B.
    minv;
      repeat match goal with
        | R : fetch_azure_costs _ _ _ _ _ = _ |- _ =>
            apply (emits_run _ _ _ _ _ (fetch_azure_costs_no_db _ _ _ _)) in R;
            apply self_contained_no_db in R
        | R : insert_into_db _ _ _ _ = _ |- _ =>
            apply insert_into_db_self_contained in R
        end;
      repeat (apply self_contained_app; try assumption);
      try assumption; try (intros p; reflexivity).
  - destruct (fetch_azure_costs w a s e h) as [r0 ev0] eqn:F.
    exact (proj2 (proj2 (proj2 (azure_body_writes _ _ _ _ _ _ _ _ _ F B)))).
Qed.

Lemma for_each_rows {A} (body : A -> M unit) :
  (forall a h r ev,
      body a h = (r, ev) ->
      self_contained ev /\ (List.length (rows_written [] ev) <= 1)%nat) ->
  forall l h r ev,
    for_each l body h = (r, ev) ->
    self_contained ev
    /\ (List.length (rows_written [] ev) <= List.length l)%nat.
Proof.
  intros Hb. induction l as [| a l IH]; intros h r ev H; cbn [for_each] in H.
  - apply ret_inv in H. destruct H as [_ ->]. split.
    + intros p. reflexivity.
    + cbn. lia.
  - apply bind_inv in H.
    destruct H as [(u & e1 & e2 & R & K & ->) | [(x & R & _) | (c & R & _)]].
    + destruct (Hb _ _ _ _ R) as [S1 L1]. destruct (IH _ _ _ K) as [S2 L2].
      destruct (self_contained_app e1 e2 S1 S2) as [S E].
      split; [exact S |]. rewrite E, length_app. cbn [List.length]. lia.
    + destruct (Hb _ _ _ _ R) as [S1 L1]. split; [exact S1 |].
      cbn [List.length]. lia.
    + destruct (Hb _ _ _ _ R) as [S1 L1]. split; [exact S1 |].
      cbn [List.length]. lia.
Qed.

(** X23: each loop leaves at most as many rows in the database as it has
    descriptors, whatever the services answer: no descriptor is written
    twice. *)
Theorem loop_rows_bounded :
  (forall (w : World) (s e : string) (accounts : list pyval)
          (h : list event) (r : result unit) (ev : list event),
      for_each accounts (aws_body w s e) h = (r, ev) ->
      (List.length (rows_written [] ev) <= List.length accounts)%nat)
  /\
  (forall (w : World) (s e : string) (subscriptions : list pyval)
          (h : list event) (r : result unit) (ev : list event),
      for_each subscriptions (azure_body w s e) h = (r, ev) ->
      (List.length (rows_written [] ev) <= List.length subscriptions)%nat).
Proof.
  split; intros w s e l h r ev H.
  - exact (proj2 (for_each_rows _ (aws_body_self_contained w s e) _ _ _ _ H)).
  - exact (proj2 (for_each_rows _ (azure_body_self_contained w s e) _ _ _ _ H)).
Qed.

Lemma loop_rows_bounded_witness :
  let w := scripted all_fine march_15 in
  (List.length
     (rows_written []
        (snd (for_each [aws_prod; aws_dev]
                (aws_body w "2024-02-01" "2024-02-29") []))) <= 2)%nat.
Proof.
  intros w.
  exact (proj1 loop_rows_bounded w "2024-02-01" "2024-02-29"
           [aws_prod; aws_dev] [] _ _ (surjective_pairing _)).
Defined.

(** ** More on the run *)

Lemma main_unfold (w : World) :
  main w
  = bind (load_config w) (fun config =>
    bind (get_previous_month_range w) (fun ranges =>
    process_config w config ranges)).
Proof. reflexivity. Qed.

(** The run up to the loops, for a configuration that loads and a clock
    that reads a date with a previous month. *)
Lemma main_after_ranges (w : World) (h : list event) (cfg : pyval)
  (ev0 : list event) (rg : (string * string) * (string * string)) :
  load_config w h = (Ret cfg, ev0) ->
  previous_month_range (today w (h ++ ev0)) = Ret rg ->
  main w h
  = (fst (process_config w cfg rg
            ((h ++ ev0) ++ [EvToday (today w (h ++ ev0))])),
     ev0 ++ [EvToday (today w (h ++ ev0))]
         ++ snd (process_config w cfg rg
                   ((h ++ ev0) ++ [EvToday (today w (h ++ ev0))]))).
Proof.
  intros L P. rewrite main_unfold. unfold bind at 1. rewrite L.
  unfold bind at 1. unfold get_previous_month_range at 1.
  unfold bind at 1. unfold datetime_today, lift. rewrite P.
  cbn [app].
  destruct (process_config w cfg rg _) as [r ev]. reflexivity.
Qed.

Lemma process_config_bad_aws (w : World) (cfg : pyval)
  (rg : (string * string) * (string * string)) (h : list event) (x : exn) :
  config_section cfg "aws" = Raise x ->
  process_config w cfg rg h = (Raise x, []).
Proof.
  intros C. destruct rg as [[s e] [s' e']]. unfold process_config, config_section in *.
  unfold bind, lift.
  destruct (getitem cfg "aws") as [v | y | c]; try discriminate C.
  - rewrite C. reflexivity.
  - injection C as ->. reflexivity.
Qed.

(** X24: a configuration that loads but has no usable [aws] section (the
    document is not a mapping, the key is missing, or the section is left
    empty and reads as a null) ends the run with that exception, after
    the clock was read and before any fetch. *)
Theorem main_unusable_aws_section (w : World) (h : list event)
  (r : result unit) (ev : list event) (cfg : pyval) (ev0 : list event)
  (rg : (string * string) * (string * string)) (x : exn) :
  main w h = (r, ev) ->
  load_config w h = (Ret cfg, ev0) ->
  previous_month_range (today w (h ++ ev0)) = Ret rg ->
  config_section cfg "aws" = Raise x ->
  r = Raise x
  /\ exit_status r = 1
  /\ ev = ev0 ++ [EvToday (today w (h ++ ev0))].
Proof.
  intros H L P C.
  rewrite (main_after_ranges w h cfg ev0 rg L P) in H.
  rewrite (process_config_bad_aws w cfg rg _ x C) in H.
  cbn [fst snd app] in H. injection H as <- <-. auto.
Qed.

Lemma main_unusable_aws_section_witness :
  let w := scripted (with_config config_null all_fine) march_15 in
  fst (main w [])
  = Raise (mkexn TypeError "'NoneType' object is not subscriptable")
  /\ exit_status (fst (main w [])) = 1.
Proof.
  intros w.
  destruct (main_unusable_aws_section w [] _ _ config_null
              (snd (load_config w []))
              (("2024-02-01", "2024-02-29"),
               ("2024-02-01T00:00:00Z", "2024-02-29T23:59:59Z"))
              (mkexn TypeError "'NoneType' object is not subscriptable")
              (surjective_pairing _) eq_refl eq_refl eq_refl) as (E & S & _).
  rewrite E. split; reflexivity.
Defined.

Lemma process_config_bad_azure (w : World) (cfg : pyval)
  (s e s' e' : string) (h : list event) (accounts : list pyval)
  (ev_aws : list event) (x : exn) :
  config_section cfg "aws" = Ret accounts ->
  for_each accounts (aws_body w s e) h = (Ret tt, ev_aws) ->
  config_section cfg "azure" = Raise x ->
  process_config w cfg ((s, e), (s', e')) h = (Raise x, ev_aws).
Proof.
  intros A F Z. unfold process_config, config_section in *.
  unfold bind at 1. unfold lift at 1.
  destruct (getitem cfg "aws") as [v | y | c]; try discriminate A.
  unfold bind at 1. unfold lift at 1. rewrite A. cbn [app].
  rewrite !app_nil_r. unfold bind at 1. rewrite F.
  unfold bind, lift.
  destruct (getitem cfg "azure") as [v' | y | c]; try discriminate Z.
  - rewrite Z. cbn [app]. now rewrite !app_nil_r.
  - injection Z as ->. cbn [app]. now rewrite !app_nil_r.
Qed.

(** X25: the [azure] section is read only when the AWS loop is over: a
    configuration whose [azure] section is missing or empty ends the run
    with that exception after every AWS account has been processed, the
    rows of the AWS accounts being already written. *)
Theorem main_unusable_azure_section (w : World) (h : list event)
  (r : result unit) (ev : list event) (cfg : pyval) (ev0 : list event)
  (s e s' e' : string) (accounts : list pyval) (ev_aws : list event) (x : exn) :
  main w h = (r, ev) ->
  load_config w h = (Ret cfg, ev0) ->
  previous_month_range (today w (h ++ ev0)) = Ret ((s, e), (s', e')) ->
  config_section cfg "aws" = Ret accounts ->
  for_each accounts (aws_body w s e)
    ((h ++ ev0) ++ [EvToday (today w (h ++ ev0))]) = (Ret tt, ev_aws) ->
  config_section cfg "azure" = Raise x ->
  r = Raise x
  /\ ev = ev0 ++ [EvToday (today w (h ++ ev0))] ++ ev_aws
  /\ rows_written [] ev = rows_written [] ev_aws.
Proof.
  intros H L P A F Z.
  rewrite (main_after_ranges w h cfg ev0 _ L P) in H.
  rewrite (process_config_bad_azure w cfg s e s' e' _ accounts ev_aws x A F Z) in H.
  cbn [fst snd] in H. injection H as <- <-.
  split; [reflexivity | split; [reflexivity |]].
  assert (D : Forall no_db_call (ev0 ++ [EvToday (today w (h ++ ev0))])).
  { apply Forall_app. split; [| repeat constructor].
    apply (emits_run no_db_call (load_config w) h (Ret cfg) ev0); [| exact L].
    unfold load_config. emits_auto. }
  rewrite <- (rows_written_no_db [] _ ev_aws D), <- app_assoc. reflexivity.
Qed.

Lemma main_unusable_azure_section_witness :
  let w := scripted (with_config config_empty_azure all_fine) march_15 in
  fst (main w [])
  = Raise (mkexn TypeError "'NoneType' object is not iterable")
  /\ List.length (rows_written [] (snd (main w []))) = 1%nat.
Proof.
  intros w.
  destruct (main_unusable_azure_section w [] _ _ config_empty_azure
              (snd (load_config w []))
              "2024-02-01" "2024-02-29"
              "2024-02-01T00:00:00Z" "2024-02-29T23:59:59Z"
              [aws_prod]
              (snd (for_each [aws_prod] (aws_body w "2024-02-01" "2024-02-29")
                      (([] ++ snd (load_config w []))
                         ++ [EvToday (today w ([] ++ snd (load_config w [])))])))
              (mkexn TypeError "'NoneType' object is not iterable")
              (surjective_pairing _) eq_refl eq_refl eq_refl) as (E & _ & R).
  - vm_compute. reflexivity.
  - reflexivity.
  - split; [exact E |]. rewrite R. vm_compute. reflexivity.
Defined.

(** X26: the period is computed once: every cost query of a run is for
    the AWS range, and every usage query for the Azure range, that
    [get_previous_month_range] returned from the one reading of the clock
    that follows the loading of the configuration, also when the date
    changes while the run lasts. *)
Theorem main_queries_one_period (w : World) (h : list event)
  (r : result unit) (ev : list event) (cfg : pyval) (ev0 : list event)
  (s e s' e' : string) :
  main w h = (r, ev) ->
  load_config w h = (Ret cfg, ev0) ->
  previous_month_range (today w (h ++ ev0)) = Ret ((s, e), (s', e')) ->
  (forall client kw out,
      In (EvCall (get_cost_and_usage client kw) out) ev ->
      lookup "TimePeriod" kw = Some (PDict [("Start", PStr s); ("End", PStr e)]))
  /\ (forall client scope q out,
         In (EvCall (query_usage client scope q) out) ev ->
         q = query_definition s' e').
Proof.
  intros H L P.
  rewrite (main_after_ranges w h cfg ev0 _ L P) in H.
  injection H as _ <-.
  assert (F : Forall (queries_period s e s' e')
                (ev0 ++ [EvToday (today w (h ++ ev0))]
                 ++ snd (process_config w cfg (s, e, (s', e'))
                           ((h ++ ev0) ++ [EvToday (today w (h ++ ev0))])))).
  { apply Forall_app. split; [| apply Forall_app; split].
    - apply (emits_run _ (load_config w) h (Ret cfg) ev0); [| exact L].
      unfold load_config. emits_auto; exact I.
    - repeat constructor.
    - assert (E : emits (queries_period s e s' e')
                    (process_config w cfg (s, e, (s', e')))).
      { unfold process_config, aws_body, azure_body, fetch_aws_costs,
          fetch_azure_costs, assume_role, insert_into_db.
        emits_auto; exact I. }
      apply E. }
  rewrite Forall_forall in F. split.
  - intros client kw out I. exact (F _ I).
  - intros client scope q out I. exact (F _ I).
Qed.

Lemma main_queries_one_period_witness :
  let w := scripted all_fine march_15 in
  In (EvCall (get_cost_and_usage (PObj "CostExplorer" [])
                (cost_kwargs "2024-02-01" "2024-02-29"))
        (Ok (cost_response "123.45")))
     (snd (main w []))
  /\ lookup "TimePeriod" (cost_kwargs "2024-02-01" "2024-02-29")
     = Some (PDict [("Start", PStr "2024-02-01"); ("End", PStr "2024-02-29")]).
Proof.
  intros w.
  assert (I : In (EvCall (get_cost_and_usage (PObj "CostExplorer" [])
                            (cost_kwargs "2024-02-01" "2024-02-29"))
                    (Ok (cost_response "123.45")))
                 (snd (main w [])))
    by find_event.
  split; [exact I |].
  exact (proj1 (main_queries_one_period w [] _ _ example_config
                  (snd (load_config w []))
                  "2024-02-01" "2024-02-29"
                  "2024-02-01T00:00:00Z" "2024-02-29T23:59:59Z"
                  (surjective_pairing _) eq_refl eq_refl) _ _ _ I).
Defined.

(** ** The exit status *)

Lemma exits_ret {A} (a : A) : exits_with_1 (ret a).
Proof. intros h c E. discriminate E. Qed.

Lemma exits_lift {A} (r : result A) :
  (forall c, r <> SysExit c) -> exits_with_1 (lift r).
Proof. intros N h c E. cbn in E. now contradiction (N c). Qed.

Lemma exits_print (f : stream) (line : string) : exits_with_1 (print f line).
Proof. intros h c E. discriminate E. Qed.

Lemma exits_exit {A} : exits_with_1 (@exit A 1).
Proof. intros h c E. cbn in E. now injection E as <-. Qed.

Lemma exits_extern (w : World) (c : call) : exits_with_1 (extern w c).
Proof.
  intros h k E. unfold extern in E. destruct (respond w h c); discriminate E.
Qed.

Lemma exits_today (w : World) : exits_with_1 (datetime_today w).
Proof. intros h c E. discriminate E. Qed.

Lemma exits_bind {A B} (m : M A) (k : A -> M B) :
  exits_with_1 m -> (forall a, exits_with_1 (k a)) -> exits_with_1 (bind m k).
Proof.
  intros Hm Hk h c E. unfold bind in E. specialize (Hm h).
  destruct (m h) as [[a | x | c'] ev]; cbn [fst] in *.
  - specialize (Hk a (h ++ ev) c). destruct (k a (h ++ ev)). exact (Hk E).
  - discriminate E.
  - injection E as <-. now apply Hm.
Qed.

Lemma exits_try_except {A B} (body : M A) (handler : exn -> M B)
  (k : A -> M B) :
  exits_with_1 body -> (forall x, exits_with_1 (handler x)) ->
  (forall a, exits_with_1 (k a)) -> exits_with_1 (try_except body handler k).
Proof.
  intros Hb Hh Hk h c E. unfold try_except in E. specialize (Hb h).
  destruct (body h) as [[a | x | c'] ev]; cbn [fst] in *.
  - specialize (Hk a (h ++ ev) c). destruct (k a (h ++ ev)). exact (Hk E).
  - specialize (Hh x (h ++ ev) c). destruct (handler x (h ++ ev)). exact (Hh E).
  - injection E as <-. now apply Hb.
Qed.

Lemma exits_for_each {A} (l : list A) (body : A -> M unit) :
  (forall a, exits_with_1 (body a)) -> exits_with_1 (for_each l body).
Proof.
  intros Hb. induction l as [| a l IH]; cbn [for_each].
  - apply exits_ret.
  - apply exits_bind; [apply Hb | intros _; exact IH].
Qed.

Lemma unblended_amount_no_exit (w : World) (response : pyval) (c : Z) :
  unblended_amount w response <> SysExit c.
Proof.
  destruct (unblended_amount_cases w response) as [[f E] | [x E]];
    rewrite E; discriminate.
Qed.

Ltac pure_no_exit :=
  intros ?;
  first
    [ apply getitem_no_exit | apply getattr_no_exit | apply getitem0_no_exit
    | apply py_len_no_exit | apply py_iter_no_exit | apply py_upper_no_exit
    | apply py_replace_no_exit | apply previous_month_range_no_exit
    | apply unblended_amount_no_exit ].

Ltac exits_step :=
  match goal with
  | |- exits_with_1 (bind _ _) => apply exits_bind; [| intro]
  | |- exits_with_1 (try_except _ _ _) =>
      apply exits_try_except; [| intro | intro]
  | |- exits_with_1 (ret _) => apply exits_ret
  | |- exits_with_1 (lift _) => apply exits_lift; pure_no_exit
  | |- exits_with_1 (exit 1) => apply exits_exit
  | |- exits_with_1 (print _ _) => apply exits_print
  | |- exits_with_1 (extern _ _) => apply exits_extern
  | |- exits_with_1 (datetime_today _) => apply exits_today
  | |- exits_with_1 (for_each _ _) => apply exits_for_each; intro
  | |- exits_with_1 (if ?b then _ else _) => destruct b
  | |- exits_with_1 (match ?x with _ => _ end) => destruct x
  end.

(** X27: whatever the configuration, the clock and the services do, the
    process ends with status 0 or with status 1. *)
Theorem exit_status_0_or_1 (w : World) (h : list event) :
  exit_status (fst (main w h)) = 0 \/ exit_status (fst (main w h)) = 1.
Proof.
  assert (E : exits_with_1 (main w)).
  { unfold main, load_config, get_previous_month_range, aws_body, azure_body,
      fetch_aws_costs, fetch_azure_costs, assume_role, insert_into_db.
    repeat exits_step. }
  specialize (E h). destruct (fst (main w h)) as [u | x | c]; cbn; auto.
Qed.

(** ** Worlds in which the caught failures occur *)

Lemma load_failure_exits_witness :
  let w := scripted config_missing march_15 in
  fst (main w []) = SysExit 1 /\ exit_status (fst (main w [])) = 1.
Proof.
  intros w.
  apply (load_failure_exits w []
           (mkexn FileNotFoundError
              "[Errno 2] No such file or directory: '/config/config.yaml'")).
  left. reflexivity.
Defined.

Lemma cost_query_failure_is_caught_witness :
  let w := scripted cost_query_fails march_15 in
  fst (fetch_aws_costs w aws_prod "2024-02-01" "2024-02-29" []) = Ret PNone
  /\ In (EvPrint stderr ("Error fetching AWS costs: " ++ exn_msg throttled)%string)
        (snd (fetch_aws_costs w aws_prod "2024-02-01" "2024-02-29" [])).
Proof.
  intros w.
  refine (cost_query_failure_is_caught w aws_prod "2024-02-01" "2024-02-29" []
            _ _ (PObj "CostExplorer" [])
            (cost_kwargs "2024-02-01" "2024-02-29") throttled
            (surjective_pairing _) _).
  find_event.
Defined.

Lemma usage_query_failure_is_caught_witness :
  let w := scripted usage_query_fails march_15 in
  let s := "2024-02-01T00:00:00Z" in
  let e := "2024-02-29T23:59:59Z" in
  fst (fetch_azure_costs w azure_main s e []) = Ret PNone
  /\ In (EvPrint stderr
           ("Error fetching Azure costs: " ++ exn_msg unauthorized)%string)
        (snd (fetch_azure_costs w azure_main s e [])).
Proof.
  intros w s e.
  refine (usage_query_failure_is_caught w azure_main s e [] _ _
            (PObj "CostManagementClient" []) "/subscriptions/sub-main"
            (query_definition s e) unauthorized (surjective_pairing _) _).
  find_event.
Defined.
